(** * International matching app: scoring, matching and report escalation

    A shallow embedding of the non-glue logic of the application:
    - [src/lib/matching.ts]: [calculateAge], [calculateCompatibilityScore],
      [getRecommendations], [likeUser], [passUser];
    - the reporting service ([ReportingService] in [src/unnamed/part_008]):
      [createReport], [calculateReportPriority], [checkForAutomaticActions],
      [applySafetyAction], [notifyAdminsOfNewReport], [blockUser],
      [unblockUser], [isUserBlocked], [deactivateUserInteractions],
      [getReportStatistics], [groupBy];
    - the report-creation route ([POST] in [src/unnamed/part_001]) and the
      routes of [/api/blocks] ([POST], [DELETE]).

    Numbers are [Z]; a JavaScript [NaN] is [None].  The database behind the
    supabase client is a record of tables (lists of rows); a call to the
    client is a step of a state monad that may fail, as told by a schedule of
    outcomes carried in the state. *)

From Stdlib Require Import ZArith List String Bool Lia Sorted Permutation.
Import ListNotations.
Local Open Scope string_scope.
Local Open Scope Z_scope.

(* ================================================================== *)
(** ** JavaScript built-ins used by the code *)
(* ================================================================== *)

Module JS.

(** A valid [Date] object: its time value and its calendar fields in the
    local time zone ([getMonth] counts from 0).  An Invalid Date is the
    [None] of [option Date]; every getter of an Invalid Date is [NaN]. *)
Record Date := mkDate {
  getTime : Z;
  getFullYear : Z;
  getMonth : Z;
  getDate : Z
}.

(** The ambient clock: what [new Date()] and [Date.now()] answer. *)
Record Clock := mkClock {
  new_Date : Date;
  Date_now : Z
}.

(** [Array.prototype.includes] on an array of strings. *)
Definition includes (l : list string) (x : string) : bool :=
  existsb (String.eqb x) l.

(** [includes] with an argument that may be [undefined]; an array of
    strings holds no [undefined]. *)
Definition includes_opt (l : list string) (x : option string) : bool :=
  match x with
  | Some x => includes l x
  | None => false
  end.

(** Truthiness of an optional string: [undefined] and [''] are falsy. *)
Definition truthy (s : option string) : bool :=
  match s with
  | Some s => negb (String.eqb s "")
  | None => false
  end.

(** [Math.round(n / d)] for integers [n] and [d > 0]: the quotient is
    rounded to the nearest integer, halves upwards. *)
Definition Math_round_div (n d : Z) : Z := (2 * n + d) / (2 * d).

Definition length {A} (l : list A) : Z := Z.of_nat (List.length l).

(** [Array.prototype.slice(0, e)] for an integer [e]: a negative [e]
    counts from the end of the array. *)
Definition slice0 {A} (l : list A) (e : Z) : list A :=
  if e <? 0 then firstn (Z.to_nat (Z.max 0 (length l + e))) l
  else firstn (Z.to_nat e) l.

(** A JavaScript [Set] of strings: insertion-ordered, no duplicates. *)
Definition Set_add (x : string) (s : list string) : list string :=
  if includes s x then s else s ++ [x].

End JS.

(* ================================================================== *)
(** ** [src/lib/matching.ts]: profiles, preferences and the score *)
(* ================================================================== *)

Inductive Gender := male | female.

(** [UserProfile].  [birth_date] and [last_active] hold the [Date] that
    [new Date(...)] builds from the stored string ([None]: Invalid Date).
    The fields no modelled function reads ([avatar_url], [city],
    [occupation], [bio], [height], [is_premium]) are left out. *)
Record UserProfile := mkUserProfile {
  id : string;
  full_name : string;
  birth_date : option JS.Date;
  gender : Gender;
  country : string;
  interests : list string;
  languages : list string;
  education_level : option string;
  verification_status : string;
  last_active : option JS.Date
}.

Record MatchingPreferences := mkMatchingPreferences {
  user_id : string;
  min_age : Z;
  max_age : Z;
  preferred_countries : list string;
  preferred_education : list string;
  preferred_occupation : list string
}.

Definition ms_per_day : Z := 1000 * 60 * 60 * 24.

(** [calculateAge]: [None] is the [NaN] produced by an Invalid Date. *)
Definition calculateAge (clk : JS.Clock) (birthDate : option JS.Date) : option Z :=
  let today := JS.new_Date clk in
  match birthDate with
  | None => None
  | Some birth =>
      let age := JS.getFullYear today - JS.getFullYear birth in
      let monthDiff := JS.getMonth today - JS.getMonth birth in
      if (monthDiff <? 0)
         || ((monthDiff =? 0) && (JS.getDate today <? JS.getDate birth))
      then Some (age - 1)
      else Some age
  end.

(** [user.interests.filter(interest => candidate.interests.includes(interest))]
    and the same on languages. *)
Definition common (mine theirs : list string) : list string :=
  filter (fun x => JS.includes theirs x) mine.

(** [daysSinceActive <= d], where [daysSinceActive] is the quotient of an
    integer number of milliseconds by [ms_per_day]: the comparison is
    decided on the milliseconds. *)
Definition days_le (elapsed_ms d : Z) : bool := elapsed_ms <=? d * ms_per_day.

(** The body of [calculateCompatibilityScore] up to its [return]: the
    accumulators [score] and [maxScore]. *)
Definition score_and_maxScore (clk : JS.Clock) (user candidate : UserProfile)
    (preferences : option MatchingPreferences) : Z * Z :=
  let score := 0 in
  let maxScore := 0 in
  (* age, 25 points *)
  let maxScore := maxScore + 25 in
  let score :=
    match preferences with
    | Some p =>
        match calculateAge clk (birth_date candidate) with
        | Some candidateAge =>
            if (min_age p <=? candidateAge) && (candidateAge <=? max_age p)
            then score + 25 else score
        | None => score
        end
    | None => score
    end in
  (* country preference, 20 points *)
  let maxScore := maxScore + 20 in
  let score :=
    match preferences with
    | Some p =>
        if 0 <? JS.length (preferred_countries p)
        then if JS.includes (preferred_countries p) (country candidate)
             then score + 20 else score
        else score + 10
    | None => score + 10
    end in
  (* education level, 15 points *)
  let maxScore := maxScore + 15 in
  let score :=
    let education := education_level candidate in
    match preferences with
    | Some p =>
        if (0 <? JS.length (preferred_education p)) && JS.truthy education
        then if JS.includes_opt (preferred_education p) education
             then score + 15 else score
        else if JS.truthy education then score + 7 else score
    | None => if JS.truthy education then score + 7 else score
    end in
  (* common interests, 20 points *)
  let maxScore := maxScore + 20 in
  let commonInterests := common (interests user) (interests candidate) in
  let score := score + Z.min 20 (JS.length commonInterests * 4) in
  (* common languages, 10 points *)
  let maxScore := maxScore + 10 in
  let commonLanguages := common (languages user) (languages candidate) in
  let score := score + Z.min 10 (JS.length commonLanguages * 5) in
  (* recent activity, 10 points *)
  let maxScore := maxScore + 10 in
  let score :=
    match last_active candidate with
    | Some lastActive =>
        let elapsed := JS.Date_now clk - JS.getTime lastActive in
        if days_le elapsed 1 then score + 10
        else if days_le elapsed 7 then score + 7
        else if days_le elapsed 30 then score + 5
        else score + 2
    | None => score + 2
    end in
  (score, maxScore).

(** [return Math.round((score / maxScore) * 100)]. *)
Definition calculateCompatibilityScore (clk : JS.Clock) (user candidate : UserProfile)
    (preferences : option MatchingPreferences) : Z :=
  let '(score, maxScore) := score_and_maxScore clk user candidate preferences in
  JS.Math_round_div (score * 100) maxScore.

(** *** The six factors, one by one

    The same six contributions written as separate functions, against
    which the accumulator code above is compared. *)

Definition age_points (clk : JS.Clock) (candidate : UserProfile)
    (preferences : option MatchingPreferences) : Z :=
  match preferences with
  | Some p =>
      match calculateAge clk (birth_date candidate) with
      | Some a => if (min_age p <=? a) && (a <=? max_age p) then 25 else 0
      | None => 0
      end
  | None => 0
  end.

Definition country_points (candidate : UserProfile)
    (preferences : option MatchingPreferences) : Z :=
  match preferences with
  | Some p =>
      match preferred_countries p with
      | [] => 10
      | l => if JS.includes l (country candidate) then 20 else 0
      end
  | None => 10
  end.

Definition education_points (candidate : UserProfile)
    (preferences : option MatchingPreferences) : Z :=
  match education_level candidate with
  | None => 0
  | Some e =>
      if String.eqb e "" then 0
      else match preferences with
           | Some p =>
               match preferred_education p with
               | [] => 7
               | l => if JS.includes l e then 15 else 0
               end
           | None => 7
           end
  end.

Definition interest_points (user candidate : UserProfile) : Z :=
  Z.min 20 (4 * JS.length (common (interests user) (interests candidate))).

Definition language_points (user candidate : UserProfile) : Z :=
  Z.min 10 (5 * JS.length (common (languages user) (languages candidate))).

Definition recency_points (clk : JS.Clock) (candidate : UserProfile) : Z :=
  match last_active candidate with
  | Some lastActive =>
      let elapsed := JS.Date_now clk - JS.getTime lastActive in
      if elapsed <=? ms_per_day then 10
      else if elapsed <=? 7 * ms_per_day then 7
      else if elapsed <=? 30 * ms_per_day then 5
      else 2
  | None => 2
  end.

(** The profile [u] with its interests replaced. *)
Definition with_interests (u : UserProfile) (l : list string) : UserProfile :=
  mkUserProfile (id u) (full_name u) (birth_date u) (gender u) (country u)
    l (languages u) (education_level u) (verification_status u) (last_active u).

(* ================================================================== *)
(** ** The backend: tables, clock and the client's failures *)
(* ================================================================== *)

(** A row of [matches]; [match_id] is the primary key the database
    generates (a counter here). *)
Record Match := mkMatch {
  match_id : nat;
  user1_id : string;
  user2_id : string;
  user1_liked : bool;
  user2_liked : bool;
  is_mutual : bool;
  matched_at : option Z
}.

Record ChatRoomRow := mkChatRoomRow {
  room_id : nat;
  room_match_id : nat
}.

Inductive Priority := low | medium | high | critical.
Inductive ReportStatus := pending | investigating | resolved | rejected.

(** [ReportData]; [report_type] is a string, as it reaches the service
    unvalidated from the request body. *)
Record ReportData := mkReportData {
  report_id : nat;
  reporter_id : string;
  reported_user_id : string;
  reported_content_id : option string;
  report_type : string;
  category : option string;
  description : option string;
  status : ReportStatus;
  priority : Priority;
  created_at : Z;
  updated_at : Z
}.

Inductive ActionType :=
  warning | temporary_ban | permanent_ban | profile_review | content_removal.

Record SafetyAction := mkSafetyAction {
  action_user_id : string;
  action_type : ActionType;
  reason : string;
  duration : option Z;
  applied_by : string;
  applied_at : Z
}.

(** The columns of [profiles] that the reporting service reads or writes. *)
Record Account := mkAccount {
  account_id : string;
  role : string;
  account_status : string;
  suspension_until : option Z;
  banned_at : option Z
}.

Record NotificationData := mkNotificationData {
  notif_user_id : string;
  notif_type : string;
  title : string;
  body : string;
  is_read : bool
}.

(** The state the code runs against.  [failures] schedules the outcome of
    the coming calls to the supabase client: the head says whether the next
    call returns an error (and then has no effect); calls beyond the end of
    the list succeed. *)
Record World := mkWorld {
  matches : list Match;
  chat_rooms : list ChatRoomRow;
  reports : list ReportData;
  safety_actions : list SafetyAction;
  profiles : list Account;
  notifications : list NotificationData;
  next_id : nat;
  failures : list bool;
  clock : JS.Clock
}.

Definition set_matches (v : list Match) (w : World) : World :=
  mkWorld v (chat_rooms w) (reports w) (safety_actions w) (profiles w)
    (notifications w) (next_id w) (failures w) (clock w).
Definition set_chat_rooms (v : list ChatRoomRow) (w : World) : World :=
  mkWorld (matches w) v (reports w) (safety_actions w) (profiles w)
    (notifications w) (next_id w) (failures w) (clock w).
Definition set_reports (v : list ReportData) (w : World) : World :=
  mkWorld (matches w) (chat_rooms w) v (safety_actions w) (profiles w)
    (notifications w) (next_id w) (failures w) (clock w).
Definition set_safety_actions (v : list SafetyAction) (w : World) : World :=
  mkWorld (matches w) (chat_rooms w) (reports w) v (profiles w)
    (notifications w) (next_id w) (failures w) (clock w).
Definition set_profiles (v : list Account) (w : World) : World :=
  mkWorld (matches w) (chat_rooms w) (reports w) (safety_actions w) v
    (notifications w) (next_id w) (failures w) (clock w).
Definition set_notifications (v : list NotificationData) (w : World) : World :=
  mkWorld (matches w) (chat_rooms w) (reports w) (safety_actions w) (profiles w)
    v (next_id w) (failures w) (clock w).
Definition set_next_id (v : nat) (w : World) : World :=
  mkWorld (matches w) (chat_rooms w) (reports w) (safety_actions w) (profiles w)
    (notifications w) v (failures w) (clock w).
Definition set_failures (v : list bool) (w : World) : World :=
  mkWorld (matches w) (chat_rooms w) (reports w) (safety_actions w) (profiles w)
    (notifications w) (next_id w) v (clock w).

(** *** The state monad of the asynchronous code *)

Definition M (A : Type) : Type := World -> A * World.

Definition ret {A} (a : A) : M A := fun w => (a, w).

Definition bind {A B} (c : M A) (k : A -> M B) : M B :=
  fun w => let '(a, w') := c w in k a w'.

Declare Scope monad_scope.
Delimit Scope monad_scope with monad.
Notation "x <- c ;; k" := (bind c (fun x => k))
  (at level 61, c at next level, right associativity) : monad_scope.
Notation "c ;;; k" := (bind c (fun _ => k))
  (at level 61, right associativity) : monad_scope.
Local Open Scope monad_scope.

Definition get : M World := fun w => (w, w).
Definition modify (f : World -> World) : M unit := fun w => (tt, f w).

(** One round trip to the backend: [true] when the call goes through. *)
Definition request : M bool :=
  fun w =>
    match failures w with
    | [] => (true, w)
    | failed :: rest => (negb failed, set_failures rest w)
    end.

(** The timestamp of [new Date().toISOString()] and the value of
    [Date.now()]. *)
Definition new_Date_time : M Z := fun w => (JS.getTime (JS.new_Date (clock w)), w).
Definition Date_now : M Z := fun w => (JS.Date_now (clock w), w).

(** A primary key from the database's generator. *)
Definition fresh_id : M nat :=
  fun w => (next_id w, set_next_id (S (next_id w)) w).

(** [.single()]: the data when exactly one row answers, an error
    otherwise. *)
Definition single {A} (rows : list A) : option A :=
  match rows with
  | [r] => Some r
  | _ => None
  end.

(** [from(table).select().<filters>]: the rows, or [None] on an error. *)
Definition select {A} (table : World -> list A) (p : A -> bool) : M (option (list A)) :=
  ok <- request ;;
  w <- get ;;
  ret (if ok then Some (filter p (table w)) else None).

Definition select_single {A} (table : World -> list A) (p : A -> bool) : M (option A) :=
  rows <- select table p ;;
  ret (match rows with Some rows => single rows | None => None end).

(* ================================================================== *)
(** ** [src/lib/matching.ts]: recommendations *)
(* ================================================================== *)

(** What a query answers: [{ data, error }]. *)
Record Response (A : Type) := mkResponse {
  data : option A;
  error : bool
}.
Arguments mkResponse {A} _ _.
Arguments data {A} _.
Arguments error {A} _.

(** The arguments of [new Date(year, month, date)], standing for the day
    string [toISOString().split('T')[0]] sent to the database. *)
Definition DateArgs : Type := Z * Z * Z.

(** The candidate query that [getRecommendations] builds; the order
    ([last_active], descending) is the same in every query. *)
Record CandidateQuery := mkCandidateQuery {
  q_neq_gender : Gender;
  q_eq_verification_status : string;
  q_not_in_id : list string;
  q_limit : Z;
  q_birth_date_lte_gte : option (DateArgs * DateArgs);
  q_in_country : option (list string)
}.

(** The answers of the database to the five reads of
    [getRecommendations]; the candidates depend on the query sent. *)
Record RecommendationReads := mkRecommendationReads {
  currentUser_read : Response UserProfile;
  preferences_read : Response MatchingPreferences;
  existingMatches_read : option (list (string * string));
  blocks_read : option (list string);
  candidates_read : CandidateQuery -> Response (list UserProfile)
}.

(** A candidate with its score: [{ ...candidate, compatibilityScore }]. *)
Record ScoredCandidate := mkScoredCandidate {
  candidate_of : UserProfile;
  compatibilityScore : Z
}.

(** [Array.prototype.sort(compare)]: a stable sort; an element goes in
    front of the first one it does not compare greater than. *)
Fixpoint sort_insert {A} (compare : A -> A -> Z) (x : A) (l : list A) : list A :=
  match l with
  | [] => [x]
  | y :: l' =>
      if compare x y <=? 0 then x :: y :: l'
      else y :: sort_insert compare x l'
  end.

Definition Array_sort {A} (compare : A -> A -> Z) (l : list A) : list A :=
  fold_right (sort_insert compare) [] l.

Definition getUserPreferences (r : Response MatchingPreferences)
  : option MatchingPreferences :=
  if error r then None else data r.

(** [excludeIds]: the user, the other side of every existing match, and
    every blocked user. *)
Definition excludeIds (userId : string)
    (existingMatches : option (list (string * string)))
    (blocks : option (list string)) : list string :=
  let excludeIds := [userId] in
  let excludeIds :=
    match existingMatches with
    | Some ms =>
        fold_left
          (fun s m =>
             JS.Set_add (if String.eqb (fst m) userId then snd m else fst m) s)
          ms excludeIds
    | None => excludeIds
    end in
  match blocks with
  | Some bs => fold_left (fun s blocked_id => JS.Set_add blocked_id s) bs excludeIds
  | None => excludeIds
  end.

Definition candidateQuery (clk : JS.Clock) (currentUser : UserProfile)
    (preferences : option MatchingPreferences) (excludeIds : list string)
    (limit : Z) : CandidateQuery :=
  let today := JS.new_Date clk in
  mkCandidateQuery
    (gender currentUser)
    "verified"
    excludeIds
    (limit * 2)
    match preferences with
    | Some p =>
        if negb (min_age p =? 0) && negb (max_age p =? 0)
        then Some
               ((JS.getFullYear today - min_age p, JS.getMonth today, JS.getDate today),
                (JS.getFullYear today - max_age p - 1, JS.getMonth today, JS.getDate today))
        else None
    | None => None
    end
    match preferences with
    | Some p =>
        if 0 <? JS.length (preferred_countries p)
        then Some (preferred_countries p) else None
    | None => None
    end.

Definition getRecommendations (clk : JS.Clock) (db : RecommendationReads)
    (userId : string) (limit : Z) : list ScoredCandidate :=
  match (if error (currentUser_read db) then None else data (currentUser_read db)) with
  | None => []
  | Some currentUser =>
      let preferences := getUserPreferences (preferences_read db) in
      let excludeIds := excludeIds userId (existingMatches_read db) (blocks_read db) in
      let query := candidateQuery clk currentUser preferences excludeIds limit in
      let answer := candidates_read db query in
      if error answer then []
      else match data answer with
           | None => []
           | Some candidates =>
               let scoredCandidates :=
                 map (fun candidate =>
                        mkScoredCandidate candidate
                          (calculateCompatibilityScore clk currentUser candidate preferences))
                     candidates in
               JS.slice0
                 (Array_sort (fun a b => compatibilityScore b - compatibilityScore a)
                    scoredCandidates)
                 limit
           end
  end.

(* ================================================================== *)
(** ** [src/lib/matching.ts]: likes and passes *)
(* ================================================================== *)

(** The [.or(and(...),and(...))] filter on the pair of users. *)
Definition pair_filter (userId targetUserId : string) (m : Match) : bool :=
  (String.eqb (user1_id m) userId && String.eqb (user2_id m) targetUserId)
  || (String.eqb (user1_id m) targetUserId && String.eqb (user2_id m) userId).

Inductive LikedField := user1_liked_field | user2_liked_field.

(** The update object of [likeUser] applied to a row:
    [{ [updateField]: true, is_mutual: isMutual,
       ...(isMutual && { matched_at }) }]. *)
Definition like_update (updateField : LikedField) (isMutual : bool) (now : Z)
    (m : Match) : Match :=
  mkMatch (match_id m) (user1_id m) (user2_id m)
    (match updateField with user1_liked_field => true | _ => user1_liked m end)
    (match updateField with user2_liked_field => true | _ => user2_liked m end)
    isMutual
    (if isMutual then Some now else matched_at m).

(** [from('matches').update(u).eq('id', i).select()]: the rows written. *)
Definition update_match (i : nat) (u : Match -> Match) : M (Response (list Match)) :=
  ok <- request ;;
  if ok then
    w <- get ;;
    let hit m := Nat.eqb (match_id m) i in
    modify (set_matches (map (fun m => if hit m then u m else m) (matches w))) ;;;
    ret (mkResponse (Some (map u (filter hit (matches w)))) false)
  else ret (mkResponse None true).

(** [from('matches').insert(row)]; the database gives the row its key. *)
Definition insert_match (row : nat -> Match) : M (Response (list Match)) :=
  ok <- request ;;
  if ok then
    i <- fresh_id ;;
    w <- get ;;
    modify (set_matches (matches w ++ [row i])) ;;;
    ret (mkResponse (Some [row i]) false)
  else ret (mkResponse None true).

Definition insert_chat_room (match_id : nat) : M unit :=
  ok <- request ;;
  if ok then
    i <- fresh_id ;;
    w <- get ;;
    modify (set_chat_rooms (chat_rooms w ++ [mkChatRoomRow i match_id]))
  else ret tt.

Record LikeResult := mkLikeResult {
  like_data : option (list Match);
  like_error : bool;
  isMatch : bool
}.

Definition likeUser (userId targetUserId : string) : M LikeResult :=
  existingMatch <- select_single matches (pair_filter userId targetUserId) ;;
  match existingMatch with
  | Some existingMatch =>
      let updateField :=
        if String.eqb (user1_id existingMatch) userId
        then user1_liked_field else user2_liked_field in
      let isMutual :=
        if String.eqb (user1_id existingMatch) userId
        then user2_liked existingMatch else user1_liked existingMatch in
      now <- new_Date_time ;;
      r <- update_match (match_id existingMatch) (like_update updateField isMutual now) ;;
      (if isMutual && negb (is_mutual existingMatch)
       then insert_chat_room (match_id existingMatch)
       else ret tt) ;;;
      ret (mkLikeResult (data r) (error r) isMutual)
  | None =>
      r <- insert_match (fun i => mkMatch i userId targetUserId true false false None) ;;
      ret (mkLikeResult (data r) (error r) false)
  end.

(** [passUser]: the upsert carries no primary key, so it adds a row. *)
Definition passUser (userId targetUserId : string) : M (Response (list Match)) :=
  r <- insert_match (fun i => mkMatch i userId targetUserId false false false None) ;;
  ret (mkResponse None (error r)).

(* ================================================================== *)
(** ** The reporting service ([ReportingService]) *)
(* ================================================================== *)

(** The argument of [createReport]: a report without [id], [status],
    [priority] and the two timestamps. *)
Record NewReport := mkNewReport {
  new_reporter_id : string;
  new_reported_user_id : string;
  new_reported_content_id : option string;
  new_report_type : string;
  new_category : option string;
  new_description : option string
}.

(** The argument of [applySafetyAction]: an action without [id],
    [user_id] and [applied_at]. *)
Record ActionData := mkActionData {
  ad_action_type : ActionType;
  ad_reason : string;
  ad_duration : option Z;
  ad_applied_by : string
}.

Definition calculateReportPriority (report_type : string) : Priority :=
  let criticalTypes := ["abuse"; "harassment"] in
  let highPriorityTypes := ["inappropriate_content"; "fake_profile"] in
  if JS.includes criticalTypes report_type then critical
  else if JS.includes highPriorityTypes report_type then high
  else medium.

Definition Priority_toUpperCase (p : Priority) : string :=
  match p with
  | low => "LOW"
  | medium => "MEDIUM"
  | high => "HIGH"
  | critical => "CRITICAL"
  end.

(** [from('notifications').insert(rows)]. *)
Definition insert_notifications (rows : list NotificationData) : M bool :=
  ok <- request ;;
  if ok then
    w <- get ;;
    modify (set_notifications (notifications w ++ rows)) ;;;
    ret true
  else ret false.

(** [notificationService.createNotification]; the push message that
    follows a stored notification goes to another service and touches no
    table. *)
Definition createNotification (n : NotificationData) : M (option NotificationData) :=
  ok <- insert_notifications [n] ;;
  ret (if ok then Some n else None).

Definition notifyAdminsOfNewReport (report : ReportData) : M unit :=
  admins <- select profiles (fun a => String.eqb (role a) "admin") ;;
  match admins with
  | Some (admin :: others) =>
      let notifications :=
        map (fun admin =>
               mkNotificationData (account_id admin) "system"
                 ("새로운 신고 (" ++ Priority_toUpperCase (priority report) ++ ")")
                 (report_type report ++ " 유형의 신고가 접수되었습니다.")
                 false)
            (admin :: others) in
      insert_notifications notifications ;;; ret tt
  | _ => ret tt
  end.

(** The object [updateData] of [applySafetyAction]: the columns of the
    account it overwrites; [None] is the empty object.  [now] is the
    answer of [Date.now()] and [today] the time of [new Date()].  The end
    of a temporary ban is taken to be a time value, as it is for the 72
    hours of the escalation rules: [toISOString()] throws on any other,
    and the statements on a duration of the caller's say so. *)
Definition updateData (actionData : ActionData) (now today : Z)
  : option (Account -> Account) :=
  match ad_action_type actionData with
  | temporary_ban =>
      let hours :=
        match ad_duration actionData with
        | Some d => if d =? 0 then 24 else d
        | None => 24
        end in
      Some (fun a =>
              mkAccount (account_id a) (role a) "suspended"
                (Some (now + hours * 60 * 60 * 1000)) (banned_at a))
  | permanent_ban =>
      Some (fun a =>
              mkAccount (account_id a) (role a) "banned"
                (suspension_until a) (Some today))
  | profile_review =>
      Some (fun a =>
              mkAccount (account_id a) (role a) "under_review"
                (suspension_until a) (banned_at a))
  | _ => None
  end.

(** [from('profiles').update(u).eq('id', userId)]. *)
Definition update_profile (userId : string) (u : Account -> Account) : M unit :=
  ok <- request ;;
  if ok then
    w <- get ;;
    modify (set_profiles
              (map (fun a => if String.eqb (account_id a) userId then u a else a)
                   (profiles w)))
  else ret tt.

Definition applySafetyAction (userId : string) (actionData : ActionData) : M bool :=
  applied_at <- new_Date_time ;;
  ok <- request ;;
  if negb ok then ret false
  else
    w <- get ;;
    modify (set_safety_actions
              (safety_actions w ++
               [mkSafetyAction userId (ad_action_type actionData) (ad_reason actionData)
                  (ad_duration actionData) (ad_applied_by actionData) applied_at])) ;;;
    now <- Date_now ;;
    today <- new_Date_time ;;
    match updateData actionData now today with
    | Some u => update_profile userId u
    | None => ret tt
    end ;;;
    createNotification
      (mkNotificationData userId "system" "계정 조치 알림"
         ("계정에 안전 조치가 적용되었습니다: " ++ ad_reason actionData)
         false) ;;;
    ret true.

(** The [count] of the reports of one type against one user since
    [Date.now() - 30 days]; [count || 0] makes a failed query count 0. *)
Definition recent_report (userId reportType : string) (since : Z) (r : ReportData) : bool :=
  String.eqb (reported_user_id r) userId
  && String.eqb (report_type r) reportType
  && (since <=? created_at r).

Definition checkForAutomaticActions (userId reportType : string) : M unit :=
  now <- Date_now ;;
  recentReports <-
    select reports (recent_report userId reportType (now - 30 * 24 * 60 * 60 * 1000)) ;;
  let reportCount :=
    match recentReports with
    | Some rows => JS.length rows
    | None => 0
    end in
  if (5 <=? reportCount) && String.eqb reportType "harassment" then
    applySafetyAction userId
      (mkActionData temporary_ban "반복적인 괴롭힘 신고로 인한 자동 조치"
         (Some 72) "system") ;;; ret tt
  else if (3 <=? reportCount) && String.eqb reportType "inappropriate_content" then
    applySafetyAction userId
      (mkActionData profile_review "반복적인 부적절한 콘텐츠 신고로 인한 프로필 검토"
         None "system") ;;; ret tt
  else if 10 <=? reportCount then
    applySafetyAction userId
      (mkActionData permanent_ban "반복적인 신고로 인한 영구 정지"
         None "system") ;;; ret tt
  else ret tt.

(** [from('reports').insert({...}).select().single()]. *)
Definition insert_report (row : nat -> ReportData) : M (option ReportData) :=
  ok <- request ;;
  if ok then
    i <- fresh_id ;;
    w <- get ;;
    modify (set_reports (reports w ++ [row i])) ;;;
    ret (Some (row i))
  else ret None.

Definition createReport (reportData : NewReport) : M (option ReportData) :=
  let priority := calculateReportPriority (new_report_type reportData) in
  now <- new_Date_time ;;
  inserted <-
    insert_report (fun i =>
      mkReportData i (new_reporter_id reportData) (new_reported_user_id reportData)
        (new_reported_content_id reportData) (new_report_type reportData)
        (new_category reportData) (new_description reportData)
        pending priority now now) ;;
  match inserted with
  | None => ret None
  | Some data =>
      notifyAdminsOfNewReport data ;;;
      checkForAutomaticActions (new_reported_user_id reportData)
        (new_report_type reportData) ;;;
      ret (Some data)
  end.

(* ================================================================== *)
(** ** The report-creation route ([POST /api/reports]) *)
(* ================================================================== *)

(** The JSON object of the request: any field may be missing. *)
Record ReportRequest := mkReportRequest {
  req_reporter_id : option string;
  req_reported_user_id : option string;
  req_reported_content_id : option string;
  req_report_type : option string;
  req_category : option string;
  req_description : option string
}.

Inductive ResponseBody :=
| error_body (message : string)
| report_body (report : ReportData).

Record HttpResponse := mkHttpResponse {
  http_status : Z;
  http_body : ResponseBody
}.

(** The duplicate check; a comparison of the column with [null] answers
    no row. *)
Definition same_report (reporter reported : string) (content : option string)
    (r : ReportData) : bool :=
  String.eqb (reporter_id r) reporter
  && String.eqb (reported_user_id r) reported
  && match content, reported_content_id r with
     | Some c, Some c' => JS.truthy content && String.eqb c' c
     | _, _ => false
     end.

(** [POST]: [!x] holds of a field that is missing or the empty string, so
    the required fields are strings from the first check on. *)
Definition POST (reportData : ReportRequest) : M HttpResponse :=
  match req_reporter_id reportData, req_reported_user_id reportData,
        req_report_type reportData with
  | Some reporter, Some reported, Some type =>
      if String.eqb reporter "" || String.eqb reported "" || String.eqb type ""
      then ret (mkHttpResponse 400 (error_body "Missing required fields"))
      else if String.eqb reporter reported
      then ret (mkHttpResponse 400 (error_body "Cannot report yourself"))
      else
        existingReport <-
          select_single reports
            (same_report reporter reported (req_reported_content_id reportData)) ;;
        match existingReport with
        | Some _ =>
            ret (mkHttpResponse 409
                   (error_body "You have already reported this user/content"))
        | None =>
            report <-
              createReport
                (mkNewReport reporter reported (req_reported_content_id reportData)
                   type (req_category reportData) (req_description reportData)) ;;
            match report with
            | None => ret (mkHttpResponse 500 (error_body "Failed to create report"))
            | Some report => ret (mkHttpResponse 200 (report_body report))
            end
        end
  | _, _, _ => ret (mkHttpResponse 400 (error_body "Missing required fields"))
  end.

(* ================================================================== *)
(** ** Predicates used in the statements *)
(* ================================================================== *)

(** A list in which no element has a smaller [key] than a later one. *)
Definition non_increasing {A} (key : A -> Z) (a b : A) : Prop := key b <= key a.

(** The invariant of a row of [matches]. *)
Definition mutual_implies_liked (m : Match) : Prop :=
  is_mutual m = true -> user1_liked m = true /\ user2_liked m = true.


(** The one row of [matches] on the pair of users, when there is exactly
    one: what the first query of [likeUser] reads. *)
Definition existing_match (userId targetUserId : string) (w : World) : option Match :=
  single (filter (pair_filter userId targetUserId) (matches w)).

(** In the row [m], has the participant other than [userId] liked? *)
Definition liked_by_other (userId : string) (m : Match) : bool :=
  if String.eqb (user1_id m) userId then user2_liked m else user1_liked m.


(** The like of [userId] makes the match newly mutual: the other side had
    liked and the match was not mutual before. *)
Definition newly_mutual (userId targetUserId : string) (w : World) : Prop :=
  exists e, existing_match userId targetUserId w = Some e
            /\ liked_by_other userId e = true
            /\ is_mutual e = false.

(** The reports of one type against one user in the 30 days before the
    clock's [Date.now()]. *)
Definition recent_reports (userId reportType : string) (w : World) : list ReportData :=
  filter (recent_report userId reportType
            (JS.Date_now (clock w) - 30 * 24 * 60 * 60 * 1000))
         (reports w).

(** The three rules of the escalation, as conditions on the count. *)
Definition threshold_reached (reportType : string) (reportCount : Z) : bool :=
  ((5 <=? reportCount) && String.eqb reportType "harassment")
  || ((3 <=? reportCount) && String.eqb reportType "inappropriate_content")
  || (10 <=? reportCount).

(** A computation that leaves a part of the state as it found it. *)
Definition frames {T A} (part : World -> T) (c : M A) : Prop :=
  forall w, part (snd (c w)) = part w.

(** Primary keys of [matches]: no two rows share one, and the generator
    is ahead of all of them. *)
Definition fresh_keys (ms : list Match) (next : nat) : Prop :=
  NoDup (map match_id ms) /\ Forall (fun m => (match_id m < next)%nat) ms.

(** The account of a user: the rows of [profiles] with that id. *)
Definition accounts_of (userId : string) (w : World) : list Account :=
  filter (fun a => String.eqb (account_id a) userId) (profiles w).

(* ================================================================== *)
(** ** Sample data *)
(* ================================================================== *)

Module Sample.

(** 2024-06-01 and 2025-06-01, midnight UTC. *)
Definition clock_2024 : JS.Clock :=
  JS.mkClock (JS.mkDate 1717200000000 2024 5 1) 1717200000000.
Definition clock_2025 : JS.Clock :=
  JS.mkClock (JS.mkDate 1748736000000 2025 5 1) 1748736000000.

Definition alice : UserProfile :=
  mkUserProfile "u-alice" "Alice" (Some (JS.mkDate 820454400000 1996 0 1))
    female "Korea" ["travel"; "music"; "cooking"] ["ko"; "en"]
    (Some "master") "verified" (Some (JS.mkDate 1717113600000 2024 4 31)).

(** Born 1994-03-10, last active 2024-05-31 at noon. *)
Definition bob : UserProfile :=
  mkUserProfile "u-bob" "Bob" (Some (JS.mkDate 763257600000 1994 2 10))
    male "Ukraine" ["music"; "hiking"; "cooking"] ["en"; "ru"]
    (Some "bachelor") "verified" (Some (JS.mkDate 1717156800000 2024 4 31)).

Definition carol : UserProfile :=
  mkUserProfile "u-carol" "Carol" (Some (JS.mkDate 883612800000 1998 0 1))
    male "Russia" ["chess"] ["ru"]
    None "verified" (Some (JS.mkDate 1704067200000 2024 0 1)).

Definition alice_preferences : MatchingPreferences :=
  mkMatchingPreferences "u-alice" 25 30 ["Ukraine"; "Russia"]
    ["bachelor"; "master"] [].

(** What the database answers to Alice's discovery feed. *)
Definition alice_reads : RecommendationReads :=
  mkRecommendationReads
    (mkResponse (Some alice) false)
    (mkResponse (Some alice_preferences) false)
    (Some [("u-alice", "u-erin"); ("u-frank", "u-alice")])
    (Some ["u-gus"])
    (fun _ => mkResponse (Some [carol; bob]) false).

(** Bob has liked Alice; nothing else has happened. *)
Definition bob_likes_alice : World :=
  mkWorld [mkMatch 0 "u-bob" "u-alice" true false false None]
    [] [] [] [] [] 1 [] clock_2024.

(** Nine harassment reports against Bob, one on each of the nine days
    before 2024-06-01. *)
Definition nine_reports : list ReportData :=
  map (fun i =>
         mkReportData i "u-reporter" "u-bob" None "harassment"
           (Some "behavior") (Some "threatening messages") pending critical
           (1717200000000 - Z.of_nat i * ms_per_day)
           (1717200000000 - Z.of_nat i * ms_per_day))
      (seq 1 9).

Definition accounts : list Account :=
  [mkAccount "u-alice" "user" "active" None None;
   mkAccount "u-bob" "user" "active" None None;
   mkAccount "u-admin" "admin" "active" None None].

Definition bob_reported_nine_times : World :=
  mkWorld [] [] nine_reports [] accounts [] 10 [] clock_2024.

Definition quiet_world : World :=
  mkWorld [] [] [] [] accounts [] 0 [] clock_2024.

(** Alice reports Bob for harassment. *)
Definition harassment_by_bob : NewReport :=
  mkNewReport "u-alice" "u-bob" None "harassment"
    (Some "behavior") (Some "threatening messages").

(** A request in which Bob reports himself. *)
Definition self_report : ReportRequest :=
  mkReportRequest (Some "u-bob") (Some "u-bob") None (Some "spam")
    (Some "profile") (Some "testing").

Definition report_of_bob : ReportRequest :=
  mkReportRequest (Some "u-alice") (Some "u-bob") None (Some "harassment")
    (Some "behavior") (Some "threatening messages").

End Sample.

(* ================================================================== *)
(** ** Blocks: [ReportingService.blockUser], [unblockUser],
       [isUserBlocked] and the routes of [/api/blocks] *)
(* ================================================================== *)

Module Blocking.

(** [BlockData]; [id] is the primary key the database generates. *)
Record BlockData := mkBlockData {
  id : nat;
  blocker_id : string;
  blocked_user_id : string;
  reason : string;
  created_at : Z;
  is_mutual : bool
}.

(** A row of [matches] with the column [is_active], and a row of
    [chat_rooms] with the columns [participants] and [is_active], which
    [deactivateUserInteractions] reads and writes. *)
Record MatchRow := mkMatchRow {
  match_row : Match;
  match_is_active : bool
}.

Record RoomRow := mkRoomRow {
  room_row : ChatRoomRow;
  participants : list string;
  room_is_active : bool
}.

(** The state: the three tables, the key generator, the schedule of the
    client's failures (as in [World]) and the clock. *)
Record State := mkState {
  blocks : list BlockData;
  matches : list MatchRow;
  chat_rooms : list RoomRow;
  next_id : nat;
  failures : list bool;
  clock : JS.Clock
}.

Definition set_blocks (v : list BlockData) (s : State) : State :=
  mkState v (matches s) (chat_rooms s) (next_id s) (failures s) (clock s).
Definition set_matches (v : list MatchRow) (s : State) : State :=
  mkState (blocks s) v (chat_rooms s) (next_id s) (failures s) (clock s).
Definition set_chat_rooms (v : list RoomRow) (s : State) : State :=
  mkState (blocks s) (matches s) v (next_id s) (failures s) (clock s).
Definition set_next_id (v : nat) (s : State) : State :=
  mkState (blocks s) (matches s) (chat_rooms s) v (failures s) (clock s).
Definition set_failures (v : list bool) (s : State) : State :=
  mkState (blocks s) (matches s) (chat_rooms s) (next_id s) v (clock s).

Definition M (A : Type) : Type := State -> A * State.

Definition ret {A} (a : A) : M A := fun s => (a, s).

Definition bind {A B} (c : M A) (k : A -> M B) : M B :=
  fun s => let '(a, s') := c s in k a s'.

Declare Scope blocking_scope.
Delimit Scope blocking_scope with blocking.
Notation "x <- c ;; k" := (bind c (fun x => k))
  (at level 61, c at next level, right associativity) : blocking_scope.
Notation "c ;;; k" := (bind c (fun _ => k))
  (at level 61, right associativity) : blocking_scope.
Local Open Scope blocking_scope.

Definition get : M State := fun s => (s, s).
Definition modify (f : State -> State) : M unit := fun s => (tt, f s).

Definition request : M bool :=
  fun s =>
    match failures s with
    | [] => (true, s)
    | failed :: rest => (negb failed, set_failures rest s)
    end.

Definition new_Date_time : M Z := fun s => (JS.getTime (JS.new_Date (clock s)), s).

Definition fresh_id : M nat :=
  fun s => (next_id s, set_next_id (S (next_id s)) s).

Definition select {A} (table : State -> list A) (p : A -> bool) : M (option (list A)) :=
  ok <- request ;;
  s <- get ;;
  ret (if ok then Some (filter p (table s)) else None).

Definition select_single {A} (table : State -> list A) (p : A -> bool) : M (option A) :=
  rows <- select table p ;;
  ret (match rows with Some rows => single rows | None => None end).

(** The filter [.eq('blocker_id', a).eq('blocked_user_id', b)]. *)
Definition blocks_from_to (a b : string) (x : BlockData) : bool :=
  String.eqb (blocker_id x) a && String.eqb (blocked_user_id x) b.

(** [from('blocks').insert(row)]: [true] when the row is stored. *)
Definition insert_block (row : nat -> BlockData) : M bool :=
  ok <- request ;;
  if ok then
    i <- fresh_id ;;
    s <- get ;;
    modify (set_blocks (blocks s ++ [row i])) ;;;
    ret true
  else ret false.

(** The row [x] with [is_mutual] set to [v], and the table in which the
    rows of key [i] are so changed. *)
Definition with_is_mutual (v : bool) (x : BlockData) : BlockData :=
  mkBlockData (id x) (blocker_id x) (blocked_user_id x) (reason x) (created_at x) v.

Definition mark (i : nat) (v : bool) (bs : list BlockData) : list BlockData :=
  map (fun x => if Nat.eqb (id x) i then with_is_mutual v x else x) bs.

(** [from('blocks').update({ is_mutual: v }).eq('id', i)]. *)
Definition update_is_mutual (i : nat) (v : bool) : M unit :=
  ok <- request ;;
  if ok then
    s <- get ;;
    modify (set_blocks (mark i v (blocks s)))
  else ret tt.

(** [from('blocks').delete().eq(...).eq(...)]: [true] when it goes
    through. *)
Definition delete_blocks (p : BlockData -> bool) : M bool :=
  ok <- request ;;
  if ok then
    s <- get ;;
    modify (set_blocks (filter (fun x => negb (p x)) (blocks s))) ;;;
    ret true
  else ret false.

(** [matches] after [update({ is_active: false })] on the rows of a pair. *)
Definition deactivate (userId1 userId2 : string) (ms : list MatchRow) : list MatchRow :=
  map (fun m =>
         if pair_filter userId1 userId2 (match_row m)
         then mkMatchRow (match_row m) false else m)
      ms.

Definition deactivateUserInteractions (userId1 userId2 : string) : M unit :=
  (* the matches of the pair *)
  ok <- request ;;
  (if ok then
     s <- get ;;
     modify (set_matches (deactivate userId1 userId2 (matches s)))
   else ret tt) ;;;
  (* the chat rooms of the two *)
  chatRooms <-
    select chat_rooms
      (fun r => JS.includes (participants r) userId1
                && JS.includes (participants r) userId2) ;;
  match chatRooms with
  | Some (room :: rooms) =>
      let ids := map (fun r => room_id (room_row r)) (room :: rooms) in
      ok <- request ;;
      if ok then
        s <- get ;;
        modify (set_chat_rooms
                  (map (fun r =>
                          if existsb (Nat.eqb (room_id (room_row r))) ids
                          then mkRoomRow (room_row r) (participants r) false
                          else r)
                       (chat_rooms s)))
      else ret tt
  | _ => ret tt
  end.

Definition blockUser (blockerId blockedUserId reason : string) : M bool :=
  existingBlock <- select_single blocks (blocks_from_to blockerId blockedUserId) ;;
  match existingBlock with
  | Some _ => ret false
  | None =>
      reverseBlock <- select_single blocks (blocks_from_to blockedUserId blockerId) ;;
      let isMutual := match reverseBlock with Some _ => true | None => false end in
      now <- new_Date_time ;;
      stored <-
        insert_block (fun i =>
          mkBlockData i blockerId blockedUserId reason now isMutual) ;;
      if negb stored then ret false
      else
        match reverseBlock with
        | Some reverseBlock => update_is_mutual (id reverseBlock) true
        | None => ret tt
        end ;;;
        deactivateUserInteractions blockerId blockedUserId ;;;
        ret true
  end.

Definition unblockUser (blockerId blockedUserId : string) : M bool :=
  deleted <- delete_blocks (blocks_from_to blockerId blockedUserId) ;;
  if negb deleted then ret false
  else
    reverseBlock <- select_single blocks (blocks_from_to blockedUserId blockerId) ;;
    match reverseBlock with
    | Some reverseBlock => update_is_mutual (id reverseBlock) false
    | None => ret tt
    end ;;;
    ret true.

(** [isUserBlocked]: a block in either direction; [limit(1)] keeps the
    first row. *)
Definition isUserBlocked (userId1 userId2 : string) : M bool :=
  rows <-
    select blocks
      (fun x => blocks_from_to userId1 userId2 x || blocks_from_to userId2 userId1 x) ;;
  ret (match rows with
       | Some rows => 0 <? JS.length (firstn 1 rows)
       | None => false
       end).

(** The answers of the routes: a status and an error or a message. *)
Inductive Body :=
| error (text : string)
| message (text : string).

Record Answer := mkAnswer {
  status : Z;
  body : Body
}.

(** What [const { blockerId, blockedUserId, reason } = await req.json()]
    makes of the request: it throws, with the message of the error if it
    has one (the body is no JSON, or it is the JSON [null], which cannot
    be destructured), or it binds the three fields, any of which may be
    missing. *)
Inductive Request :=
| thrown (error_message : option string)
| fields (blockerId blockedUserId reason : option string).

(** [POST /api/blocks]; the [catch] answers 500 with
    [error.message || 'Internal server error']. *)
Definition POST (request : Request) : M Answer :=
  match request with
  | thrown error_message =>
      ret (mkAnswer 500
             (error (if JS.truthy error_message
                     then match error_message with
                          | Some m => m
                          | None => "Internal server error"
                          end
                     else "Internal server error")))
  | fields (Some blockerId) (Some blockedUserId) reason =>
      if String.eqb blockerId "" || String.eqb blockedUserId ""
      then ret (mkAnswer 400 (error "Missing required fields"))
      else if String.eqb blockerId blockedUserId
      then ret (mkAnswer 400 (error "Cannot block yourself"))
      else
        success <-
          blockUser blockerId blockedUserId
            (if JS.truthy reason
             then match reason with Some r => r | None => "차단됨" end
             else "차단됨") ;;
        if negb success
        then ret (mkAnswer 409 (error "User is already blocked or operation failed"))
        else ret (mkAnswer 200 (message "User blocked successfully"))
  | fields _ _ _ => ret (mkAnswer 400 (error "Missing required fields"))
  end.

(** [DELETE /api/blocks/[id]]. *)
Definition DELETE (blockerId : option string) (params_id : string) : M Answer :=
  if negb (JS.truthy blockerId)
  then ret (mkAnswer 400 (error "Blocker ID is required"))
  else
    success <-
      unblockUser (match blockerId with Some b => b | None => "" end) params_id ;;
    if negb success
    then ret (mkAnswer 500 (error "Failed to unblock user"))
    else ret (mkAnswer 200 (message "User unblocked successfully")).

(** *** Predicates on the table of blocks *)

(** Does [a] block [b]? *)
Definition has_block (a b : string) (bs : list BlockData) : bool :=
  existsb (blocks_from_to a b) bs.

(** Every row is marked mutual exactly when the reverse block is in the
    table. *)
Definition consistent (bs : list BlockData) : Prop :=
  Forall (fun x => is_mutual x = has_block (blocked_user_id x) (blocker_id x) bs) bs.

(** Keys are unique and behind the generator, a pair of users has at most
    one row in each direction, nobody blocks themself, and the mutual
    flags are consistent. *)
Definition well_formed (bs : list BlockData) (next : nat) : Prop :=
  NoDup (map id bs)
  /\ Forall (fun x => (id x < next)%nat) bs
  /\ NoDup (map (fun x => (blocker_id x, blocked_user_id x)) bs)
  /\ Forall (fun x => blocker_id x <> blocked_user_id x) bs
  /\ consistent bs.

(** The matches of a pair of users. *)
Definition matches_of (a b : string) (s : State) : list MatchRow :=
  filter (fun m => pair_filter a b (match_row m)) (matches s).

End Blocking.

(* ================================================================== *)
(** ** Report statistics: [ReportingService.groupBy] and
       [getReportStatistics] *)
(* ================================================================== *)

(** The names every object inherits from [Object.prototype]: a read of
    [groups[name]] finds them in an object that has no such property of
    its own. *)
Definition Object_prototype : list string :=
  ["constructor"; "__defineGetter__"; "__defineSetter__"; "hasOwnProperty";
   "__lookupGetter__"; "__lookupSetter__"; "isPrototypeOf";
   "propertyIsEnumerable"; "toString"; "valueOf"; "__proto__";
   "toLocaleString"].

(** The value of a property of the object [groupBy] builds: a number, or
    the string that [+ 1] makes of a value that is not a number (a
    non-empty string, whose characters are not followed). *)
Inductive Count :=
| number (n : Z)
| text.

(** The object of [groupBy], as the list of its own properties.  The
    order of the list is the order of creation; the order in which
    JavaScript enumerates the properties (array indices first) is not
    modelled. *)
Definition Groups : Type := list (string * Count).

(** The own property [group] of [groups]: [None] when there is none. *)
Fixpoint get_property (group : string) (groups : Groups) : option Count :=
  match groups with
  | [] => None
  | (g, n) :: rest => if String.eqb g group then Some n else get_property group rest
  end.

(** [groups[group] = n] for a name other than [__proto__]: an existing
    property keeps its place, a new one goes last. *)
Fixpoint set_property (group : string) (n : Count) (groups : Groups) : Groups :=
  match groups with
  | [] => [(group, n)]
  | (g, m) :: rest =>
      if String.eqb g group then (g, n) :: rest
      else (g, m) :: set_property group n rest
  end.

(** [item[key] || 'unknown']. *)
Definition group_of (value : option string) : string :=
  match value with
  | Some v => if String.eqb v "" then "unknown" else v
  | None => "unknown"
  end.

(** [(groups[group] || 0) + 1].  The read follows the prototype chain: a
    name of [Object.prototype] that is no own property reads as a
    function or an object, which is truthy and which [+ 1] turns into a
    string; a string stays a string. *)
Definition incremented (group : string) (groups : Groups) : Count :=
  match get_property group groups with
  | Some (number n) => number ((if n =? 0 then 0 else n) + 1)
  | Some text => text
  | None => if JS.includes Object_prototype group then text else number (0 + 1)
  end.

(** [groupBy(array, key)], on the values [item[key]] of the array.  An
    assignment of a string to [groups['__proto__']] is ignored by the
    setter of [Object.prototype]. *)
Definition groupBy (values : list (option string)) : Groups :=
  fold_left
    (fun groups item =>
       let group := group_of item in
       if String.eqb group "__proto__" then groups
       else set_property group (incremented group groups) groups)
    values [].

Definition ReportStatus_name (s : ReportStatus) : string :=
  match s with
  | pending => "pending"
  | investigating => "investigating"
  | resolved => "resolved"
  | rejected => "rejected"
  end.

Definition Priority_name (p : Priority) : string :=
  match p with
  | low => "low"
  | medium => "medium"
  | high => "high"
  | critical => "critical"
  end.

Record ReportStatistics := mkReportStatistics {
  byType : Groups;
  byStatus : Groups;
  byPriority : Groups
}.

(** A time value that [Date] can hold: at most 8.64e15 ms from the epoch.
    [new Date(t)] is an Invalid Date for any other [t], and
    [toISOString()] throws on it. *)
Definition time_value (t : Z) : bool :=
  (-8640000000000000 <=? t) && (t <=? 8640000000000000).

(** [getReportStatistics(days)]: three reads of the reports created since
    [days] days ago, each grouped by one column; a read that fails counts
    as no rows.  When [since] is no time value, [toISOString()] throws
    and the [catch] answers three empty objects. *)
Definition getReportStatistics (days : Z) : M ReportStatistics :=
  now <- Date_now ;;
  let since := now - days * 24 * 60 * 60 * 1000 in
  if negb (time_value since) then ret (mkReportStatistics [] [] [])
  else
    let recent := fun r : ReportData => since <=? created_at r in
    reportsByType <- select reports recent ;;
    reportsByStatus <- select reports recent ;;
    reportsByPriority <- select reports recent ;;
    let rows (data : option (list ReportData)) :=
      match data with Some rows => rows | None => [] end in
    ret (mkReportStatistics
           (groupBy (map (fun r => Some (report_type r)) (rows reportsByType)))
           (groupBy (map (fun r => Some (ReportStatus_name (status r)))
                         (rows reportsByStatus)))
           (groupBy (map (fun r => Some (Priority_name (priority r)))
                         (rows reportsByPriority)))).

(** The count of a group, 0 when the object has no such property or the
    property is no number, and the sum of the counts that are numbers. *)
Definition count_of (group : string) (groups : Groups) : Z :=
  match get_property group groups with
  | Some (number n) => n
  | _ => 0
  end.

Definition total (groups : Groups) : Z :=
  fold_right
    (fun gn acc => match snd gn with number n => n + acc | text => acc end)
    0 groups.

(** Every count of the object is a number. *)
Definition all_numbers (groups : Groups) : Prop :=
  Forall (fun gn => exists n, snd gn = number n) groups.

(** No value of the array names a property of [Object.prototype]. *)
Definition plain_groups (values : list (option string)) : Prop :=
  Forall (fun v => JS.includes Object_prototype (group_of v) = false) values.

(** The reports created in the [days] days before the clock's
    [Date.now()]. *)
Definition reports_since (days : Z) (w : World) : list ReportData :=
  filter (fun r => JS.Date_now (clock w) - days * 24 * 60 * 60 * 1000 <=? created_at r)
         (reports w).

(* ================================================================== *)
(** ** Further predicates *)
(* ================================================================== *)

(** The calendar day of [a] is the day of [b] or an earlier one: the
    order of the triples (year, month, date). *)
Definition day_le (a b : JS.Date) : Prop :=
  JS.getFullYear a < JS.getFullYear b
  \/ (JS.getFullYear a = JS.getFullYear b
      /\ (JS.getMonth a < JS.getMonth b
          \/ (JS.getMonth a = JS.getMonth b /\ JS.getDate a <= JS.getDate b))).

(** The candidates of [getRecommendations] with their scores, in the
    order the database gave them. *)
Definition scored (clk : JS.Clock) (currentUser : UserProfile)
    (preferences : option MatchingPreferences) (candidates : list UserProfile)
  : list ScoredCandidate :=
  map (fun candidate =>
         mkScoredCandidate candidate
           (calculateCompatibilityScore clk currentUser candidate preferences))
      candidates.

(** The key and the two participants of a row of [matches]. *)
Definition participants (m : Match) : nat * string * string :=
  (match_id m, user1_id m, user2_id m).

(** The column [reported_content_id] holds the given content id. *)
Definition strict_content_eqb (column : option string) (content : string) : bool :=
  match column with
  | Some c => String.eqb c content
  | None => false
  end.

(** What an action does to an account: [after] is [before] under a
    temporary ban of [hours] hours from [now], under a permanent ban
    stamped [today], or under review; a warning and a removal of content
    leave it as it is. *)
Definition sanctioned (action : ActionType) (hours now today : Z)
    (before after : Account) : Prop :=
  account_id after = account_id before
  /\ role after = role before
  /\ match action with
     | temporary_ban =>
         account_status after = "suspended"
         /\ suspension_until after = Some (now + hours * 60 * 60 * 1000)
         /\ banned_at after = banned_at before
     | permanent_ban =>
         account_status after = "banned"
         /\ banned_at after = Some today
         /\ suspension_until after = suspension_until before
     | profile_review =>
         account_status after = "under_review"
         /\ suspension_until after = suspension_until before
         /\ banned_at after = banned_at before
     | warning | content_removal => after = before
     end.

(** The hours of a temporary ban: [actionData.duration || 24]. *)
Definition ban_hours (duration : option Z) : Z :=
  match duration with
  | Some d => if d =? 0 then 24 else d
  | None => 24
  end.

(** The administrators: the rows of [profiles] with the role admin. *)
Definition admins_of (w : World) : list Account :=
  filter (fun a => String.eqb (role a) "admin") (profiles w).

(** The rows of [profiles] of everybody but one user. *)
Definition accounts_but (userId : string) (w : World) : list Account :=
  filter (fun a => negb (String.eqb (account_id a) userId)) (profiles w).

(* ================================================================== *)
(** ** Further sample data *)
(* ================================================================== *)

Module Scenario.

(** A user with Alice's interests and languages and nothing else of
    hers. *)
Definition alina : UserProfile :=
  mkUserProfile "u-alina" "Alina" None female "Vietnam"
    ["travel"; "music"; "cooking"] ["ko"; "en"] None "pending" None.

(** A profile that lists one interest twice, and a candidate that lists
    none. *)
Definition dana : UserProfile :=
  mkUserProfile "u-dana" "Dana" None female "Korea"
    ["music"; "music"] [] None "pending" None.

Definition evan : UserProfile :=
  mkUserProfile "u-evan" "Evan" None male "Ukraine"
    [] [] None "pending" None.

(** The database is down for Alice's feed. *)
Definition failing_reads : RecommendationReads :=
  mkRecommendationReads
    (mkResponse None true)
    (mkResponse None true)
    None None
    (fun _ => mkResponse None true).

(** Bob has liked Alice, and the update of the row is going to fail. *)
Definition bob_likes_alice_update_fails : World :=
  mkWorld [mkMatch 0 "u-bob" "u-alice" true false false None]
    [] [] [] [] [] 1 [false; true] Sample.clock_2024.

(** Nine harassment reports against Bob; the fourth call to the client,
    the count of the escalation, is going to fail. *)
Definition count_unread : World :=
  mkWorld [] [] Sample.nine_reports [] Sample.accounts [] 10
    [false; false; false; true] Sample.clock_2024.

(** The next call to the client is going to fail. *)
Definition client_down : World :=
  mkWorld [] [] Sample.nine_reports [] Sample.accounts [] 10 [true]
    Sample.clock_2024.

Definition ban_for_a_day : ActionData :=
  mkActionData temporary_ban "manual review" None "u-admin".

(** Alice has reported a message of Bob already. *)
Definition message_reported : World :=
  mkWorld [] []
    [mkReportData 0 "u-alice" "u-bob" (Some "msg-7") "spam" (Some "message")
       (Some "advertising") pending medium 1717100000000 1717100000000]
    [] Sample.accounts [] 1 [] Sample.clock_2024.

Definition same_message_again : ReportRequest :=
  mkReportRequest (Some "u-alice") (Some "u-bob") (Some "msg-7") (Some "harassment")
    (Some "message") (Some "again").


(** Bob blocks Alice already; Alice and Bob have a match and a chat
    room. *)
Definition bob_blocks_alice : Blocking.State :=
  Blocking.mkState
    [Blocking.mkBlockData 0 "u-bob" "u-alice" "spam" 1717100000000 false]
    [Blocking.mkMatchRow (mkMatch 1 "u-alice" "u-bob" true true true (Some 1717000000000)) true]
    [Blocking.mkRoomRow (mkChatRoomRow 2 1) ["u-alice"; "u-bob"] true]
    3 [] Sample.clock_2024.

End Scenario.

(* ================================================================== *)
(** ** The compatibility score: range, factors, monotonicity *)
(* ================================================================== *)

Section Score.

Variable clk : JS.Clock.
Variables user candidate : UserProfile.
Variable preferences : option MatchingPreferences.

(** Names the outermost [let] of the left-hand side of the goal. *)
Lemma let_intro {A B} (v : A) (f : A -> B) (r : B) :
  (forall x, x = v -> f x = r) -> (let x := v in f x) = r.
Proof. intros H. apply H. reflexivity. Qed.

Ltac name_let x :=
  let E := fresh "E" x in
  lazymatch goal with
  | |- (let y := ?v in @?f y) = ?r =>
      refine (let_intro v f r _); intros x E; cbv beta
  end.

Lemma Math_round_div_percent (s : Z) : JS.Math_round_div (s * 100) 100 = s.
Proof.
  unfold JS.Math_round_div.
  replace (2 * (s * 100) + 100) with (s * (2 * 100) + 100) by ring.
  rewrite Z.div_add_l by lia.
  rewrite Z.div_small by lia.
  ring.
Qed.

Lemma JS_length_nonneg {A} (l : list A) : 0 <= JS.length l.
Proof. unfold JS.length. lia. Qed.

Lemma age_points_cases :
  age_points clk candidate preferences = 0
  \/ age_points clk candidate preferences = 25.
Proof.
  unfold age_points.
  destruct preferences as [p|]; [|now left].
  destruct (calculateAge clk (birth_date candidate)) as [a|]; [|now left].
  destruct ((min_age p <=? a) && (a <=? max_age p)); [now right|now left].
Qed.

Lemma country_points_cases :
  country_points candidate preferences = 0
  \/ country_points candidate preferences = 10
  \/ country_points candidate preferences = 20.
Proof.
  unfold country_points.
  destruct preferences as [p|]; [|now right; left].
  destruct (preferred_countries p) as [|c l]; [now right; left|].
  destruct (JS.includes (c :: l) (country candidate)); [now right; right|now left].
Qed.

Lemma education_points_cases :
  education_points candidate preferences = 0
  \/ education_points candidate preferences = 7
  \/ education_points candidate preferences = 15.
Proof.
  unfold education_points.
  destruct (education_level candidate) as [e|]; [|now left].
  destruct (String.eqb e ""); [now left|].
  destruct preferences as [p|]; [|now right; left].
  destruct (preferred_education p) as [|c l]; [now right; left|].
  destruct (JS.includes (c :: l) e); [now right; right|now left].
Qed.

Lemma recency_points_cases :
  recency_points clk candidate = 2 \/ recency_points clk candidate = 5
  \/ recency_points clk candidate = 7 \/ recency_points clk candidate = 10.
Proof.
  unfold recency_points.
  destruct (last_active candidate) as [d|]; [|now left].
  cbv zeta.
  repeat match goal with |- context [if ?b then _ else _] => destruct b end;
    intuition.
Qed.

(** The accumulators at the [return]: the sum of the six factors, out of
    a [maxScore] of 100. *)
Lemma score_and_maxScore_factors :
  score_and_maxScore clk user candidate preferences
  = (age_points clk candidate preferences
     + country_points candidate preferences
     + education_points candidate preferences
     + interest_points user candidate
     + language_points user candidate
     + recency_points clk candidate,
     100).
Proof.
  cbv beta delta [score_and_maxScore].
  name_let s0. name_let m0. name_let m1. name_let s1. name_let m2.
  name_let s2. name_let m3. name_let s3. name_let m4. name_let ci.
  name_let s4. name_let m5. name_let cl. name_let s5. name_let m6.
  name_let s6.
  assert (H1 : s1 = s0 + age_points clk candidate preferences).
  { rewrite Es1. unfold age_points.
    destruct preferences as [p|]; [|lia].
    destruct (calculateAge clk (birth_date candidate)) as [a|]; [|lia].
    destruct ((min_age p <=? a) && (a <=? max_age p)); lia. }
  assert (H2 : s2 = s1 + country_points candidate preferences).
  { rewrite Es2. unfold country_points.
    destruct preferences as [p|]; [|lia].
    destruct (preferred_countries p) as [|c cs]; [simpl; lia|].
    replace (0 <? JS.length (c :: cs)) with true
      by (symmetry; apply Z.ltb_lt; unfold JS.length; simpl List.length; lia).
    destruct (JS.includes (c :: cs) (country candidate)); lia. }
  assert (H3 : s3 = s2 + education_points candidate preferences).
  { rewrite Es3. unfold education_points. cbv zeta.
    destruct (education_level candidate) as [e|]; simpl JS.truthy.
    - destruct (String.eqb e ""); simpl negb.
      + destruct preferences; rewrite ?andb_false_r; lia.
      + destruct preferences as [p|]; [|lia].
        destruct (preferred_education p) as [|x xs]; [simpl; lia|].
        replace (0 <? JS.length (x :: xs)) with true
          by (symmetry; apply Z.ltb_lt; unfold JS.length; simpl List.length; lia).
        cbn [andb negb JS.includes_opt].
        destruct (JS.includes (x :: xs) e); lia.
    - destruct preferences; rewrite ?andb_false_r; lia. }
  assert (H4 : s4 = s3 + interest_points user candidate).
  { rewrite Es4, Eci. unfold interest_points. f_equal. f_equal. ring. }
  assert (H5 : s5 = s4 + language_points user candidate).
  { rewrite Es5, Ecl. unfold language_points. f_equal. f_equal. ring. }
  assert (H6 : s6 = s5 + recency_points clk candidate).
  { rewrite Es6. unfold recency_points, days_le.
    destruct (last_active candidate) as [d|]; [|lia].
    cbv zeta. rewrite Z.mul_1_l.
    repeat match goal with |- context [if ?b then _ else _] => destruct b end;
      lia. }
  f_equal; lia.
Qed.

Lemma calculateCompatibilityScore_sum :
  calculateCompatibilityScore clk user candidate preferences
  = age_points clk candidate preferences
    + country_points candidate preferences
    + education_points candidate preferences
    + interest_points user candidate
    + language_points user candidate
    + recency_points clk candidate.
Proof.
  unfold calculateCompatibilityScore.
  rewrite score_and_maxScore_factors.
  apply Math_round_div_percent.
Qed.

End Score.

(** C1: for every clock reading, pair of profiles and optional preferences,
    [calculateCompatibilityScore] returns an integer between 0 and 100; it is
    the sum of six factors: age-range fit (at most 25), country preference
    (at most 20), education preference (at most 15), shared interests (4
    each, at most 20), shared languages (5 each, at most 10) and recency of
    activity (at most 10); [maxScore] is the sum of the six maxima, 100. *)
Theorem calculateCompatibilityScore_range_and_factors :
  forall (clk : JS.Clock) (user candidate : UserProfile)
         (preferences : option MatchingPreferences),
    let result := calculateCompatibilityScore clk user candidate preferences in
    0 <= result <= 100
    /\ result = age_points clk candidate preferences
                + country_points candidate preferences
                + education_points candidate preferences
                + interest_points user candidate
                + language_points user candidate
                + recency_points clk candidate
    /\ 0 <= age_points clk candidate preferences <= 25
    /\ 0 <= country_points candidate preferences <= 20
    /\ 0 <= education_points candidate preferences <= 15
    /\ interest_points user candidate
       = Z.min 20 (4 * JS.length (common (interests user) (interests candidate)))
    /\ 0 <= interest_points user candidate <= 20
    /\ language_points user candidate
       = Z.min 10 (5 * JS.length (common (languages user) (languages candidate)))
    /\ 0 <= language_points user candidate <= 10
    /\ 0 <= recency_points clk candidate <= 10
    /\ snd (score_and_maxScore clk user candidate preferences)
       = 25 + 20 + 15 + 20 + 10 + 10
    /\ snd (score_and_maxScore clk user candidate preferences) = 100.
Proof.
  intros clk user candidate preferences result.
  pose proof (age_points_cases clk candidate preferences) as Ha.
  pose proof (country_points_cases candidate preferences) as Hc.
  pose proof (education_points_cases candidate preferences) as He.
  pose proof (recency_points_cases clk candidate) as Hr.
  pose proof (JS_length_nonneg (common (interests user) (interests candidate))) as Hi.
  pose proof (JS_length_nonneg (common (languages user) (languages candidate))) as Hl.
  assert (Hsum := calculateCompatibilityScore_sum clk user candidate preferences).
  fold result in Hsum.
  rewrite score_and_maxScore_factors. cbn [snd].
  unfold interest_points, language_points in *.
  repeat split; try reflexivity; try lia.
Qed.

(** The maxima are reached: a candidate can score 100. *)
Example calculateCompatibilityScore_full :
  calculateCompatibilityScore Sample.clock_2024
    (with_interests Sample.alice ["a"; "b"; "c"; "d"; "e"])
    (mkUserProfile "u-dan" "Dan" (Some (JS.mkDate 802224000000 1995 5 4))
       male "Ukraine" ["a"; "b"; "c"; "d"; "e"] ["ko"; "en"]
       (Some "master") "verified" (Some (JS.mkDate 1717156800000 2024 4 31)))
    (Some Sample.alice_preferences) = 100.
Proof. reflexivity. Qed.

(** The clock matters: the same three arguments score 83 on 2024-06-01 and
    50 a year later, when the candidate has left the age range and has been
    inactive for more than 30 days. *)
Example calculateCompatibilityScore_2024 :
  calculateCompatibilityScore Sample.clock_2024 Sample.alice Sample.bob
    (Some Sample.alice_preferences) = 83.
Proof. reflexivity. Qed.

Example calculateCompatibilityScore_2025 :
  calculateCompatibilityScore Sample.clock_2025 Sample.alice Sample.bob
    (Some Sample.alice_preferences) = 50.
Proof. reflexivity. Qed.

(** C4, as stated, fails: two evaluations on identical arguments return
    different scores when the clock differs. *)
Lemma calculateCompatibilityScore_reads_clock :
  calculateCompatibilityScore Sample.clock_2024 Sample.alice Sample.bob
    (Some Sample.alice_preferences)
  <> calculateCompatibilityScore Sample.clock_2025 Sample.alice Sample.bob
       (Some Sample.alice_preferences).
Proof. vm_compute. discriminate. Qed.

(** C4, amended: the score is a function of the three arguments and the
    clock reading, and the clock enters through two factors only: two
    evaluations on identical arguments, at clock readings that give the
    candidate the same age-range points and the same recency points, return
    the same score. *)
Theorem calculateCompatibilityScore_clock_factors :
  forall (clk1 clk2 : JS.Clock) (user candidate : UserProfile)
         (preferences : option MatchingPreferences),
    age_points clk1 candidate preferences = age_points clk2 candidate preferences ->
    recency_points clk1 candidate = recency_points clk2 candidate ->
    calculateCompatibilityScore clk1 user candidate preferences
    = calculateCompatibilityScore clk2 user candidate preferences.
Proof.
  intros clk1 clk2 user candidate preferences Hage Hrecency.
  rewrite !calculateCompatibilityScore_sum.
  rewrite Hage, Hrecency.
  reflexivity.
Qed.

(** One hour later the same day, the score of the sample pair is the same. *)
Lemma calculateCompatibilityScore_clock_factors_witness :
  calculateCompatibilityScore Sample.clock_2024 Sample.alice Sample.bob
    (Some Sample.alice_preferences)
  = calculateCompatibilityScore
      (JS.mkClock (JS.mkDate 1717203600000 2024 5 1) 1717203600000)
      Sample.alice Sample.bob (Some Sample.alice_preferences).
Proof.
  apply (calculateCompatibilityScore_clock_factors Sample.clock_2024
           (JS.mkClock (JS.mkDate 1717203600000 2024 5 1) 1717203600000)
           Sample.alice Sample.bob (Some Sample.alice_preferences));
    reflexivity.
Defined.

Lemma includes_In (l : list string) (x : string) :
  JS.includes l x = true <-> In x l.
Proof.
  unfold JS.includes. rewrite existsb_exists. split.
  - intros [y [Hin Heq]]. apply String.eqb_eq in Heq. now subst.
  - intros Hin. exists x. split; [exact Hin|apply String.eqb_refl].
Qed.

Lemma includes_not_In (l : list string) (x : string) :
  JS.includes l x = false <-> ~ In x l.
Proof.
  rewrite <- includes_In. destruct (JS.includes l x); split; congruence.
Qed.

Lemma common_In (mine theirs : list string) (y : string) :
  In y (common mine theirs) <-> In y mine /\ In y theirs.
Proof. unfold common. rewrite filter_In, includes_In. reflexivity. Qed.

(** On a list without repeated entries, [common] has one entry for each
    shared element: its length is the size of the intersection. *)
Lemma common_enumerates (mine theirs shared : list string) :
  NoDup mine -> NoDup shared ->
  (forall y, In y shared <-> In y mine /\ In y theirs) ->
  JS.length (common mine theirs) = JS.length shared.
Proof.
  intros Hmine Hshared Hall. unfold JS.length. f_equal.
  apply Permutation_length, NoDup_Permutation.
  - unfold common. apply NoDup_filter, Hmine.
  - exact Hshared.
  - intros y. rewrite common_In, Hall. reflexivity.
Qed.

(** C10, as stated, fails: the code counts the entries of the user's list
    that the candidate lists too, not the interests.  Dana lists music
    twice and Evan nothing; when Evan takes up music the set of shared
    interests grows by one element, from none, and the score by 8. *)
Lemma calculateCompatibilityScore_counts_repeated_interest :
  let before :=
    calculateCompatibilityScore Sample.clock_2024 Scenario.dana Scenario.evan None in
  let after :=
    calculateCompatibilityScore Sample.clock_2024 Scenario.dana
      (with_interests Scenario.evan ["music"]) None in
  interests Scenario.dana = ["music"; "music"]
  /\ interests Scenario.evan = []
  /\ before = 12 /\ after = 20 /\ after <> before + 4.
Proof. vm_compute. repeat split; discriminate. Qed.

(** C10, amended: for a user whose list of interests has no repeated
    entry, before and after.  With the clock, the preferences and every
    other field of the two profiles fixed, let [shared] enumerate the
    interests that user and candidate have in common; new lists of
    interests whose common elements are those of [shared] and one more
    never lower the score, and raise it by exactly 4 while fewer than five
    interests are shared. *)
Theorem calculateCompatibilityScore_shared_interest :
  forall (clk : JS.Clock) (user candidate : UserProfile)
         (preferences : option MatchingPreferences)
         (mine theirs shared : list string) (interest : string),
    NoDup (interests user) -> NoDup mine ->
    NoDup shared ->
    (forall y, In y shared <-> In y (interests user) /\ In y (interests candidate)) ->
    ~ In interest shared ->
    (forall y, In y mine /\ In y theirs <-> y = interest \/ In y shared) ->
    let before := calculateCompatibilityScore clk user candidate preferences in
    let after :=
      calculateCompatibilityScore clk (with_interests user mine)
        (with_interests candidate theirs) preferences in
    before <= after
    /\ ((List.length shared < 5)%nat -> after = before + 4).
Proof.
  intros clk user candidate preferences mine theirs shared interest
         Huser Hmine Hshared Hall Hnew Hone before after.
  subst before after.
  rewrite !calculateCompatibilityScore_sum.
  unfold interest_points.
  cbn [with_interests interests].
  change (age_points clk (with_interests candidate theirs) preferences)
    with (age_points clk candidate preferences).
  change (country_points (with_interests candidate theirs) preferences)
    with (country_points candidate preferences).
  change (education_points (with_interests candidate theirs) preferences)
    with (education_points candidate preferences).
  change (language_points (with_interests user mine) (with_interests candidate theirs))
    with (language_points user candidate).
  change (recency_points clk (with_interests candidate theirs))
    with (recency_points clk candidate).
  rewrite (common_enumerates (interests user) (interests candidate) shared
             Huser Hshared Hall).
  rewrite (common_enumerates mine theirs (interest :: shared) Hmine).
  - unfold JS.length. cbn [List.length]. split; [|intros Hlt]; lia.
  - constructor; assumption.
  - intros y. rewrite Hone. cbn [In]. intuition.
Qed.

(** Alice takes up hiking, which Bob lists: music and cooking were
    shared, hiking is now, and the score goes from 83 to 87. *)
Lemma calculateCompatibilityScore_shared_interest_witness :
  calculateCompatibilityScore Sample.clock_2024 Sample.alice Sample.bob
    (Some Sample.alice_preferences)
  <= calculateCompatibilityScore Sample.clock_2024
       (with_interests Sample.alice ("hiking" :: interests Sample.alice))
       (with_interests Sample.bob (interests Sample.bob))
       (Some Sample.alice_preferences)
  /\ ((List.length ["music"; "cooking"] < 5)%nat ->
      calculateCompatibilityScore Sample.clock_2024
        (with_interests Sample.alice ("hiking" :: interests Sample.alice))
        (with_interests Sample.bob (interests Sample.bob))
        (Some Sample.alice_preferences)
      = calculateCompatibilityScore Sample.clock_2024 Sample.alice Sample.bob
          (Some Sample.alice_preferences) + 4).
Proof.
  apply (calculateCompatibilityScore_shared_interest Sample.clock_2024
           Sample.alice Sample.bob (Some Sample.alice_preferences)
           ("hiking" :: interests Sample.alice) (interests Sample.bob)
           ["music"; "cooking"] "hiking").
  - simpl. repeat constructor; simpl; intuition discriminate.
  - simpl. repeat constructor; simpl; intuition discriminate.
  - repeat constructor; simpl; intuition discriminate.
  - intros y. simpl. intuition (subst; auto; discriminate).
  - simpl. intuition discriminate.
  - intros y. simpl. intuition (subst; auto; discriminate).
Defined.

(* ================================================================== *)
(** ** Recommendations: order, length, exclusions *)
(* ================================================================== *)

Lemma In_firstn {A} (n : nat) (l : list A) (x : A) :
  In x (firstn n l) -> In x l.
Proof.
  intros H. rewrite <- (firstn_skipn n l). apply in_or_app. now left.
Qed.

Section Sorting.

Context {A : Type}.
Variable key : A -> Z.

(** The comparator of [getRecommendations]: [(a, b) => key b - key a]. *)
Local Abbreviation by_key_desc := (fun a b : A => key b - key a).

Lemma sort_insert_perm (x : A) (l : list A) :
  Permutation (x :: l) (sort_insert by_key_desc x l).
Proof.
  induction l as [|y l IH]; simpl.
  - apply Permutation_refl.
  - destruct (key y - key x <=? 0).
    + apply Permutation_refl.
    + eapply perm_trans; [apply perm_swap|].
      apply perm_skip, IH.
Qed.

Lemma Array_sort_perm (l : list A) : Permutation l (Array_sort by_key_desc l).
Proof.
  induction l as [|x l IH]; simpl.
  - constructor.
  - eapply perm_trans; [apply perm_skip, IH|].
    apply sort_insert_perm.
Qed.

Lemma sort_insert_sorted (x : A) (l : list A) :
  StronglySorted (non_increasing key) l ->
  StronglySorted (non_increasing key) (sort_insert by_key_desc x l).
Proof.
  induction 1 as [|y l Hl IH Hy]; simpl.
  - repeat constructor.
  - destruct (key y - key x <=? 0) eqn:E.
    + apply Z.leb_le in E.
      constructor; [constructor; assumption|].
      constructor; [unfold non_increasing; lia|].
      eapply Forall_impl; [|exact Hy].
      unfold non_increasing. intros z Hz. lia.
    + apply Z.leb_gt in E.
      constructor; [exact IH|].
      eapply Permutation_Forall; [apply sort_insert_perm|].
      constructor; [unfold non_increasing; lia|exact Hy].
Qed.

Lemma Array_sort_sorted (l : list A) :
  StronglySorted (non_increasing key) (Array_sort by_key_desc l).
Proof.
  induction l as [|x l IH]; simpl.
  - constructor.
  - apply sort_insert_sorted, IH.
Qed.

Lemma firstn_sorted (n : nat) (l : list A) :
  StronglySorted (non_increasing key) l ->
  StronglySorted (non_increasing key) (firstn n l).
Proof.
  intros H. revert n.
  induction H as [|y l Hl IH Hy]; intros [|n]; simpl; try constructor.
  - apply IH.
  - apply Forall_forall. intros z Hz.
    apply In_firstn in Hz.
    rewrite Forall_forall in Hy. auto.
Qed.

Lemma slice0_sorted (l : list A) (e : Z) :
  StronglySorted (non_increasing key) l ->
  StronglySorted (non_increasing key) (JS.slice0 l e).
Proof.
  intros H. unfold JS.slice0.
  destruct (e <? 0); apply firstn_sorted, H.
Qed.

End Sorting.

Lemma slice0_length {A} (l : list A) (e : Z) :
  0 <= e -> JS.length (JS.slice0 l e) <= e.
Proof.
  intros He. unfold JS.slice0, JS.length.
  destruct (e <? 0) eqn:E; [apply Z.ltb_lt in E; lia|].
  rewrite length_firstn. lia.
Qed.

Lemma slice0_In {A} (l : list A) (e : Z) (x : A) :
  In x (JS.slice0 l e) -> In x l.
Proof.
  unfold JS.slice0. destruct (e <? 0); apply In_firstn.
Qed.

Lemma Set_add_keeps (x y : string) (s : list string) :
  In x s -> In x (JS.Set_add y s).
Proof.
  unfold JS.Set_add. destruct (JS.includes s y); [auto|].
  intros H. apply in_or_app. now left.
Qed.

Lemma fold_Set_add_keeps {B} (f : B -> string) (x : string) (l : list B) (s : list string) :
  In x s -> In x (fold_left (fun s b => JS.Set_add (f b) s) l s).
Proof.
  revert s. induction l as [|b l IH]; simpl; intros s H; [exact H|].
  apply IH, Set_add_keeps, H.
Qed.

Lemma excludeIds_self (userId : string) existingMatches blocks :
  In userId (excludeIds userId existingMatches blocks).
Proof.
  unfold excludeIds.
  assert (H0 : In userId [userId]) by (now left).
  destruct existingMatches as [ms|], blocks as [bs|]; cbv zeta.
  - apply (fold_Set_add_keeps (fun b => b)).
    apply (fold_Set_add_keeps
             (fun m => if String.eqb (fst m) userId then snd m else fst m)), H0.
  - apply (fold_Set_add_keeps
             (fun m => if String.eqb (fst m) userId then snd m else fst m)), H0.
  - apply (fold_Set_add_keeps (fun b => b)), H0.
  - exact H0.
Qed.

(** C7: for a limit that is a count, [getRecommendations] returns at most
    [limit] candidates, in non-increasing order of the compatibility score
    each one has with the requesting user; and the requesting user's id is
    in [excludeIds], the list the candidate query excludes. *)
Theorem getRecommendations_sorted_limited :
  forall (clk : JS.Clock) (db : RecommendationReads) (userId : string) (limit : Z),
    0 <= limit ->
    let result := getRecommendations clk db userId limit in
    JS.length result <= limit
    /\ StronglySorted (non_increasing compatibilityScore) result
    /\ (forall r, In r result ->
          exists currentUser candidates,
            data (currentUser_read db) = Some currentUser
            /\ data (candidates_read db
                       (candidateQuery clk currentUser
                          (getUserPreferences (preferences_read db))
                          (excludeIds userId (existingMatches_read db) (blocks_read db))
                          limit)) = Some candidates
            /\ In (candidate_of r) candidates
            /\ compatibilityScore r
               = calculateCompatibilityScore clk currentUser (candidate_of r)
                   (getUserPreferences (preferences_read db)))
    /\ In userId (excludeIds userId (existingMatches_read db) (blocks_read db))
    /\ (forall currentUser preferences,
          In userId
            (q_not_in_id
               (candidateQuery clk currentUser preferences
                  (excludeIds userId (existingMatches_read db) (blocks_read db))
                  limit))).
Proof.
  intros clk db userId limit Hlimit result.
  split; [|split; [|split; [|split]]].
  - subst result. unfold getRecommendations.
    repeat match goal with
           | |- context [match ?x with _ => _ end] => destruct x
           end;
      try (unfold JS.length; simpl; lia).
    apply slice0_length, Hlimit.
  - subst result. unfold getRecommendations.
    repeat match goal with
           | |- context [match ?x with _ => _ end] => destruct x
           end;
      try constructor.
    apply slice0_sorted, Array_sort_sorted.
  - intros r Hr. subst result. unfold getRecommendations in Hr.
    destruct (error (currentUser_read db)); [contradiction|].
    destruct (data (currentUser_read db)) as [currentUser|]; [|contradiction].
    cbv zeta in Hr.
    destruct (error (candidates_read db _)); [contradiction|].
    destruct (data (candidates_read db _)) as [candidates|] eqn:Hc; [|contradiction].
    apply slice0_In in Hr.
    eapply Permutation_in in Hr; [|apply Permutation_sym, Array_sort_perm].
    apply in_map_iff in Hr. destruct Hr as [c [<- Hin]].
    exists currentUser, candidates. simpl. auto.
  - apply excludeIds_self.
  - intros. simpl. apply excludeIds_self.
Qed.

(** Alice's feed with a limit of 1: Bob (83) is ranked before Carol and the
    list is cut after him. *)
Example getRecommendations_alice :
  map (fun r => (id (candidate_of r), compatibilityScore r))
      (getRecommendations Sample.clock_2024 Sample.alice_reads "u-alice" 1)
  = [("u-bob", 83)].
Proof. reflexivity. Qed.

Lemma getRecommendations_sorted_limited_witness :
  JS.length (getRecommendations Sample.clock_2024 Sample.alice_reads "u-alice" 1) <= 1
  /\ StronglySorted (non_increasing compatibilityScore)
       (getRecommendations Sample.clock_2024 Sample.alice_reads "u-alice" 1).
Proof.
  assert (H : 0 <= 1) by lia.
  pose proof (getRecommendations_sorted_limited Sample.clock_2024
                Sample.alice_reads "u-alice" 1 H) as T.
  split; apply T.
Defined.

(* ================================================================== *)
(** ** Likes and passes: the mutual flag and the chat room *)
(* ================================================================== *)

(** A call to the client that fails or goes through changes no table by
    itself; it uses up one entry of the schedule. *)
Lemma request_frame (w w' : World) (ok : bool) :
  request w = (ok, w') ->
  matches w' = matches w /\ chat_rooms w' = chat_rooms w
  /\ reports w' = reports w /\ safety_actions w' = safety_actions w
  /\ profiles w' = profiles w /\ notifications w' = notifications w
  /\ next_id w' = next_id w /\ clock w' = clock w
  /\ failures w' = tl (failures w)
  /\ (ok = false -> failures w <> []).
Proof.
  unfold request. destruct (failures w) as [|f fs] eqn:E; intros H; inversion H; subst;
    cbn; rewrite ?E; repeat split; try reflexivity; congruence.
Qed.

Ltac unfold_client :=
  unfold select_single, select, update_match, insert_match, insert_chat_room,
    insert_notifications, insert_report, update_profile, fresh_id,
    new_Date_time, Date_now, get, modify, bind, ret.

(** Splits on the outcome of the next call to the client. *)
Ltac step_request :=
  match goal with
  | |- context [request ?w] =>
      let ok := fresh "ok" in
      let w' := fresh "w" in
      let H := fresh "Hreq" in
      destruct (request w) as [ok w'] eqn:H;
      apply request_frame in H;
      destruct H as (?Hm & ?Hc & ?Hr & ?Hs & ?Hp & ?Hn & ?Hi & ?Hk & ?Hf & ?Hfail);
      destruct ok; cbn in *
  end.

Lemma single_Some {A} (l : list A) (x : A) : single l = Some x -> l = [x].
Proof.
  destruct l as [|y [|z l]]; simpl; intros H; try discriminate.
  now inversion H.
Qed.

Lemma existing_match_In (userId targetUserId : string) (w : World) (e : Match) :
  existing_match userId targetUserId w = Some e -> In e (matches w).
Proof.
  unfold existing_match. intros H. apply single_Some in H.
  assert (Hin : In e (filter (pair_filter userId targetUserId) (matches w)))
    by (rewrite H; now left).
  apply filter_In in Hin. tauto.
Qed.

Lemma NoDup_map_eq {A B} (f : A -> B) (l : list A) (a b : A) :
  NoDup (map f l) -> In a l -> In b l -> f a = f b -> a = b.
Proof.
  induction l as [|x l IH]; simpl; intros Hnd Ha Hb Hf; [contradiction|].
  inversion Hnd as [|? ? Hnotin Hnd']; subst.
  destruct Ha as [<-|Ha], Hb as [<-|Hb]; auto.
  - exfalso. apply Hnotin. rewrite Hf. now apply in_map.
  - exfalso. apply Hnotin. rewrite <- Hf. now apply in_map.
Qed.

Lemma In_map_if {A} (hit : A -> bool) (u : A -> A) (l : list A) (x : A) :
  In x (map (fun m => if hit m then u m else m) l) ->
  In x l \/ exists m0, In m0 l /\ hit m0 = true /\ x = u m0.
Proof.
  intros H. apply in_map_iff in H. destruct H as [m0 [Hx Hin]].
  destruct (hit m0) eqn:E.
  - right. exists m0. auto.
  - left. now subst.
Qed.

(** Where the rows of [matches] after [likeUser] come from: they were
    there, or they are the update of the row read, or they are the row of a
    first like. *)
Lemma likeUser_matches (userId targetUserId : string) (w : World) (m : Match) :
  In m (matches (snd (likeUser userId targetUserId w))) ->
  In m (matches w)
  \/ (exists e m0,
        existing_match userId targetUserId w = Some e
        /\ In m0 (matches w)
        /\ match_id m0 = match_id e
        /\ m = like_update
                 (if String.eqb (user1_id e) userId
                  then user1_liked_field else user2_liked_field)
                 (liked_by_other userId e)
                 (JS.getTime (JS.new_Date (clock w))) m0)
  \/ ((existing_match userId targetUserId w = None \/ failures w <> [])
      /\ m = mkMatch (next_id w) userId targetUserId true false false None).
Proof.
  unfold likeUser, existing_match, liked_by_other. unfold_client.
  step_request.
  - rewrite Hm.
    destruct (single (filter (pair_filter userId targetUserId) (matches w)))
      as [e|] eqn:He.
    + step_request;
        (destruct ((if String.eqb (user1_id e) userId
                    then user2_liked e else user1_liked e)
                   && negb (is_mutual e)); [step_request|]; cbn);
        rewrite ?Hm1, ?Hm0, ?Hm, ?Hk; intros H; auto.
      all: apply In_map_if in H; destruct H as [H|[m0 [Hin [Hid ->]]]]; [now left|].
      all: right; left; exists e, m0; apply Nat.eqb_eq in Hid; auto.
    + step_request; rewrite ?Hm0, ?Hm, ?Hi0, ?Hi; intros H; auto.
      apply in_app_or in H. destruct H as [H|[<-|[]]]; auto.
  - specialize (Hfail eq_refl).
    step_request; rewrite ?Hm0, ?Hm, ?Hi0, ?Hi; intros H; auto.
    apply in_app_or in H. destruct H as [H|[<-|[]]]; auto.
Qed.

Lemma passUser_matches (userId targetUserId : string) (w : World) (m : Match) :
  In m (matches (snd (passUser userId targetUserId w))) ->
  In m (matches w)
  \/ m = mkMatch (next_id w) userId targetUserId false false false None.
Proof.
  unfold passUser. unfold_client.
  step_request; rewrite ?Hm, ?Hi; intros H; auto.
  apply in_app_or in H. destruct H as [H|[<-|[]]]; auto.
Qed.

Lemma like_update_invariant (userId : string) (now : Z) (e : Match) :
  mutual_implies_liked
    (like_update
       (if String.eqb (user1_id e) userId then user1_liked_field else user2_liked_field)
       (liked_by_other userId e) now e).
Proof.
  unfold mutual_implies_liked, like_update, liked_by_other.
  destruct (String.eqb (user1_id e) userId); cbn; auto.
Qed.

(** *** Primary keys stay unique *)

Lemma fresh_keys_next (ms : list Match) (n : nat) :
  fresh_keys ms n -> fresh_keys ms (S n).
Proof.
  intros [Hnd Hlt]. split; [exact Hnd|].
  eapply Forall_impl; [|exact Hlt]. cbn. intros m Hm. lia.
Qed.

Lemma fresh_keys_insert (ms : list Match) (n : nat) (row : Match) :
  match_id row = n -> fresh_keys ms n -> fresh_keys (ms ++ [row]) (S n).
Proof.
  intros Hid [Hnd Hlt]. split.
  - rewrite map_app. cbn.
    apply NoDup_app; [exact Hnd|constructor; [cbn; tauto|constructor]|].
    intros k Hk [<-|[]]. apply in_map_iff in Hk. destruct Hk as [m [Hm Hin]].
    rewrite Forall_forall in Hlt. specialize (Hlt m Hin). lia.
  - apply Forall_app. split.
    + eapply Forall_impl; [|exact Hlt]. cbn. intros m Hm. lia.
    + constructor; [cbn; lia|constructor].
Qed.

Lemma fresh_keys_update (hit : Match -> bool) (u : Match -> Match)
    (ms : list Match) (n : nat) :
  (forall m, match_id (u m) = match_id m) ->
  fresh_keys ms n ->
  fresh_keys (map (fun m => if hit m then u m else m) ms) n.
Proof.
  intros Hu [Hnd Hlt].
  assert (Hids : forall m, match_id (if hit m then u m else m) = match_id m).
  { intros m. destruct (hit m); auto. }
  split.
  - rewrite map_map. erewrite map_ext; [exact Hnd|]. exact Hids.
  - apply Forall_map. eapply Forall_impl; [|exact Hlt].
    cbn. intros m Hm. rewrite Hids. exact Hm.
Qed.

(** [likeUser] and [passUser] keep the primary keys of [matches] unique,
    whatever the outcome of their calls. *)
Lemma likeUser_fresh_keys (userId targetUserId : string) (w : World) :
  fresh_keys (matches w) (next_id w) ->
  let w' := snd (likeUser userId targetUserId w) in
  fresh_keys (matches w') (next_id w').
Proof.
  intros Hkeys. cbv zeta.
  unfold likeUser. unfold_client.
  step_request; rewrite ?Hm;
    [destruct (single (filter (pair_filter userId targetUserId) (matches w)))
       as [e|]|];
    repeat first
      [ step_request
      | match goal with
        | |- context [if ?b && negb ?c then _ else _] => destruct (b && negb c); cbn
        end ];
    rewrite ?Hm2, ?Hm1, ?Hm0, ?Hm, ?Hi2, ?Hi1, ?Hi0, ?Hi;
    repeat first
      [ exact Hkeys
      | apply fresh_keys_insert; [reflexivity|]
      | apply fresh_keys_update; [intros m; reflexivity|]
      | apply fresh_keys_next ].
Qed.

Lemma passUser_fresh_keys (userId targetUserId : string) (w : World) :
  fresh_keys (matches w) (next_id w) ->
  let w' := snd (passUser userId targetUserId w) in
  fresh_keys (matches w') (next_id w').
Proof.
  intros Hkeys. cbv zeta.
  unfold passUser. unfold_client.
  step_request; rewrite ?Hm, ?Hi; [|exact Hkeys].
  apply fresh_keys_insert; [reflexivity|exact Hkeys].
Qed.

(** The invariant of the table: once every row is mutual only if both
    have liked, [likeUser] and [passUser] keep it so. *)
Lemma matches_invariant_kept (userId targetUserId : string) (w : World) :
  NoDup (map match_id (matches w)) ->
  Forall mutual_implies_liked (matches w) ->
  Forall mutual_implies_liked (matches (snd (likeUser userId targetUserId w)))
  /\ Forall mutual_implies_liked (matches (snd (passUser userId targetUserId w))).
Proof.
  intros Hkeys Hinv. rewrite Forall_forall in Hinv.
  split; apply Forall_forall; intros m Hin.
  - apply likeUser_matches in Hin.
    destruct Hin as [Hin|[(e & m0 & He & Hin & Hid & ->)|[_ ->]]].
    + auto.
    + assert (m0 = e) as ->.
      { apply (NoDup_map_eq match_id (matches w)); auto.
        eapply existing_match_In, He. }
      apply like_update_invariant.
    + discriminate.
  - apply passUser_matches in Hin.
    destruct Hin as [Hin| ->]; [auto|discriminate].
Qed.


Lemma In_map_hit {A} (hit : A -> bool) (u : A -> A) (l : list A) (x : A) :
  In x l -> hit x = true -> In (u x) (map (fun m => if hit m then u m else m) l).
Proof.
  intros Hin Hhit. apply in_map_iff. exists x. rewrite Hhit. auto.
Qed.

(** What [likeUser] does to [chat_rooms] and to the row it read, when
    every call to the client goes through. *)
Lemma likeUser_reliable (userId targetUserId : string) (w : World) :
  failures w = [] ->
  let w' := snd (likeUser userId targetUserId w) in
  match existing_match userId targetUserId w with
  | Some e =>
      In (like_update
            (if String.eqb (user1_id e) userId
             then user1_liked_field else user2_liked_field)
            (liked_by_other userId e)
            (JS.getTime (JS.new_Date (clock w))) e)
         (matches w')
      /\ isMatch (fst (likeUser userId targetUserId w)) = liked_by_other userId e
      /\ chat_rooms w'
         = if liked_by_other userId e && negb (is_mutual e)
           then (chat_rooms w ++ [mkChatRoomRow (next_id w) (match_id e)])%list
           else chat_rooms w
  | None =>
      isMatch (fst (likeUser userId targetUserId w)) = false
      /\ chat_rooms w' = chat_rooms w
  end.
Proof.
  intros Hok. cbv zeta.
  pose proof (existing_match_In userId targetUserId w) as Hin.
  unfold existing_match, liked_by_other in *.
  unfold likeUser. unfold_client. unfold request.
  destruct w as [ms cr rs sa ps ns nid fs clk]. cbn in Hok. subst fs. cbn in *.
  destruct (single (filter (pair_filter userId targetUserId) ms)) as [e|]; cbn.
  - specialize (Hin e eq_refl).
    destruct ((if String.eqb (user1_id e) userId then user2_liked e else user1_liked e)
              && negb (is_mutual e)); cbn.
    all: repeat split.
    all: apply (In_map_hit (fun m => Nat.eqb (match_id m) (match_id e))); auto.
    all: apply Nat.eqb_refl.
  - auto.
Qed.

(** C6, as stated, fails: [likeUser] does not look at the error of its
    update before it makes the room.  Bob has liked Alice; Alice likes Bob
    back and the update fails: the table of matches is as it was, with no
    mutual row, so the call has made no match mutual, and the chat room of
    the match is there. *)
Lemma likeUser_chat_room_without_mutual_match :
  let w := Scenario.bob_likes_alice_update_fails in
  let w' := snd (likeUser "u-alice" "u-bob" w) in
  chat_rooms w' = (chat_rooms w ++ [mkChatRoomRow 1 0])%list
  /\ matches w' = matches w
  /\ Forall (fun m => is_mutual m = false) (matches w').
Proof. vm_compute. repeat split. repeat constructor. Qed.

(** C6, amended: when the calls to the client go through, [likeUser] adds
    a chat room, one, for the match it read, exactly if the like makes
    that match newly mutual: the other participant had liked and the match
    was not mutual; the row is then written with [is_mutual] set.  Any
    other like leaves [chat_rooms] as it was. *)
Theorem likeUser_chat_room_iff_newly_mutual :
  forall (userId targetUserId : string) (w : World),
    failures w = [] ->
    let w' := snd (likeUser userId targetUserId w) in
    ((exists room, chat_rooms w' = (chat_rooms w ++ [room])%list)
       <-> newly_mutual userId targetUserId w)
    /\ (newly_mutual userId targetUserId w ->
        exists e m,
          existing_match userId targetUserId w = Some e
          /\ chat_rooms w' = (chat_rooms w ++ [mkChatRoomRow (next_id w) (match_id e)])%list
          /\ In m (matches w')
          /\ match_id m = match_id e
          /\ is_mutual m = true /\ user1_liked m = true /\ user2_liked m = true)
    /\ (~ newly_mutual userId targetUserId w -> chat_rooms w' = chat_rooms w).
Proof.
  intros userId targetUserId w Hok w'.
  pose proof (likeUser_reliable userId targetUserId w Hok) as Hrun.
  cbv zeta in Hrun. fold w' in Hrun. unfold newly_mutual.
  destruct (existing_match userId targetUserId w) as [e|].
  - destruct Hrun as (Hrow & _ & Hrooms).
    destruct (liked_by_other userId e) eqn:Hliked;
      [destruct (is_mutual e) eqn:Hmutual|]; cbn in Hrooms.
    + (* already mutual *)
      split; [split|split].
      * intros [room Hroom]. rewrite Hrooms in Hroom.
        apply (f_equal (@List.length _)) in Hroom.
        rewrite length_app in Hroom. cbn in Hroom. lia.
      * intros (e' & He' & _ & Hm). congruence.
      * intros (e' & He' & _ & Hm). congruence.
      * intros _. exact Hrooms.
    + (* newly mutual *)
      split; [split|split].
      * intros _. exists e. auto.
      * intros _. eexists. exact Hrooms.
      * intros _. eexists e, _. split; [reflexivity|]. split; [exact Hrooms|].
        split; [exact Hrow|].
        pose proof (like_update_invariant userId
                      (JS.getTime (JS.new_Date (clock w))) e) as Hinv.
        rewrite Hliked in *. unfold mutual_implies_liked in Hinv.
        cbn in *. destruct (Hinv eq_refl). auto.
      * intros Hnot. exfalso. apply Hnot. exists e. auto.
    + (* the other side has not liked *)
      split; [split|split].
      * intros [room Hroom]. rewrite Hrooms in Hroom.
        apply (f_equal (@List.length _)) in Hroom.
        rewrite length_app in Hroom. cbn in Hroom. lia.
      * intros (e' & He' & Hl & _). congruence.
      * intros (e' & He' & Hl & _). congruence.
      * intros _. exact Hrooms.
  - destruct Hrun as [_ Hrooms].
    split; [split|split].
    + intros [room Hroom]. rewrite Hrooms in Hroom.
      apply (f_equal (@List.length _)) in Hroom.
      rewrite length_app in Hroom. cbn in Hroom. lia.
    + intros (e' & He' & _). discriminate.
    + intros (e' & He' & _). discriminate.
    + intros _. exact Hrooms.
Qed.


(** The same like opens the chat room of the match. *)
Lemma likeUser_chat_room_iff_newly_mutual_witness :
  (exists room,
      chat_rooms (snd (likeUser "u-alice" "u-bob" Sample.bob_likes_alice))
      = (chat_rooms Sample.bob_likes_alice ++ [room])%list)
  <-> newly_mutual "u-alice" "u-bob" Sample.bob_likes_alice.
Proof.
  assert (Hok : failures Sample.bob_likes_alice = []) by reflexivity.
  exact (proj1 (likeUser_chat_room_iff_newly_mutual "u-alice" "u-bob"
                  Sample.bob_likes_alice Hok)).
Defined.

Example likeUser_back :
  let '(r, w) := likeUser "u-alice" "u-bob" Sample.bob_likes_alice in
  isMatch r = true
  /\ matches w = [mkMatch 0 "u-bob" "u-alice" true true true (Some 1717200000000)]
  /\ chat_rooms w = [mkChatRoomRow 1 0].
Proof. vm_compute. auto. Qed.

Example likeUser_first :
  let '(r, w) := likeUser "u-alice" "u-bob" Sample.quiet_world in
  isMatch r = false
  /\ matches w = [mkMatch 0 "u-alice" "u-bob" true false false None]
  /\ chat_rooms w = [].
Proof. vm_compute. auto. Qed.

(* ================================================================== *)
(** ** Reports: priority, escalation, the route *)
(* ================================================================== *)

Lemma calculateReportPriority_cases (t : string) :
  (calculateReportPriority t = critical <-> t = "abuse" \/ t = "harassment")
  /\ (calculateReportPriority t = high
      <-> t = "inappropriate_content" \/ t = "fake_profile")
  /\ (calculateReportPriority t = medium
      <-> t <> "abuse" /\ t <> "harassment"
          /\ t <> "inappropriate_content" /\ t <> "fake_profile")
  /\ calculateReportPriority t <> low.
Proof.
  unfold calculateReportPriority, JS.includes. cbn [existsb].
  destruct (String.eqb_spec t "abuse") as [->|H1]; cbn [orb].
  { repeat split; try discriminate; intuition discriminate. }
  destruct (String.eqb_spec t "harassment") as [->|H2]; cbn [orb].
  { repeat split; try discriminate; intuition discriminate. }
  destruct (String.eqb_spec t "inappropriate_content") as [->|H3]; cbn [orb].
  { repeat split; try discriminate; intuition discriminate. }
  destruct (String.eqb_spec t "fake_profile") as [->|H4]; cbn [orb].
  { repeat split; try discriminate; intuition discriminate. }
  repeat split; try discriminate; intuition discriminate.
Qed.

(** *** Computations that leave [reports] alone *)

Lemma frames_ret {A} (a : A) : frames reports (ret a).
Proof. intros w. reflexivity. Qed.

Lemma frames_bind {A B} (c : M A) (k : A -> M B) :
  frames reports c -> (forall a, frames reports (k a)) -> frames reports (bind c k).
Proof.
  intros Hc Hk w. unfold bind.
  specialize (Hc w). destruct (c w) as [a w1]. cbn in Hc.
  rewrite Hk. exact Hc.
Qed.

Lemma frames_request : frames reports request.
Proof.
  intros w. destruct (request w) as [ok w'] eqn:E.
  apply request_frame in E. cbn. tauto.
Qed.

Lemma frames_get : frames reports get.
Proof. intros w. reflexivity. Qed.

Lemma frames_modify (f : World -> World) :
  (forall w, reports (f w) = reports w) -> frames reports (modify f).
Proof. intros H w. apply H. Qed.

Lemma frames_clock : frames reports new_Date_time /\ frames reports Date_now.
Proof. split; intros w; reflexivity. Qed.

(** Decomposes a computation into the steps above. *)
Ltac frame :=
  repeat first
    [ apply frames_ret
    | apply frames_request
    | apply frames_get
    | apply (proj1 frames_clock)
    | apply (proj2 frames_clock)
    | apply frames_modify; intros ?; reflexivity
    | apply frames_bind; [|intros ?]
    | match goal with
      | |- frames _ (if ?b then _ else _) => destruct b
      | |- frames _ (match ?x with _ => _ end) => destruct x
      end ].

Lemma select_reports {A} (table : World -> list A) (p : A -> bool) :
  frames reports (select table p).
Proof. unfold select. frame. Qed.

Lemma createNotification_reports (n : NotificationData) :
  frames reports (createNotification n).
Proof. unfold createNotification, insert_notifications. frame. Qed.

Lemma notifyAdminsOfNewReport_reports (report : ReportData) :
  frames reports (notifyAdminsOfNewReport report).
Proof.
  unfold notifyAdminsOfNewReport, insert_notifications.
  apply frames_bind; [apply select_reports|intros admins].
  frame.
Qed.

Lemma applySafetyAction_reports (userId : string) (actionData : ActionData) :
  frames reports (applySafetyAction userId actionData).
Proof.
  unfold applySafetyAction, update_profile.
  apply frames_bind; [frame|intros applied_at].
  apply frames_bind; [frame|intros ok].
  destruct (negb ok); [frame|].
  apply frames_bind; [frame|intros w0].
  apply frames_bind; [frame|intros _].
  apply frames_bind; [frame|intros now].
  apply frames_bind; [frame|intros today].
  apply frames_bind; [frame|intros _].
  apply frames_bind; [apply createNotification_reports|intros _].
  frame.
Qed.

Lemma checkForAutomaticActions_reports (userId reportType : string) :
  frames reports (checkForAutomaticActions userId reportType).
Proof.
  unfold checkForAutomaticActions.
  apply frames_bind; [frame|intros now].
  apply frames_bind; [apply select_reports|intros recentReports].
  repeat match goal with
         | |- frames _ (if ?b then _ else _) => destruct b
         end;
    try (apply frames_bind; [apply applySafetyAction_reports|intros _]);
    apply frames_ret.
Qed.

Lemma insert_report_run (row : nat -> ReportData) (w : World) :
  (fst (insert_report row w) = None
   /\ reports (snd (insert_report row w)) = reports w)
  \/ (fst (insert_report row w) = Some (row (next_id w))
      /\ reports (snd (insert_report row w)) = (reports w ++ [row (next_id w)])%list).
Proof.
  unfold insert_report. unfold_client.
  step_request; [right|left]; rewrite ?Hi, ?Hr; auto.
Qed.

(** [createReport] stores no report and answers [null], or stores one
    report, of the priority computed from its type, and answers it. *)
Lemma createReport_run (reportData : NewReport) (w : World) :
  (fst (createReport reportData w) = None
   /\ reports (snd (createReport reportData w)) = reports w)
  \/ exists r,
       fst (createReport reportData w) = Some r
       /\ reports (snd (createReport reportData w)) = (reports w ++ [r])%list
       /\ report_type r = new_report_type reportData
       /\ priority r = calculateReportPriority (report_type r).
Proof.
  unfold createReport, bind, new_Date_time.
  match goal with
  | |- context [insert_report ?row w] =>
      destruct (insert_report_run row w) as [[Hnone Hsame]|[Hsome Happ]];
      destruct (insert_report row w) as [inserted w1]
  end; cbn [fst snd] in *; subst inserted.
  - left. split; [reflexivity|exact Hsame].
  - right. eexists.
    match goal with
    | |- context [notifyAdminsOfNewReport ?d w1] =>
        pose proof (notifyAdminsOfNewReport_reports d w1) as H1;
        destruct (notifyAdminsOfNewReport d w1) as [u1 w2]
    end.
    match goal with
    | |- context [checkForAutomaticActions ?a ?b w2] =>
        pose proof (checkForAutomaticActions_reports a b w2) as H2;
        destruct (checkForAutomaticActions a b w2) as [u2 w3]
    end.
    cbn [fst snd ret] in *.
    split; [reflexivity|]. split; [congruence|]. split; reflexivity.
Qed.

(** C9: a report stored by [createReport] has the priority computed from
    its type: critical for abuse and harassment, high for inappropriate
    content and fake profiles, medium for every other type; never low. *)
Theorem createReport_priority :
  forall (reportData : NewReport) (w : World),
    let result := createReport reportData w in
    (forall r, In r (reports (snd result)) ->
       In r (reports w)
       \/ (report_type r = new_report_type reportData
           /\ priority r = calculateReportPriority (report_type r)))
    /\ (forall r, fst result = Some r ->
          In r (reports (snd result))
          /\ report_type r = new_report_type reportData
          /\ priority r = calculateReportPriority (report_type r))
    /\ (forall t,
          (calculateReportPriority t = critical <-> t = "abuse" \/ t = "harassment")
          /\ (calculateReportPriority t = high
              <-> t = "inappropriate_content" \/ t = "fake_profile")
          /\ (calculateReportPriority t = medium
              <-> t <> "abuse" /\ t <> "harassment"
                  /\ t <> "inappropriate_content" /\ t <> "fake_profile")
          /\ calculateReportPriority t <> low).
Proof.
  intros reportData w result.
  pose proof (createReport_run reportData w) as Hrun. fold result in Hrun.
  split; [|split].
  - intros r Hin.
    destruct Hrun as [[_ Hsame]|(r' & _ & Happ & Htype & Hprio)].
    + left. now rewrite <- Hsame.
    + rewrite Happ in Hin. apply in_app_or in Hin.
      destruct Hin as [Hin|[<-|[]]]; auto.
  - intros r Hr.
    destruct Hrun as [[Hnone _]|(r' & Hsome & Happ & Htype & Hprio)].
    + congruence.
    + assert (r' = r) by congruence. subst r'.
      rewrite Happ. split; [apply in_or_app; right; now left|auto].
  - apply calculateReportPriority_cases.
Qed.

(** *** The escalation when the client's calls go through *)

Ltac reliable w H :=
  let ms := fresh "ms" in let cr := fresh "cr" in let rs := fresh "rs" in
  let sa := fresh "sa" in let ps := fresh "ps" in let ns := fresh "ns" in
  let nid := fresh "nid" in let fs := fresh "fs" in let clk := fresh "clk" in
  destruct w as [ms cr rs sa ps ns nid fs clk]; cbn [failures] in H; subst fs.

(** [applySafetyAction] records the action, rewrites the account as
    [updateData] says, and notifies the user. *)
Lemma applySafetyAction_reliable (userId : string) (actionData : ActionData) (w : World) :
  failures w = [] ->
  let w' := snd (applySafetyAction userId actionData w) in
  safety_actions w'
  = (safety_actions w
     ++ [mkSafetyAction userId (ad_action_type actionData) (ad_reason actionData)
           (ad_duration actionData) (ad_applied_by actionData)
           (JS.getTime (JS.new_Date (clock w)))])%list
  /\ profiles w'
     = match updateData actionData (JS.Date_now (clock w))
               (JS.getTime (JS.new_Date (clock w))) with
       | Some u =>
           map (fun a => if String.eqb (account_id a) userId then u a else a)
               (profiles w)
       | None => profiles w
       end
  /\ reports w' = reports w
  /\ clock w' = clock w.
Proof.
  intros Hok. reliable w Hok.
  unfold applySafetyAction, createNotification. unfold_client. unfold request.
  cbn. destruct (updateData actionData (JS.Date_now clk)
                  (JS.getTime (JS.new_Date clk))); cbn; auto.
Qed.

(** [checkForAutomaticActions] applies the action of the first rule that
    the count of recent reports satisfies, and does nothing when none is. *)
Lemma checkForAutomaticActions_reliable (userId reportType : string) (w : World) :
  failures w = [] ->
  let reportCount := JS.length (recent_reports userId reportType w) in
  snd (checkForAutomaticActions userId reportType w)
  = if (5 <=? reportCount) && String.eqb reportType "harassment" then
      snd (applySafetyAction userId
             (mkActionData temporary_ban "반복적인 괴롭힘 신고로 인한 자동 조치"
                (Some 72) "system") w)
    else if (3 <=? reportCount) && String.eqb reportType "inappropriate_content" then
      snd (applySafetyAction userId
             (mkActionData profile_review
                "반복적인 부적절한 콘텐츠 신고로 인한 프로필 검토" None "system") w)
    else if 10 <=? reportCount then
      snd (applySafetyAction userId
             (mkActionData permanent_ban "반복적인 신고로 인한 영구 정지"
                None "system") w)
    else w.
Proof.
  intros Hok. reliable w Hok. unfold recent_reports. cbv zeta.
  unfold checkForAutomaticActions, select, bind, Date_now, request, get, ret.
  cbn [failures reports clock fst snd].
  repeat match goal with
         | |- context [if ?b then _ else _] => destruct b
         end;
    try reflexivity;
    match goal with
    | |- snd (let '(_, _) := ?c in _) = _ => destruct c; reflexivity
    end.
Qed.

(** [createReport] stores the report, notifies the admins, and runs the
    escalation on the table that holds the new report. *)
Lemma createReport_reliable (reportData : NewReport) (w : World) :
  failures w = [] ->
  exists report w1,
    fst (createReport reportData w) = Some report
    /\ snd (createReport reportData w)
       = snd (checkForAutomaticActions (new_reported_user_id reportData)
                (new_report_type reportData) w1)
    /\ reports w1 = (reports w ++ [report])%list
    /\ safety_actions w1 = safety_actions w
    /\ profiles w1 = profiles w
    /\ clock w1 = clock w
    /\ failures w1 = [].
Proof.
  intros Hok. reliable w Hok.
  unfold createReport, notifyAdminsOfNewReport. unfold_client. unfold request.
  cbn -[checkForAutomaticActions].
  destruct (filter (fun a => String.eqb (role a) "admin") ps) as [|admin others];
    cbn -[checkForAutomaticActions];
    match goal with
    | |- context [checkForAutomaticActions ?u ?t ?w1] =>
        destruct (checkForAutomaticActions u t w1) as [u2 w2] eqn:E;
        eexists _, w1; cbn [fst snd];
        split; [reflexivity|]; split; [rewrite E; reflexivity|]
    end;
    cbn; auto.
Qed.

Lemma updateData_keeps_identity (actionData : ActionData) (now today : Z)
    (u : Account -> Account) (a : Account) :
  updateData actionData now today = Some u ->
  account_id (u a) = account_id a /\ role (u a) = role a.
Proof.
  unfold updateData. destruct (ad_action_type actionData);
    intros H; inversion H; subst; split; reflexivity.
Qed.

Lemma profiles_update_others (userId : string) (u : Account -> Account)
    (ps : list Account) :
  (forall a, account_id (u a) = account_id a /\ role (u a) = role a) ->
  let ps' := map (fun a => if String.eqb (account_id a) userId then u a else a) ps in
  map (fun a => (account_id a, role a)) ps' = map (fun a => (account_id a, role a)) ps
  /\ filter (fun a => negb (String.eqb (account_id a) userId)) ps'
     = filter (fun a => negb (String.eqb (account_id a) userId)) ps
  /\ filter (fun a => String.eqb (account_id a) userId) ps'
     = map u (filter (fun a => String.eqb (account_id a) userId) ps).
Proof.
  intros Hu. cbv zeta. induction ps as [|a ps (IH1 & IH2 & IH3)]; [repeat split|].
  cbn [map filter].
  destruct (String.eqb (account_id a) userId) eqn:E.
  - destruct (Hu a) as [Hid Hrole].
    rewrite Hid, Hrole, E. cbn [negb map]. rewrite IH1, IH2, IH3. repeat split.
  - rewrite E. cbn [negb]. rewrite IH1, IH2, IH3. repeat split.
Qed.

Lemma Forall2_map_same {A} (R : A -> A -> Prop) (u : A -> A) (l : list A) :
  (forall a, R a (u a)) -> Forall2 R l (map u l).
Proof.
  intros HR. induction l as [|a l IH]; cbn; constructor; auto.
Qed.

(** C2, as stated, fails: a count that cannot be read is taken for 0.
    The tenth harassment report against Bob is stored and the admin is
    told; the query that counts fails.  Ten such reports of the last 30
    days are in the table, more than any threshold, and no action is
    applied: Bob's account is as it was. *)
Lemma createReport_escalation_count_unread :
  let w := Scenario.count_unread in
  let w' := snd (createReport Sample.harassment_by_bob w) in
  List.length (reports w') = S (List.length (reports w))
  /\ JS.length (recent_reports "u-bob" "harassment" w') = 10
  /\ safety_actions w' = safety_actions w
  /\ profiles w' = profiles w.
Proof. vm_compute. repeat split. Qed.

(** C2, amended: when the calls to the client go through, [createReport]
    stores the report and the escalation counts the reports of its type
    against the reported user in the last 30 days, the new one among them.
    If the count reaches the threshold of a rule, one action is applied
    to that user, by the first rule that holds: a temporary ban of 72
    hours for 5 harassment reports, a profile review for 3 reports of
    inappropriate content, a permanent ban for 10 reports of any type (a
    warning is never chosen); the action is recorded once and every
    account of the user is suspended, put under review or banned
    accordingly.  If the count reaches no threshold, no action is
    recorded and the accounts are left as they were.  The accounts of
    other users are never touched. *)
Theorem createReport_escalation :
  forall (reportData : NewReport) (w : World),
    failures w = [] ->
    let userId := new_reported_user_id reportData in
    let reportType := new_report_type reportData in
    let result := createReport reportData w in
    let w' := snd result in
    let now := JS.Date_now (clock w) in
    let today := JS.getTime (JS.new_Date (clock w)) in
    let reportCount := JS.length (recent_reports userId reportType w') in
    exists report,
      fst result = Some report
      /\ reports w' = (reports w ++ [report])%list
      /\ accounts_but userId w' = accounts_but userId w
      /\ if threshold_reached reportType reportCount
         then exists a,
                safety_actions w' = (safety_actions w ++ [a])%list
                /\ action_user_id a = userId
                /\ applied_by a = "system"
                /\ In (action_type a)
                      [warning; temporary_ban; profile_review; permanent_ban]
                /\ action_type a <> warning
                /\ action_type a
                   = (if (5 <=? reportCount) && String.eqb reportType "harassment"
                      then temporary_ban
                      else if (3 <=? reportCount)
                              && String.eqb reportType "inappropriate_content"
                      then profile_review
                      else permanent_ban)
                /\ Forall2 (sanctioned (action_type a) 72 now today)
                     (accounts_of userId w) (accounts_of userId w')
         else safety_actions w' = safety_actions w
              /\ profiles w' = profiles w.
Proof.
  intros reportData w Hok userId reportType result w' now today reportCount.
  destruct (createReport_reliable reportData w Hok)
    as (report & w1 & Hfst & Hsnd & Hreports & Hactions & Hprofiles & Hclock & Hok1).
  exists report. split; [exact Hfst|].
  subst reportCount w' result. rewrite Hsnd. fold userId reportType.
  pose proof (checkForAutomaticActions_reports userId reportType w1) as Hframe.
  split; [rewrite Hframe; exact Hreports|].
  assert (Hcount :
            recent_reports userId reportType
              (snd (checkForAutomaticActions userId reportType w1))
            = recent_reports userId reportType w1).
  { unfold recent_reports. rewrite Hframe. f_equal.
    rewrite (checkForAutomaticActions_reliable userId reportType w1 Hok1).
    cbv zeta.
    repeat match goal with
           | |- context [if ?b then _ else _] => destruct b
           end; try reflexivity;
      match goal with
      | |- context [applySafetyAction userId ?ad w1] =>
          destruct (applySafetyAction_reliable userId ad w1 Hok1) as (_ & _ & _ & Hc);
          rewrite Hc; reflexivity
      end. }
  rewrite Hcount.
  rewrite (checkForAutomaticActions_reliable userId reportType w1 Hok1).
  cbv zeta. unfold threshold_reached.
  set (n := JS.length (recent_reports userId reportType w1)).
  assert (Hrule : forall ad u,
             updateData ad (JS.Date_now (clock w1))
               (JS.getTime (JS.new_Date (clock w1))) = Some u ->
             (forall acc, sanctioned (ad_action_type ad) 72 now today acc (u acc)) ->
             let w2 := snd (applySafetyAction userId ad w1) in
             accounts_but userId w2 = accounts_but userId w
             /\ exists a,
                  safety_actions w2 = (safety_actions w ++ [a])%list
                  /\ action_user_id a = userId
                  /\ applied_by a = ad_applied_by ad
                  /\ action_type a = ad_action_type ad
                  /\ Forall2 (sanctioned (action_type a) 72 now today)
                       (accounts_of userId w) (accounts_of userId w2)).
  { intros ad u Hu Hsanction w2. subst w2.
    destruct (applySafetyAction_reliable userId ad w1 Hok1) as (Ha & Hp & _).
    cbv zeta in Hp. rewrite Hu in Hp.
    pose proof (profiles_update_others userId u (profiles w1)
                  (fun a => updateData_keeps_identity ad _ _ u a Hu))
      as (_ & Hothers & Hmine).
    cbv zeta in Hothers, Hmine.
    unfold accounts_but, accounts_of. rewrite Hp, Hothers, Hmine, Hprofiles.
    split; [reflexivity|].
    eexists. split; [rewrite Ha, Hactions; reflexivity|].
    cbn [action_user_id applied_by action_type].
    repeat split. apply Forall2_map_same, Hsanction. }
  destruct ((5 <=? n) && String.eqb reportType "harassment");
    [|destruct ((3 <=? n) && String.eqb reportType "inappropriate_content");
      [|destruct (10 <=? n)]];
    cbn [orb].
  - pose proof (Hrule (mkActionData temporary_ban
                         "반복적인 괴롭힘 신고로 인한 자동 조치" (Some 72) "system")
                  _ eq_refl) as Hr.
    lapply Hr.
    + clear Hr. cbv zeta.
      intros (Hothers & a & Ha & Hu & Hby & Htype & Hacc).
      split; [exact Hothers|].
      exists a. rewrite Htype in *. cbn in *.
      repeat split; auto; discriminate.
    + intros acc. subst now today. rewrite Hclock. repeat split.
  - pose proof (Hrule (mkActionData profile_review
                         "반복적인 부적절한 콘텐츠 신고로 인한 프로필 검토" None "system")
                  _ eq_refl) as Hr.
    lapply Hr.
    + clear Hr. cbv zeta.
      intros (Hothers & a & Ha & Hu & Hby & Htype & Hacc).
      split; [exact Hothers|].
      exists a. rewrite Htype in *. cbn in *.
      repeat split; auto; discriminate.
    + intros acc. repeat split.
  - pose proof (Hrule (mkActionData permanent_ban
                         "반복적인 신고로 인한 영구 정지" None "system")
                  _ eq_refl) as Hr.
    lapply Hr.
    + clear Hr. cbv zeta.
      intros (Hothers & a & Ha & Hu & Hby & Htype & Hacc).
      split; [exact Hothers|].
      exists a. rewrite Htype in *. cbn in *.
      repeat split; auto; discriminate.
    + intros acc. subst now today. rewrite Hclock. repeat split.
  - unfold accounts_but. rewrite Hprofiles. repeat split; assumption.
Qed.

(** C3, on the code: the tenth harassment report in ten days.  The count
    is 10, the rule for harassment fires first, Bob is suspended for 72
    hours, and the rule of ten reports, which the code's comment gives for
    any type, is not reached: no permanent ban is recorded. *)
Lemma tenth_harassment_report_suspends :
  let w := snd (createReport Sample.harassment_by_bob Sample.bob_reported_nine_times) in
  JS.length (recent_reports "u-bob" "harassment" w) = 10
  /\ map action_type (safety_actions w) = [temporary_ban]
  /\ map account_status (accounts_of "u-bob" w) = ["suspended"]
  /\ ~ In permanent_ban (map action_type (safety_actions w)).
Proof.
  vm_compute. repeat split; try reflexivity.
  intros [H|[]]. discriminate H.
Qed.

(** The rule of ten reports is behind the two rules by type: for
    harassment and for inappropriate content it never applies. *)
Lemma permanent_ban_shadowed (userId reportType : string) (w : World) :
  failures w = [] ->
  reportType = "harassment" \/ reportType = "inappropriate_content" ->
  10 <= JS.length (recent_reports userId reportType w) ->
  let w' := snd (checkForAutomaticActions userId reportType w) in
  exists a,
    safety_actions w' = (safety_actions w ++ [a])%list
    /\ action_type a <> permanent_ban.
Proof.
  intros Hok Htype Hcount w'. subst w'.
  rewrite (checkForAutomaticActions_reliable userId reportType w Hok). cbv zeta.
  replace (5 <=? JS.length (recent_reports userId reportType w)) with true
    by (symmetry; apply Z.leb_le; lia).
  replace (3 <=? JS.length (recent_reports userId reportType w)) with true
    by (symmetry; apply Z.leb_le; lia).
  destruct Htype as [-> | ->]; cbn [andb String.eqb Ascii.eqb Bool.eqb];
    match goal with
    | |- context [applySafetyAction userId ?ad w] =>
        destruct (applySafetyAction_reliable userId ad w Hok) as (Ha & _);
        eexists; split; [exact Ha|cbn; discriminate]
    end.
Qed.

(** For the other types ten reports do bring the permanent ban. *)
Lemma permanent_ban_other_types (userId reportType : string) (w : World) :
  failures w = [] ->
  reportType <> "harassment" -> reportType <> "inappropriate_content" ->
  10 <= JS.length (recent_reports userId reportType w) ->
  let w' := snd (checkForAutomaticActions userId reportType w) in
  exists a,
    safety_actions w' = (safety_actions w ++ [a])%list
    /\ action_type a = permanent_ban.
Proof.
  intros Hok Hh Hi Hcount w'. subst w'.
  rewrite (checkForAutomaticActions_reliable userId reportType w Hok). cbv zeta.
  apply String.eqb_neq in Hh, Hi. rewrite Hh, Hi, !andb_false_r.
  replace (10 <=? JS.length (recent_reports userId reportType w)) with true
    by (symmetry; apply Z.leb_le; lia).
  match goal with
  | |- context [applySafetyAction userId ?ad w] =>
      destruct (applySafetyAction_reliable userId ad w Hok) as (Ha & _);
      eexists; split; [exact Ha|reflexivity]
  end.
Qed.

Lemma createReport_escalation_witness :
  exists report,
    fst (createReport Sample.harassment_by_bob Sample.bob_reported_nine_times)
    = Some report.
Proof.
  assert (Hok : failures Sample.bob_reported_nine_times = []) by reflexivity.
  destruct (createReport_escalation Sample.harassment_by_bob
              Sample.bob_reported_nine_times Hok) as [report [H _]].
  exists report. exact H.
Defined.

Lemma createReport_priority_witness :
  calculateReportPriority "harassment" <> low.
Proof.
  apply (createReport_priority Sample.harassment_by_bob Sample.quiet_world).
Defined.

(** C8: a request whose [reporter_id] equals its [reported_user_id] is
    answered with status 400 and the state is left as it was: no call to
    the client is made, no report is stored, no action is recorded and no
    account is changed. *)
Theorem POST_rejects_self_report :
  forall (reportData : ReportRequest) (w : World),
    req_reporter_id reportData = req_reported_user_id reportData ->
    let '(response, w') := POST reportData w in
    http_status response = 400
    /\ w' = w
    /\ reports w' = reports w
    /\ safety_actions w' = safety_actions w
    /\ profiles w' = profiles w.
Proof.
  intros reportData w Hself. unfold POST. rewrite Hself.
  destruct (req_reported_user_id reportData) as [reported|];
    [|cbn; auto].
  destruct (req_report_type reportData) as [type|]; [|cbn; auto].
  destruct (String.eqb reported "" || String.eqb reported "" || String.eqb type "");
    [cbn; auto|].
  rewrite String.eqb_refl. cbn. auto.
Qed.

Lemma POST_rejects_self_report_witness :
  let '(response, w') := POST Sample.self_report Sample.quiet_world in
  http_status response = 400
  /\ w' = Sample.quiet_world
  /\ reports w' = reports Sample.quiet_world
  /\ safety_actions w' = safety_actions Sample.quiet_world
  /\ profiles w' = profiles Sample.quiet_world.
Proof.
  apply (POST_rejects_self_report Sample.self_report Sample.quiet_world).
  reflexivity.
Defined.

(** A report of somebody else goes through: status 200 and one report
    more. *)
Example POST_stores_report :
  let '(response, w') := POST Sample.report_of_bob Sample.quiet_world in
  http_status response = 200
  /\ map (fun r => (reporter_id r, reported_user_id r, report_type r, priority r))
         (reports w')
     = [("u-alice", "u-bob", "harassment", critical)].
Proof. vm_compute. auto. Qed.

(* ================================================================== *)
(** ** More on the score *)
(* ================================================================== *)

(** [calculateAge] never goes down as the calendar advances: of two clock
    readings, the one on the later day gives the same age or a greater
    one, for every valid birth date, whatever its fields. *)
Theorem calculateAge_monotone :
  forall (clk1 clk2 : JS.Clock) (birth : JS.Date) (age1 age2 : Z),
    day_le (JS.new_Date clk1) (JS.new_Date clk2) ->
    calculateAge clk1 (Some birth) = Some age1 ->
    calculateAge clk2 (Some birth) = Some age2 ->
    age1 <= age2.
Proof.
  intros clk1 clk2 birth age1 age2 Hday H1 H2.
  unfold calculateAge, day_le in *. cbv zeta in *.
  destruct ((JS.getMonth (JS.new_Date clk1) - JS.getMonth birth <? 0)
            || ((JS.getMonth (JS.new_Date clk1) - JS.getMonth birth =? 0)
                && (JS.getDate (JS.new_Date clk1) <? JS.getDate birth))) eqn:E1;
    destruct ((JS.getMonth (JS.new_Date clk2) - JS.getMonth birth <? 0)
              || ((JS.getMonth (JS.new_Date clk2) - JS.getMonth birth =? 0)
                  && (JS.getDate (JS.new_Date clk2) <? JS.getDate birth))) eqn:E2;
    inversion H1; inversion H2; subst; clear H1 H2; lia.
Qed.

(** From 2024-06-01 to 2025-06-01 Bob goes from 30 to 31. *)
Lemma calculateAge_monotone_witness : 30 <= 31.
Proof.
  apply (calculateAge_monotone Sample.clock_2024 Sample.clock_2025
           (JS.mkDate 763257600000 1994 2 10) 30 31).
  - left. cbn. lia.
  - reflexivity.
  - reflexivity.
Defined.

(** The score is never below 2, the points of the oldest activity; with
    no preferences record it is never above 57, since the age range gives
    nothing, the country 10 and the education at most 7. *)
Theorem calculateCompatibilityScore_floor_and_default_ceiling :
  forall (clk : JS.Clock) (user candidate : UserProfile)
         (preferences : option MatchingPreferences),
    2 <= calculateCompatibilityScore clk user candidate preferences
    /\ 12 <= calculateCompatibilityScore clk user candidate None <= 57.
Proof.
  intros clk user candidate preferences.
  rewrite !calculateCompatibilityScore_sum.
  pose proof (age_points_cases clk candidate preferences).
  pose proof (country_points_cases candidate preferences).
  pose proof (education_points_cases candidate preferences).
  pose proof (education_points_cases candidate None).
  pose proof (recency_points_cases clk candidate).
  pose proof (JS_length_nonneg (common (interests user) (interests candidate))).
  pose proof (JS_length_nonneg (common (languages user) (languages candidate))).
  assert (Hedu : education_points candidate None <= 7).
  { unfold education_points. destruct (education_level candidate) as [e|]; [|lia].
    destruct (String.eqb e ""); lia. }
  unfold interest_points, language_points.
  cbn [age_points country_points].
  lia.
Qed.

(** Of the requesting user the score reads the interests and the languages
    only: two users who list the same interests and the same languages get
    the same score with every candidate. *)
Theorem calculateCompatibilityScore_reads_interests_and_languages :
  forall (clk : JS.Clock) (user1 user2 candidate : UserProfile)
         (preferences : option MatchingPreferences),
    interests user1 = interests user2 ->
    languages user1 = languages user2 ->
    calculateCompatibilityScore clk user1 candidate preferences
    = calculateCompatibilityScore clk user2 candidate preferences.
Proof.
  intros clk user1 user2 candidate preferences Hi Hl.
  rewrite !calculateCompatibilityScore_sum.
  unfold interest_points, language_points. rewrite Hi, Hl. reflexivity.
Qed.

Lemma calculateCompatibilityScore_reads_interests_and_languages_witness :
  calculateCompatibilityScore Sample.clock_2024 Sample.alice Sample.bob
    (Some Sample.alice_preferences)
  = calculateCompatibilityScore Sample.clock_2024 Scenario.alina Sample.bob
      (Some Sample.alice_preferences).
Proof.
  apply (calculateCompatibilityScore_reads_interests_and_languages
           Sample.clock_2024 Sample.alice Scenario.alina Sample.bob
           (Some Sample.alice_preferences));
    reflexivity.
Defined.

(** Counting the elements of a duplicate-free [b] that are [x] or in [a]:
    those in [a], and one more if [x] is in [b]. *)
Lemma common_cons_r (x : string) (a b : list string) :
  NoDup b -> ~ In x a ->
  List.length (common b (x :: a))
  = ((if JS.includes b x then 1 else 0) + List.length (common b a))%nat.
Proof.
  intros Hb Hx. unfold common.
  induction Hb as [|y b Hy Hb IH]; [reflexivity|].
  cbn [filter].
  change (JS.includes (x :: a) y) with (String.eqb y x || JS.includes a y).
  change (JS.includes (y :: b) x) with (String.eqb x y || JS.includes b x).
  destruct (String.eqb_spec y x) as [->|Hne].
  - rewrite (String.eqb_refl x). cbn [orb].
    replace (JS.includes a x) with false by (symmetry; now apply includes_not_In).
    replace (JS.includes b x) with false in *
      by (symmetry; now apply includes_not_In).
    cbn [List.length]. rewrite IH. reflexivity.
  - replace (String.eqb x y) with false
      by (symmetry; apply String.eqb_neq; congruence).
    cbn [orb].
    destruct (JS.includes a y); cbn [List.length]; rewrite IH;
      destruct (JS.includes b x); reflexivity.
Qed.

(** Between two lists without duplicates the number of common entries
    does not depend on whose list is filtered: the points for shared
    interests and for shared languages are the same in both directions. *)
Theorem common_symmetric :
  forall (user candidate : UserProfile),
    NoDup (interests user) -> NoDup (interests candidate) ->
    NoDup (languages user) -> NoDup (languages candidate) ->
    interest_points user candidate = interest_points candidate user
    /\ language_points user candidate = language_points candidate user.
Proof.
  assert (Hsym : forall a b, NoDup a -> NoDup b ->
                   List.length (common a b) = List.length (common b a)).
  { intros a b Ha. revert b.
    induction Ha as [|x a Hx Ha IH]; intros b Hb.
    - unfold common. cbn. clear Hb. induction b; auto.
    - rewrite (common_cons_r x a b Hb Hx).
      unfold common at 1. cbn [filter]. fold (common a b).
      destruct (JS.includes b x); cbn [List.length]; rewrite IH; auto. }
  intros user candidate Hiu Hic Hlu Hlc.
  unfold interest_points, language_points, JS.length.
  rewrite (Hsym _ _ Hiu Hic), (Hsym _ _ Hlu Hlc). auto.
Qed.

Lemma common_symmetric_witness :
  interest_points Sample.alice Sample.bob = interest_points Sample.bob Sample.alice
  /\ language_points Sample.alice Sample.bob = language_points Sample.bob Sample.alice.
Proof.
  apply (common_symmetric Sample.alice Sample.bob);
    cbn; repeat constructor; cbn; intuition discriminate.
Defined.

(** With a repeated entry the count is not symmetric: a user who lists an
    interest twice is given its points twice. *)
Example common_counts_repetitions :
  common ["music"; "music"] ["music"] = ["music"; "music"]
  /\ common ["music"] ["music"; "music"] = ["music"].
Proof. split; reflexivity. Qed.

(* ================================================================== *)
(** ** More on the recommendations *)
(* ================================================================== *)

(** When the profile of the user cannot be read, or the candidate query
    fails or answers no data, [getRecommendations] returns the empty
    list. *)
Theorem getRecommendations_empty_on_failure :
  forall (clk : JS.Clock) (db : RecommendationReads) (userId : string) (limit : Z),
    error (currentUser_read db) = true
    \/ data (currentUser_read db) = None
    \/ (forall q, error (candidates_read db q) = true)
    \/ (forall q, data (candidates_read db q) = None) ->
    getRecommendations clk db userId limit = [].
Proof.
  intros clk db userId limit H. unfold getRecommendations.
  destruct H as [H|[H|[H|H]]].
  - rewrite H. reflexivity.
  - rewrite H. destruct (error _); reflexivity.
  - destruct (error (currentUser_read db)); [reflexivity|].
    destruct (data (currentUser_read db)); [|reflexivity].
    cbv zeta. rewrite H. reflexivity.
  - destruct (error (currentUser_read db)); [reflexivity|].
    destruct (data (currentUser_read db)); [|reflexivity].
    cbv zeta. rewrite H. destruct (error _); reflexivity.
Qed.

Lemma getRecommendations_empty_on_failure_witness :
  getRecommendations Sample.clock_2024 Scenario.failing_reads "u-alice" 10 = [].
Proof.
  apply (getRecommendations_empty_on_failure Sample.clock_2024
           Scenario.failing_reads "u-alice" 10).
  left. reflexivity.
Defined.

Lemma Set_add_NoDup (x : string) (s : list string) :
  NoDup s -> NoDup (JS.Set_add x s).
Proof.
  intros Hs. unfold JS.Set_add.
  destruct (JS.includes s x) eqn:E; [exact Hs|].
  apply includes_not_In in E.
  apply NoDup_app; [exact Hs|constructor; [cbn; tauto|constructor]|].
  intros y Hy [<-|[]]. contradiction.
Qed.

Lemma Set_add_In (x : string) (s : list string) : In x (JS.Set_add x s).
Proof.
  unfold JS.Set_add. destruct (JS.includes s x) eqn:E.
  - now apply includes_In.
  - apply in_or_app. right. now left.
Qed.

Lemma fold_Set_add_NoDup {B} (f : B -> string) (l : list B) (s : list string) :
  NoDup s -> NoDup (fold_left (fun s b => JS.Set_add (f b) s) l s).
Proof.
  revert s. induction l as [|b l IH]; cbn; intros s Hs; [exact Hs|].
  apply IH, Set_add_NoDup, Hs.
Qed.

Lemma fold_Set_add_In {B} (f : B -> string) (l : list B) (s : list string) (b : B) :
  In b l -> In (f b) (fold_left (fun s b => JS.Set_add (f b) s) l s).
Proof.
  revert s. induction l as [|c l IH]; cbn; intros s Hin; [contradiction|].
  destruct Hin as [->|Hin].
  - apply fold_Set_add_keeps, Set_add_In.
  - apply IH, Hin.
Qed.

(** [excludeIds] lists no id twice, and holds every blocked user and, of
    every existing match, the participant who is not the user. *)
Theorem excludeIds_complete :
  forall (userId : string) (existingMatches : option (list (string * string)))
         (blocks : option (list string)),
    NoDup (excludeIds userId existingMatches blocks)
    /\ (forall bs blocked_id,
          blocks = Some bs -> In blocked_id bs ->
          In blocked_id (excludeIds userId existingMatches blocks))
    /\ (forall ms user1 user2,
          existingMatches = Some ms -> In (user1, user2) ms ->
          In (if String.eqb user1 userId then user2 else user1)
             (excludeIds userId existingMatches blocks)).
Proof.
  intros userId existingMatches blocks.
  set (other := fun m : string * string =>
                  if String.eqb (fst m) userId then snd m else fst m).
  assert (H0 : NoDup [userId]) by (constructor; [cbn; tauto|constructor]).
  split; [|split].
  - unfold excludeIds. destruct existingMatches, blocks; cbv zeta;
      repeat first [apply (fold_Set_add_NoDup (fun b => b))
                   |apply (fold_Set_add_NoDup other)]; exact H0.
  - intros bs b -> Hin. unfold excludeIds. cbv zeta.
    apply (fold_Set_add_In (fun b => b)), Hin.
  - intros ms user1 user2 -> Hin. unfold excludeIds. cbv zeta.
    assert (Hm : In (other (user1, user2))
                    (fold_left (fun s m => JS.Set_add (other m) s) ms [userId]))
      by (apply (fold_Set_add_In other), Hin).
    destruct blocks; [apply (fold_Set_add_keeps (fun b => b))|]; exact Hm.
Qed.

Lemma excludeIds_complete_witness :
  In "u-gus"
     (excludeIds "u-alice"
        (Some [("u-alice", "u-erin"); ("u-frank", "u-alice")]) (Some ["u-gus"])).
Proof.
  apply (excludeIds_complete "u-alice"
           (Some [("u-alice", "u-erin"); ("u-frank", "u-alice")])
           (Some ["u-gus"])) with (bs := ["u-gus"]).
  - reflexivity.
  - left. reflexivity.
Defined.

Example excludeIds_alice :
  excludeIds "u-alice"
    (Some [("u-alice", "u-erin"); ("u-frank", "u-alice"); ("u-erin", "u-alice")])
    (Some ["u-gus"; "u-frank"])
  = ["u-alice"; "u-erin"; "u-frank"; "u-gus"].
Proof. reflexivity. Qed.

Lemma slice0_all {A} (l : list A) (e : Z) : JS.length l <= e -> JS.slice0 l e = l.
Proof.
  intros H. unfold JS.slice0, JS.length in *.
  destruct (e <? 0) eqn:E; [apply Z.ltb_lt in E; lia|].
  apply firstn_all2. lia.
Qed.

(** What [getRecommendations] returns when its reads go through. *)
Lemma getRecommendations_run (clk : JS.Clock) (db : RecommendationReads)
    (userId : string) (limit : Z) (currentUser : UserProfile)
    (candidates : list UserProfile) :
  currentUser_read db = mkResponse (Some currentUser) false ->
  candidates_read db
    (candidateQuery clk currentUser (getUserPreferences (preferences_read db))
       (excludeIds userId (existingMatches_read db) (blocks_read db)) limit)
  = mkResponse (Some candidates) false ->
  getRecommendations clk db userId limit
  = JS.slice0
      (Array_sort (fun a b => compatibilityScore b - compatibilityScore a)
         (scored clk currentUser (getUserPreferences (preferences_read db))
            candidates))
      limit.
Proof.
  intros Hu Hc. unfold getRecommendations. rewrite Hu. cbn [error data].
  cbv zeta. rewrite Hc. reflexivity.
Qed.

(** With a limit that is not below the number of candidates the database
    returned, nobody is dropped: the result holds those candidates, each
    once, in another order. *)
Theorem getRecommendations_keeps_all :
  forall (clk : JS.Clock) (db : RecommendationReads) (userId : string) (limit : Z)
         (currentUser : UserProfile) (candidates : list UserProfile),
    currentUser_read db = mkResponse (Some currentUser) false ->
    candidates_read db
      (candidateQuery clk currentUser (getUserPreferences (preferences_read db))
         (excludeIds userId (existingMatches_read db) (blocks_read db)) limit)
    = mkResponse (Some candidates) false ->
    JS.length candidates <= limit ->
    Permutation candidates
      (map candidate_of (getRecommendations clk db userId limit)).
Proof.
  intros clk db userId limit currentUser candidates Hu Hc Hlen.
  rewrite (getRecommendations_run clk db userId limit currentUser candidates Hu Hc).
  rewrite slice0_all.
  - eapply perm_trans;
      [|apply Permutation_map, (Array_sort_perm compatibilityScore)].
    unfold scored. rewrite map_map. cbn. rewrite map_id. apply Permutation_refl.
  - unfold JS.length in *.
    rewrite <- (Permutation_length (Array_sort_perm compatibilityScore _)).
    unfold scored. rewrite length_map. exact Hlen.
Qed.

Lemma getRecommendations_keeps_all_witness :
  Permutation [Sample.carol; Sample.bob]
    (map candidate_of
       (getRecommendations Sample.clock_2024 Sample.alice_reads "u-alice" 10)).
Proof.
  apply (getRecommendations_keeps_all Sample.clock_2024 Sample.alice_reads
           "u-alice" 10 Sample.alice [Sample.carol; Sample.bob]).
  - reflexivity.
  - reflexivity.
  - cbn. lia.
Defined.

Lemma sort_insert_ties {A} (key : A -> Z) (s : Z) (x : A) (l : list A) :
  filter (fun a => key a =? s) (sort_insert (fun a b => key b - key a) x l)
  = filter (fun a => key a =? s) (x :: l).
Proof.
  induction l as [|y l IH]; [reflexivity|].
  cbn [sort_insert].
  destruct (key y - key x <=? 0) eqn:E; [reflexivity|].
  apply Z.leb_gt in E.
  cbn [filter] in *. rewrite IH.
  destruct (key x =? s) eqn:Ex; [|reflexivity].
  apply Z.eqb_eq in Ex.
  replace (key y =? s) with false by (symmetry; apply Z.eqb_neq; lia).
  reflexivity.
Qed.

Lemma Array_sort_ties {A} (key : A -> Z) (s : Z) (l : list A) :
  filter (fun a => key a =? s) (Array_sort (fun a b => key b - key a) l)
  = filter (fun a => key a =? s) l.
Proof.
  induction l as [|x l IH]; [reflexivity|].
  cbn [Array_sort fold_right]. fold (Array_sort (fun a b => key b - key a) l).
  rewrite sort_insert_ties. cbn [filter]. rewrite IH. reflexivity.
Qed.

(** Ties keep the order of the database: the returned candidates of one
    score are the first candidates of that score in the order the query
    gave them (most recently active first). *)
Theorem getRecommendations_ties_in_database_order :
  forall (clk : JS.Clock) (db : RecommendationReads) (userId : string) (limit : Z)
         (currentUser : UserProfile) (candidates : list UserProfile) (s : Z),
    currentUser_read db = mkResponse (Some currentUser) false ->
    candidates_read db
      (candidateQuery clk currentUser (getUserPreferences (preferences_read db))
         (excludeIds userId (existingMatches_read db) (blocks_read db)) limit)
    = mkResponse (Some candidates) false ->
    exists rest,
      filter (fun r => compatibilityScore r =? s)
        (scored clk currentUser (getUserPreferences (preferences_read db)) candidates)
      = (filter (fun r => compatibilityScore r =? s)
           (getRecommendations clk db userId limit) ++ rest)%list.
Proof.
  intros clk db userId limit currentUser candidates s Hu Hc.
  rewrite (getRecommendations_run clk db userId limit currentUser candidates Hu Hc).
  rewrite <- (Array_sort_ties compatibilityScore s).
  set (sorted := Array_sort _ _).
  unfold JS.slice0.
  destruct (limit <? 0);
    match goal with
    | |- context [firstn ?n sorted] =>
        exists (filter (fun r => compatibilityScore r =? s) (skipn n sorted));
        rewrite <- filter_app, firstn_skipn; reflexivity
    end.
Qed.

Lemma getRecommendations_ties_in_database_order_witness :
  exists rest,
    filter (fun r => compatibilityScore r =? 83)
      (scored Sample.clock_2024 Sample.alice (Some Sample.alice_preferences)
         [Sample.carol; Sample.bob])
    = (filter (fun r => compatibilityScore r =? 83)
         (getRecommendations Sample.clock_2024 Sample.alice_reads "u-alice" 1)
       ++ rest)%list.
Proof.
  apply (getRecommendations_ties_in_database_order Sample.clock_2024
           Sample.alice_reads "u-alice" 1 Sample.alice
           [Sample.carol; Sample.bob] 83); reflexivity.
Defined.

(* ================================================================== *)
(** ** More on likes and passes *)
(* ================================================================== *)

(** The whole of [likeUser] when every call to the client goes through. *)
Lemma likeUser_reliable_run (userId targetUserId : string) (w : World) :
  failures w = [] ->
  likeUser userId targetUserId w
  = match existing_match userId targetUserId w with
    | Some e =>
        let isMutual := liked_by_other userId e in
        let hit := fun m => Nat.eqb (match_id m) (match_id e) in
        let u := like_update
                   (if String.eqb (user1_id e) userId
                    then user1_liked_field else user2_liked_field)
                   isMutual (JS.getTime (JS.new_Date (clock w))) in
        let w1 := set_matches (map (fun m => if hit m then u m else m) (matches w)) w in
        (mkLikeResult (Some (map u (filter hit (matches w)))) false isMutual,
         if isMutual && negb (is_mutual e)
         then set_chat_rooms
                (chat_rooms w ++ [mkChatRoomRow (next_id w) (match_id e)])
                (set_next_id (S (next_id w)) w1)
         else w1)
    | None =>
        let row := mkMatch (next_id w) userId targetUserId true false false None in
        (mkLikeResult (Some [row]) false false,
         set_matches (matches w ++ [row]) (set_next_id (S (next_id w)) w))
    end.
Proof.
  intros Hok. reliable w Hok.
  unfold existing_match, liked_by_other, likeUser. unfold_client. unfold request.
  cbn.
  destruct (single (filter (pair_filter userId targetUserId) ms)) as [e|]; cbn;
    [|reflexivity].
  destruct ((if String.eqb (user1_id e) userId then user2_liked e else user1_liked e)
            && negb (is_mutual e)); reflexivity.
Qed.

Lemma pair_filter_sym (a b : string) (m : Match) :
  pair_filter a b m = pair_filter b a m.
Proof. unfold pair_filter. apply orb_comm. Qed.

Lemma map_untouched {A} (hit : A -> bool) (u : A -> A) (l : list A) :
  Forall (fun m => hit m = false) l ->
  map (fun m => if hit m then u m else m) l = l.
Proof.
  induction 1 as [|m l Hm Hl IH]; cbn; [reflexivity|].
  rewrite Hm, IH. reflexivity.
Qed.

(** The flow of a mutual match.  On a pair of distinct users without a row
    in [matches], when the calls go through: the like of the first is no
    match and stores a row; the like of the second is a match, sets both
    likes and the mutual flag on that row with the time of the match, and
    opens the one chat room of the match. *)
Theorem like_and_like_back :
  forall (userId targetUserId : string) (w : World),
    failures w = [] ->
    userId <> targetUserId ->
    fresh_keys (matches w) (next_id w) ->
    filter (pair_filter userId targetUserId) (matches w) = [] ->
    let '(first, w1) := likeUser userId targetUserId w in
    let '(second, w2) := likeUser targetUserId userId w1 in
    isMatch first = false
    /\ isMatch second = true
    /\ matches w1
       = (matches w
          ++ [mkMatch (next_id w) userId targetUserId true false false None])%list
    /\ chat_rooms w1 = chat_rooms w
    /\ matches w2
       = (matches w
          ++ [mkMatch (next_id w) userId targetUserId true true true
                (Some (JS.getTime (JS.new_Date (clock w))))])%list
    /\ chat_rooms w2
       = (chat_rooms w ++ [mkChatRoomRow (S (next_id w)) (next_id w)])%list.
Proof.
  intros userId targetUserId w Hok Hne [Hnd Hlt] Hnone.
  rewrite (likeUser_reliable_run userId targetUserId w Hok).
  unfold existing_match at 1. rewrite Hnone. cbn [single]. cbv zeta.
  set (row := mkMatch (next_id w) userId targetUserId true false false None).
  set (w1 := set_matches _ _).
  assert (Hok1 : failures w1 = []) by exact Hok.
  rewrite (likeUser_reliable_run targetUserId userId w1 Hok1).
  assert (Hex : existing_match targetUserId userId w1 = Some row).
  { unfold existing_match. subst w1. cbn [matches set_matches].
    rewrite filter_app.
    erewrite filter_ext; [rewrite Hnone|intros m; apply pair_filter_sym].
    cbn. unfold pair_filter. cbn.
    rewrite !String.eqb_refl. cbn. rewrite orb_true_r. reflexivity. }
  rewrite Hex. cbv zeta.
  assert (Hother : liked_by_other targetUserId row = true).
  { unfold liked_by_other. cbn.
    replace (String.eqb userId targetUserId) with false
      by (symmetry; now apply String.eqb_neq).
    reflexivity. }
  rewrite Hother. cbn [andb negb is_mutual row].
  subst w1. cbn.
  replace (String.eqb userId targetUserId) with false
    by (symmetry; now apply String.eqb_neq).
  rewrite map_app. cbn. rewrite Nat.eqb_refl.
  rewrite map_untouched.
  - repeat split; reflexivity.
  - eapply Forall_impl; [|exact Hlt]. cbn. intros m Hm.
    apply Nat.eqb_neq. lia.
Qed.

(** A like that is repeated opens no chat room: after [likeUser], the same
    call again leaves [chat_rooms] as the first call left it. *)
Theorem likeUser_again_opens_no_room :
  forall (userId targetUserId : string) (w : World),
    failures w = [] ->
    let w1 := snd (likeUser userId targetUserId w) in
    chat_rooms (snd (likeUser userId targetUserId w1)) = chat_rooms w1.
Proof.
  intros userId targetUserId w Hok w1.
  assert (Hok1 : failures w1 = []).
  { subst w1. rewrite (likeUser_reliable_run userId targetUserId w Hok).
    destruct (existing_match userId targetUserId w) as [e|]; cbv zeta;
      [destruct (liked_by_other userId e && negb (is_mutual e))|]; exact Hok. }
  pose proof (likeUser_reliable userId targetUserId w1 Hok1) as Hrun.
  cbv zeta in Hrun.
  destruct (existing_match userId targetUserId w1) as [e1|] eqn:He1;
    [|apply Hrun].
  destruct Hrun as (_ & _ & ->).
  assert (Hsame : liked_by_other userId e1 && negb (is_mutual e1) = false);
    [|now rewrite Hsame].
  (* the row read by the second call is the row written by the first *)
  subst w1. revert He1.
  rewrite (likeUser_reliable_run userId targetUserId w Hok).
  unfold existing_match.
  destruct (single (filter (pair_filter userId targetUserId) (matches w)))
    as [e|] eqn:He; cbv zeta.
  - apply single_Some in He.
    assert (Hmatches :
      forall w', matches w'
                 = map (fun m => if Nat.eqb (match_id m) (match_id e)
                                 then like_update
                                        (if String.eqb (user1_id e) userId
                                         then user1_liked_field else user2_liked_field)
                                        (liked_by_other userId e)
                                        (JS.getTime (JS.new_Date (clock w))) m
                                 else m) (matches w) ->
        single (filter (pair_filter userId targetUserId) (matches w')) = Some e1 ->
        liked_by_other userId e1 && negb (is_mutual e1) = false).
    { intros w' -> Hread.
      assert (Hfilter : forall (f : Match -> Match) l,
                 (forall m, pair_filter userId targetUserId (f m)
                            = pair_filter userId targetUserId m) ->
                 filter (pair_filter userId targetUserId) (map f l)
                 = map f (filter (pair_filter userId targetUserId) l)).
      { intros f l Hf. induction l as [|m l IH]; cbn; [reflexivity|].
        rewrite Hf. destruct (pair_filter userId targetUserId m); cbn;
          rewrite IH; reflexivity. }
      rewrite Hfilter in Hread.
      - rewrite He in Hread. cbn in Hread. rewrite Nat.eqb_refl in Hread.
        inversion Hread; subst e1. clear Hread.
        unfold liked_by_other, like_update.
        destruct (String.eqb (user1_id e) userId) eqn:E; cbn; rewrite E;
          match goal with |- ?b && negb ?b = false => destruct b; reflexivity end.
      - intros m. destruct (Nat.eqb (match_id m) (match_id e)); reflexivity. }
    destruct (liked_by_other userId e && negb (is_mutual e));
      apply Hmatches; reflexivity.
  - cbn [snd matches set_matches set_next_id]. rewrite filter_app. cbn [filter].
    assert (Hrow : forall i a b c d,
               pair_filter userId targetUserId
                 (mkMatch i userId targetUserId a b c d) = true).
    { intros. unfold pair_filter. cbn [user1_id user2_id].
      rewrite !String.eqb_refl. reflexivity. }
    rewrite Hrow.
    destruct (filter (pair_filter userId targetUserId) (matches w))
      as [|m1 [|m2 l]]; cbn; intros H; try discriminate.
    inversion H; subst e1. unfold liked_by_other.
    cbn [user1_id user2_liked user1_liked is_mutual].
    rewrite String.eqb_refl. reflexivity.
Qed.

Lemma like_and_like_back_witness :
  let '(first, w1) := likeUser "u-alice" "u-bob" Sample.quiet_world in
  let '(second, w2) := likeUser "u-bob" "u-alice" w1 in
  isMatch first = false
  /\ isMatch second = true
  /\ matches w1
     = (matches Sample.quiet_world
        ++ [mkMatch (next_id Sample.quiet_world) "u-alice" "u-bob"
              true false false None])%list
  /\ chat_rooms w1 = chat_rooms Sample.quiet_world
  /\ matches w2
     = (matches Sample.quiet_world
        ++ [mkMatch (next_id Sample.quiet_world) "u-alice" "u-bob" true true true
              (Some (JS.getTime (JS.new_Date (clock Sample.quiet_world))))])%list
  /\ chat_rooms w2
     = (chat_rooms Sample.quiet_world
        ++ [mkChatRoomRow (S (next_id Sample.quiet_world))
              (next_id Sample.quiet_world)])%list.
Proof.
  apply (like_and_like_back "u-alice" "u-bob" Sample.quiet_world).
  - reflexivity.
  - discriminate.
  - split; constructor.
  - reflexivity.
Defined.

Lemma likeUser_again_opens_no_room_witness :
  chat_rooms
    (snd (likeUser "u-alice" "u-bob"
            (snd (likeUser "u-alice" "u-bob" Sample.bob_likes_alice))))
  = chat_rooms (snd (likeUser "u-alice" "u-bob" Sample.bob_likes_alice)).
Proof.
  apply (likeUser_again_opens_no_room "u-alice" "u-bob" Sample.bob_likes_alice).
  reflexivity.
Defined.

Lemma participants_update (hit : Match -> bool) (f : LikedField) (b : bool) (now : Z)
    (l : list Match) :
  map participants (map (fun m => if hit m then like_update f b now m else m) l)
  = map participants l.
Proof.
  rewrite map_map. apply map_ext. intros m. destruct (hit m); reflexivity.
Qed.

(** [likeUser] and [passUser] remove no row of [matches] and change the
    key and the participants of none; they add at most one row, on the
    pair of the call, whatever the outcome of their calls to the client. *)
Theorem likeUser_passUser_keep_rows :
  forall (userId targetUserId : string) (w : World),
    let added := [(next_id w, userId, targetUserId)] in
    let liked := snd (likeUser userId targetUserId w) in
    let passed := snd (passUser userId targetUserId w) in
    (map participants (matches liked) = map participants (matches w)
     \/ map participants (matches liked)
        = (map participants (matches w) ++ added)%list)
    /\ (map participants (matches passed) = map participants (matches w)
        \/ map participants (matches passed)
           = (map participants (matches w) ++ added)%list).
Proof.
  intros userId targetUserId w added liked passed. subst added liked passed.
  split.
  - unfold likeUser. unfold_client.
    step_request; rewrite ?Hm;
      [destruct (single (filter (pair_filter userId targetUserId) (matches w)))
         as [e|]|];
      repeat first
        [ step_request
        | match goal with
          | |- context [if ?b && negb ?c then _ else _] =>
              destruct (b && negb c); cbn
          end ];
      rewrite ?Hm2, ?Hm1, ?Hm0, ?Hm, ?Hi2, ?Hi1, ?Hi0, ?Hi;
      rewrite ?participants_update, ?map_app; auto.
  - unfold passUser. unfold_client.
    step_request; rewrite ?Hm, ?Hi, ?map_app; auto.
Qed.

(** [likeUser] does not look at the error of its update.  When the read
    goes through, the update fails and the insert goes through, on a row
    that the other side has liked and that is not mutual: the answer
    carries the error and says it is a match, the row stays as it was, not
    mutual, and the chat room of the match is opened all the same. *)
Theorem likeUser_failed_update_opens_room :
  forall (userId targetUserId : string) (w : World) (e : Match),
    failures w = [false; true] ->
    existing_match userId targetUserId w = Some e ->
    liked_by_other userId e = true ->
    is_mutual e = false ->
    let '(r, w') := likeUser userId targetUserId w in
    like_error r = true
    /\ like_data r = None
    /\ isMatch r = true
    /\ matches w' = matches w
    /\ chat_rooms w'
       = (chat_rooms w ++ [mkChatRoomRow (next_id w) (match_id e)])%list.
Proof.
  intros userId targetUserId w e Hf He Hliked Hmutual.
  destruct w as [ms cr rs sa ps ns nid fs clk]. cbn [failures] in Hf. subst fs.
  unfold existing_match, liked_by_other in *.
  unfold likeUser. unfold_client. unfold request. cbn in *.
  rewrite He. cbn. rewrite Hliked, Hmutual. cbn. auto.
Qed.

Lemma likeUser_failed_update_opens_room_witness :
  let '(r, w') := likeUser "u-alice" "u-bob" Scenario.bob_likes_alice_update_fails in
  like_error r = true
  /\ like_data r = None
  /\ isMatch r = true
  /\ matches w' = matches Scenario.bob_likes_alice_update_fails
  /\ chat_rooms w'
     = (chat_rooms Scenario.bob_likes_alice_update_fails
        ++ [mkChatRoomRow (next_id Scenario.bob_likes_alice_update_fails)
              (match_id (mkMatch 0 "u-bob" "u-alice" true false false None))])%list.
Proof.
  apply (likeUser_failed_update_opens_room "u-alice" "u-bob"
           Scenario.bob_likes_alice_update_fails
           (mkMatch 0 "u-bob" "u-alice" true false false None));
    reflexivity.
Defined.

(* ================================================================== *)
(** ** More on safety actions and reports *)
(* ================================================================== *)

(** When the action cannot be recorded, [applySafetyAction] answers
    [false] and does nothing else: no account is changed and nobody is
    notified. *)
Theorem applySafetyAction_not_recorded :
  forall (userId : string) (actionData : ActionData) (w : World) (rest : list bool),
    failures w = true :: rest ->
    applySafetyAction userId actionData w = (false, set_failures rest w).
Proof.
  intros userId actionData w rest Hf.
  unfold applySafetyAction. unfold_client. unfold request. rewrite Hf.
  reflexivity.
Qed.

Lemma applySafetyAction_not_recorded_witness :
  applySafetyAction "u-bob" Scenario.ban_for_a_day Scenario.client_down
  = (false, set_failures [] Scenario.client_down).
Proof.
  apply (applySafetyAction_not_recorded "u-bob" Scenario.ban_for_a_day
           Scenario.client_down []).
  reflexivity.
Defined.

(** Whatever the outcome of its calls, [applySafetyAction] changes the
    accounts of the named user only: the other rows of [profiles] stay as
    they were, no row is added or removed, and no row changes its id or
    its role. *)
Theorem applySafetyAction_other_accounts :
  forall (userId : string) (actionData : ActionData) (w : World),
    let w' := snd (applySafetyAction userId actionData w) in
    accounts_but userId w' = accounts_but userId w
    /\ map (fun a => (account_id a, role a)) (profiles w')
       = map (fun a => (account_id a, role a)) (profiles w).
Proof.
  intros userId actionData w. cbv zeta. unfold accounts_but.
  unfold applySafetyAction, createNotification. unfold_client.
  step_request; [|rewrite Hp; auto].
  destruct (updateData actionData (JS.Date_now (clock w0))
              (JS.getTime (JS.new_Date (clock w0)))) as [u|] eqn:Hu; cbn.
  - pose proof (profiles_update_others userId u (profiles w)
                  (fun a => updateData_keeps_identity actionData _ _ u a Hu))
      as (H1 & H2 & _).
    repeat step_request; rewrite ?Hp1, ?Hp0, ?Hp; cbn; rewrite ?Hp; auto.
  - repeat step_request; rewrite ?Hp1, ?Hp0, ?Hp; auto.
Qed.

Lemma applySafetyAction_reliable_notifications (userId : string)
    (actionData : ActionData) (w : World) :
  failures w = [] ->
  let w' := snd (applySafetyAction userId actionData w) in
  map notif_user_id (notifications w')
  = (map notif_user_id (notifications w) ++ [userId])%list
  /\ failures w' = []
  /\ fst (applySafetyAction userId actionData w) = true.
Proof.
  intros Hok. reliable w Hok.
  unfold applySafetyAction, createNotification. unfold_client. unfold request.
  cbn. destruct (updateData actionData (JS.Date_now clk)
                  (JS.getTime (JS.new_Date clk))); cbn;
    rewrite map_app; auto.
Qed.

(** What a recorded action does to the account, when the calls go
    through: a temporary ban suspends it until [duration] hours from now,
    24 when no duration or a duration of 0 is given; a permanent ban bans
    it, stamped now; a profile review puts it under review; a warning and
    a content removal leave every account as it was.  In each case the
    action is recorded once and the user is notified once.  The end of a
    temporary ban has to be a time value: [toISOString()] throws on any
    other. *)
Theorem applySafetyAction_account :
  forall (userId : string) (actionData : ActionData) (w : World),
    failures w = [] ->
    (ad_action_type actionData = temporary_ban ->
     time_value (JS.Date_now (clock w)
                 + ban_hours (ad_duration actionData) * 60 * 60 * 1000) = true) ->
    let w' := snd (applySafetyAction userId actionData w) in
    let now := JS.Date_now (clock w) in
    let today := JS.getTime (JS.new_Date (clock w)) in
    map action_type (safety_actions w')
    = (map action_type (safety_actions w) ++ [ad_action_type actionData])%list
    /\ map notif_user_id (notifications w')
       = (map notif_user_id (notifications w) ++ [userId])%list
    /\ List.length (accounts_of userId w') = List.length (accounts_of userId w)
    /\ match ad_action_type actionData with
       | temporary_ban =>
           Forall (fun a =>
                     account_status a = "suspended"
                     /\ suspension_until a
                        = Some (now + ban_hours (ad_duration actionData) * 60 * 60 * 1000))
                  (accounts_of userId w')
       | permanent_ban =>
           Forall (fun a => account_status a = "banned" /\ banned_at a = Some today)
                  (accounts_of userId w')
       | profile_review =>
           Forall (fun a => account_status a = "under_review")
                  (accounts_of userId w')
       | warning | content_removal => profiles w' = profiles w
       end.
Proof.
  intros userId actionData w Hok _. cbv zeta.
  destruct (applySafetyAction_reliable userId actionData w Hok)
    as (Hactions & Hprofiles & _ & _).
  destruct (applySafetyAction_reliable_notifications userId actionData w Hok)
    as (Hnotes & _ & _).
  cbv zeta in *.
  split; [rewrite Hactions, map_app; reflexivity|].
  split; [exact Hnotes|].
  unfold accounts_of. rewrite Hprofiles.
  destruct (updateData actionData (JS.Date_now (clock w))
              (JS.getTime (JS.new_Date (clock w)))) as [u|] eqn:Hu.
  - pose proof (profiles_update_others userId u (profiles w)
                  (fun a => updateData_keeps_identity actionData _ _ u a Hu))
      as (_ & _ & Hmine).
    cbv zeta in Hmine. rewrite Hmine. rewrite length_map.
    split; [reflexivity|].
    unfold updateData, ban_hours in *.
    destruct (ad_action_type actionData); inversion Hu; subst u;
      apply Forall_map, Forall_forall; intros a _; cbn; auto.
  - split; [reflexivity|].
    unfold updateData in Hu.
    destruct (ad_action_type actionData); try discriminate; reflexivity.
Qed.

Lemma applySafetyAction_account_witness :
  Forall (fun a =>
            account_status a = "suspended"
            /\ suspension_until a = Some (1717200000000 + 24 * 60 * 60 * 1000))
         (accounts_of "u-bob"
            (snd (applySafetyAction "u-bob" Scenario.ban_for_a_day
                    Sample.quiet_world))).
Proof.
  assert (Hok : failures Sample.quiet_world = []) by reflexivity.
  assert (Hend : ad_action_type Scenario.ban_for_a_day = temporary_ban ->
                 time_value
                   (JS.Date_now (clock Sample.quiet_world)
                    + ban_hours (ad_duration Scenario.ban_for_a_day) * 60 * 60 * 1000)
                 = true) by reflexivity.
  pose proof (applySafetyAction_account "u-bob" Scenario.ban_for_a_day
                Sample.quiet_world Hok Hend) as H.
  apply H.
Defined.

(** When the report cannot be stored, [createReport] answers [null] and
    does nothing else: no admin is notified and no escalation runs. *)
Theorem createReport_not_stored :
  forall (reportData : NewReport) (w : World) (rest : list bool),
    failures w = true :: rest ->
    createReport reportData w = (None, set_failures rest w).
Proof.
  intros reportData w rest Hf.
  unfold createReport, insert_report. unfold_client. unfold request. rewrite Hf.
  reflexivity.
Qed.

Lemma createReport_not_stored_witness :
  createReport Sample.harassment_by_bob Scenario.client_down
  = (None, set_failures [] Scenario.client_down).
Proof.
  apply (createReport_not_stored Sample.harassment_by_bob Scenario.client_down []).
  reflexivity.
Defined.

(** Below three recent reports of the type the escalation does nothing,
    whatever the type and whatever the outcome of its query: no action is
    recorded, no account is changed and nobody is notified. *)
Theorem checkForAutomaticActions_below_thresholds :
  forall (userId reportType : string) (w : World),
    JS.length (recent_reports userId reportType w) < 3 ->
    let w' := snd (checkForAutomaticActions userId reportType w) in
    safety_actions w' = safety_actions w
    /\ profiles w' = profiles w
    /\ notifications w' = notifications w
    /\ reports w' = reports w.
Proof.
  intros userId reportType w Hcount. cbv zeta.
  unfold recent_reports in Hcount.
  unfold checkForAutomaticActions. unfold_client.
  step_request.
  - rewrite Hr, ?Hk.
    set (n := JS.length _) in *.
    replace (5 <=? n) with false by (symmetry; apply Z.leb_gt; lia).
    replace (3 <=? n) with false by (symmetry; apply Z.leb_gt; lia).
    replace (10 <=? n) with false by (symmetry; apply Z.leb_gt; lia).
    cbn. auto.
  - auto.
Qed.

Lemma checkForAutomaticActions_below_thresholds_witness :
  safety_actions (snd (checkForAutomaticActions "u-bob" "spam" Sample.quiet_world))
  = safety_actions Sample.quiet_world.
Proof.
  apply (checkForAutomaticActions_below_thresholds "u-bob" "spam" Sample.quiet_world).
  cbn. lia.
Defined.

(** What the escalation does to the account, when the calls go through:
    five recent harassment reports suspend the user for 72 hours; three
    recent reports of inappropriate content put the profile under review;
    ten recent reports of any other type ban the user. *)
Theorem checkForAutomaticActions_account :
  forall (userId reportType : string) (w : World),
    failures w = [] ->
    let n := JS.length (recent_reports userId reportType w) in
    let w' := snd (checkForAutomaticActions userId reportType w) in
    let now := JS.Date_now (clock w) in
    let today := JS.getTime (JS.new_Date (clock w)) in
    (reportType = "harassment" -> 5 <= n ->
     Forall (fun a =>
               account_status a = "suspended"
               /\ suspension_until a = Some (now + 72 * 60 * 60 * 1000))
            (accounts_of userId w'))
    /\ (reportType = "inappropriate_content" -> 3 <= n ->
        Forall (fun a => account_status a = "under_review") (accounts_of userId w'))
    /\ (reportType <> "harassment" -> reportType <> "inappropriate_content" ->
        10 <= n ->
        Forall (fun a => account_status a = "banned" /\ banned_at a = Some today)
               (accounts_of userId w')).
Proof.
  intros userId reportType w Hok. cbv zeta.
  rewrite (checkForAutomaticActions_reliable userId reportType w Hok). cbv zeta.
  set (n := JS.length (recent_reports userId reportType w)).
  assert (Hmine : forall ad u,
             updateData ad (JS.Date_now (clock w))
               (JS.getTime (JS.new_Date (clock w))) = Some u ->
             accounts_of userId (snd (applySafetyAction userId ad w))
             = map u (accounts_of userId w)).
  { intros ad u Hu.
    destruct (applySafetyAction_reliable userId ad w Hok) as (_ & Hp & _).
    cbv zeta in Hp. unfold accounts_of. rewrite Hp, Hu.
    apply (profiles_update_others userId u (profiles w)
             (fun a => updateData_keeps_identity ad _ _ u a Hu)). }
  split; [|split].
  - intros -> Hn.
    replace (5 <=? n) with true by (symmetry; apply Z.leb_le; lia).
    cbn [andb String.eqb Ascii.eqb Bool.eqb].
    erewrite Hmine; [|reflexivity].
    apply Forall_map, Forall_forall. intros a _. cbn. auto.
  - intros -> Hn.
    replace (3 <=? n) with true by (symmetry; apply Z.leb_le; lia).
    cbn [andb String.eqb Ascii.eqb Bool.eqb]. rewrite andb_false_r.
    erewrite Hmine; [|reflexivity].
    apply Forall_map, Forall_forall. intros a _. cbn. auto.
  - intros Hh Hi Hn.
    apply String.eqb_neq in Hh, Hi. rewrite Hh, Hi, !andb_false_r.
    replace (10 <=? n) with true by (symmetry; apply Z.leb_le; lia).
    erewrite Hmine; [|reflexivity].
    apply Forall_map, Forall_forall. intros a _. cbn. auto.
Qed.

Lemma checkForAutomaticActions_account_witness :
  Forall (fun a =>
            account_status a = "suspended"
            /\ suspension_until a = Some (1717200000000 + 72 * 60 * 60 * 1000))
         (accounts_of "u-bob"
            (snd (checkForAutomaticActions "u-bob" "harassment"
                    Sample.bob_reported_nine_times))).
Proof.
  assert (Hok : failures Sample.bob_reported_nine_times = []) by reflexivity.
  apply (checkForAutomaticActions_account "u-bob" "harassment"
           Sample.bob_reported_nine_times Hok).
  - reflexivity.
  - vm_compute. discriminate.
Defined.

(** Who is notified of a new report, when the calls go through: every
    administrator, once each, and then the reported user, once, if the
    count reaches a threshold, and nobody else. *)
Theorem createReport_notifies :
  forall (reportData : NewReport) (w : World),
    failures w = [] ->
    let userId := new_reported_user_id reportData in
    let reportType := new_report_type reportData in
    let w' := snd (createReport reportData w) in
    map notif_user_id (notifications w')
    = (map notif_user_id (notifications w)
       ++ map account_id (admins_of w)
       ++ (if threshold_reached reportType
                (JS.length (recent_reports userId reportType w'))
           then [userId] else []))%list.
Proof.
  intros reportData w Hok userId reportType w'.
  assert (Hrun : exists w1,
             w' = snd (checkForAutomaticActions userId reportType w1)
             /\ failures w1 = []
             /\ map notif_user_id (notifications w1)
                = (map notif_user_id (notifications w)
                   ++ map account_id (admins_of w))%list).
  { subst w' userId reportType. unfold admins_of. revert Hok.
    destruct w as [ms cr rs sa ps ns nid fs clk]. cbn [failures]. intros ->.
    unfold createReport, notifyAdminsOfNewReport. unfold_client. unfold request.
    cbn -[checkForAutomaticActions].
    destruct (filter (fun a => String.eqb (role a) "admin") ps) as [|admin others];
      cbn -[checkForAutomaticActions];
      match goal with
      | |- context [checkForAutomaticActions ?u ?t ?w1] =>
          destruct (checkForAutomaticActions u t w1) as [u2 w2] eqn:E;
          exists w1;
          cbn [fst snd]; split; [rewrite E; reflexivity|]
      end; cbn; split; try reflexivity.
    - rewrite app_nil_r. reflexivity.
    - rewrite map_app. cbn. rewrite map_map. reflexivity. }
  destruct Hrun as (w1 & Hw' & Hok1 & Hnotes).
  pose proof (checkForAutomaticActions_reports userId reportType w1) as Hframe.
  assert (Hclock : clock w' = clock w1 /\ reports w' = reports w1).
  { rewrite Hw'. split; [|exact Hframe].
    rewrite (checkForAutomaticActions_reliable userId reportType w1 Hok1).
    cbv zeta.
    repeat match goal with
           | |- context [if ?b then _ else _] => destruct b
           end; try reflexivity;
      match goal with
      | |- context [applySafetyAction userId ?ad w1] =>
          destruct (applySafetyAction_reliable userId ad w1 Hok1) as (_ & _ & _ & Hc);
          exact Hc
      end. }
  destruct Hclock as [Hclock Hreports].
  assert (Hcount : recent_reports userId reportType w'
                   = recent_reports userId reportType w1).
  { unfold recent_reports. rewrite Hclock, Hreports. reflexivity. }
  rewrite Hcount, Hw'.
  rewrite (checkForAutomaticActions_reliable userId reportType w1 Hok1).
  cbv zeta. unfold threshold_reached.
  set (n := JS.length (recent_reports userId reportType w1)).
  destruct ((5 <=? n) && String.eqb reportType "harassment");
    [|destruct ((3 <=? n) && String.eqb reportType "inappropriate_content");
      [|destruct (10 <=? n)]];
    cbn [orb];
    try (match goal with
         | |- context [applySafetyAction userId ?ad w1] =>
             destruct (applySafetyAction_reliable_notifications userId ad w1 Hok1)
               as (Hn & _);
             cbv zeta in Hn; rewrite Hn, Hnotes, <- app_assoc; reflexivity
         end).
  rewrite Hnotes, app_nil_r. reflexivity.
Qed.

Lemma createReport_notifies_witness :
  map notif_user_id
    (notifications
       (snd (createReport Sample.harassment_by_bob Sample.bob_reported_nine_times)))
  = ["u-admin"; "u-bob"].
Proof.
  assert (Hok : failures Sample.bob_reported_nine_times = []) by reflexivity.
  pose proof (createReport_notifies Sample.harassment_by_bob
                Sample.bob_reported_nine_times Hok) as H.
  cbv zeta in H. rewrite H. vm_compute. reflexivity.
Defined.

(* ================================================================== *)
(** ** More on the route of the reports *)
(* ================================================================== *)

(** The row that [createReport] stores, if it stores one. *)
Lemma createReport_row (reportData : NewReport) (w : World) :
  (fst (createReport reportData w) = None
   /\ reports (snd (createReport reportData w)) = reports w)
  \/ exists i now,
       let row :=
         mkReportData i (new_reporter_id reportData)
           (new_reported_user_id reportData) (new_reported_content_id reportData)
           (new_report_type reportData) (new_category reportData)
           (new_description reportData) pending
           (calculateReportPriority (new_report_type reportData)) now now in
       fst (createReport reportData w) = Some row
       /\ reports (snd (createReport reportData w)) = (reports w ++ [row])%list.
Proof.
  unfold createReport, bind, new_Date_time.
  match goal with
  | |- context [insert_report ?row w] =>
      destruct (insert_report_run row w) as [[Hnone Hsame]|[Hsome Happ]];
      destruct (insert_report row w) as [inserted w1]
  end; cbn [fst snd] in *; subst inserted.
  - left. split; [reflexivity|exact Hsame].
  - right. eexists _, _. cbv zeta.
    match goal with
    | |- context [notifyAdminsOfNewReport ?d w1] =>
        pose proof (notifyAdminsOfNewReport_reports d w1) as H1;
        destruct (notifyAdminsOfNewReport d w1) as [u1 w2]
    end.
    match goal with
    | |- context [checkForAutomaticActions ?a ?b w2] =>
        pose proof (checkForAutomaticActions_reports a b w2) as H2;
        destruct (checkForAutomaticActions a b w2) as [u2 w3]
    end.
    cbn [fst snd ret] in *.
    split; [reflexivity|congruence].
Qed.

Lemma select_single_reports {A} (table : World -> list A) (p : A -> bool) :
  frames reports (select_single table p).
Proof.
  unfold select_single. apply frames_bind; [apply select_reports|intros rows].
  apply frames_ret.
Qed.

(** What [POST] answers and stores, whatever the outcome of its calls.
    Either the status is 200, the body is a report of the reporter, the
    reported user and the type of the request, pending, between two
    different users, and [reports] has that one report more; or the status
    is 400, 409 or 500, the body is an error message, and [reports] is as
    it was. *)
Theorem POST_stores_exactly_on_200 :
  forall (reportData : ReportRequest) (w : World),
    let '(response, w') := POST reportData w in
    (http_status response = 200
     /\ exists r,
          http_body response = report_body r
          /\ reports w' = (reports w ++ [r])%list
          /\ Some (reporter_id r) = req_reporter_id reportData
          /\ Some (reported_user_id r) = req_reported_user_id reportData
          /\ Some (report_type r) = req_report_type reportData
          /\ reported_content_id r = req_reported_content_id reportData
          /\ reporter_id r <> reported_user_id r
          /\ status r = pending)
    \/ ((http_status response = 400 \/ http_status response = 409
         \/ http_status response = 500)
        /\ (exists message, http_body response = error_body message)
        /\ reports w' = reports w).
Proof.
  intros reportData w. unfold POST.
  destruct (req_reporter_id reportData) as [reporter|];
    [|right; cbn; eauto 6].
  destruct (req_reported_user_id reportData) as [reported|];
    [|right; cbn; eauto 6].
  destruct (req_report_type reportData) as [type|];
    [|right; cbn; eauto 6].
  destruct (String.eqb reporter "" || String.eqb reported "" || String.eqb type "");
    [right; cbn; eauto 6|].
  destruct (String.eqb_spec reporter reported) as [Heq|Hne];
    [right; cbn; eauto 6|].
  unfold bind.
  match goal with
  | |- context [select_single reports ?p w] =>
      pose proof (select_single_reports reports p w) as Hread;
      destruct (select_single reports p w) as [existingReport w0]
  end.
  cbn [snd] in Hread.
  destruct existingReport as [existing|]; [right; cbn; eauto 6|].
  match goal with
  | |- context [createReport ?d w0] =>
      destruct (createReport_row d w0) as [[Hnone Hsame]|(i & now & Hsome & Happ)];
      destruct (createReport d w0) as [report w1]
  end; cbn [fst snd] in *; subst report; cbn [ret].
  - right. cbn. rewrite Hsame, Hread. eauto 6.
  - left. cbn [http_status http_body]. split; [reflexivity|].
    eexists. split; [reflexivity|]. rewrite Happ, Hread.
    cbn. repeat split; auto.
Qed.

(** A second report of the same content by the same reporter against the
    same user is refused with status 409, whatever its type, and nothing
    is stored or changed (when the calls go through). *)
Theorem POST_duplicate_content_report :
  forall (reportData : ReportRequest) (w : World)
         (reporter reported type content : string) (earlier : ReportData),
    failures w = [] ->
    req_reporter_id reportData = Some reporter ->
    req_reported_user_id reportData = Some reported ->
    req_report_type reportData = Some type ->
    req_reported_content_id reportData = Some content ->
    reporter <> "" -> reported <> "" -> type <> "" -> content <> "" ->
    reporter <> reported ->
    filter (fun r =>
              String.eqb (reporter_id r) reporter
              && String.eqb (reported_user_id r) reported
              && strict_content_eqb (reported_content_id r) content)
           (reports w) = [earlier] ->
    let '(response, w') := POST reportData w in
    http_status response = 409 /\ w' = w.
Proof.
  intros reportData w reporter reported type content earlier
         Hok Hr Hu Ht Hc Hr0 Hu0 Ht0 Hc0 Hne Hone.
  unfold POST. rewrite Hr, Hu, Ht, Hc.
  apply String.eqb_neq in Hr0, Hu0, Ht0, Hne. rewrite Hr0, Hu0, Ht0, Hne.
  cbn [orb].
  destruct w as [ms cr rs sa ps ns nid fs clk]. cbn [failures] in Hok. subst fs.
  unfold_client. unfold request. cbn -[filter] in *.
  erewrite filter_ext; [rewrite Hone|].
  - cbn. auto.
  - intros r. unfold same_report, strict_content_eqb. cbn [JS.truthy].
    apply String.eqb_neq in Hc0. rewrite Hc0. cbn [negb andb].
    destruct (reported_content_id r); reflexivity.
Qed.

Lemma POST_duplicate_content_report_witness :
  let '(response, w') := POST Scenario.same_message_again Scenario.message_reported in
  http_status response = 409 /\ w' = Scenario.message_reported.
Proof.
  apply (POST_duplicate_content_report Scenario.same_message_again
           Scenario.message_reported "u-alice" "u-bob" "harassment" "msg-7"
           (mkReportData 0 "u-alice" "u-bob" (Some "msg-7") "spam" (Some "message")
              (Some "advertising") pending medium 1717100000000 1717100000000));
    try reflexivity; discriminate.
Defined.



(* ================================================================== *)
(** ** Blocks *)
(* ================================================================== *)

(** Alice blocks Bob, who blocks her already: both rows become mutual, and
    the match and the chat room of the two are deactivated. *)
Example blockUser_back :
  let '(ok, s) := Blocking.blockUser "u-alice" "u-bob" "rude" Scenario.bob_blocks_alice in
  ok = true
  /\ map (fun x => (Blocking.blocker_id x, Blocking.blocked_user_id x, Blocking.is_mutual x))
         (Blocking.blocks s)
     = [("u-bob", "u-alice", true); ("u-alice", "u-bob", true)]
  /\ map Blocking.match_is_active (Blocking.matches s) = [false]
  /\ map Blocking.room_is_active (Blocking.chat_rooms s) = [false].
Proof. vm_compute. auto. Qed.

Ltac unfold_blocking :=
  unfold Blocking.select_single, Blocking.select, Blocking.insert_block,
    Blocking.update_is_mutual, Blocking.delete_blocks,
    Blocking.deactivateUserInteractions, Blocking.fresh_id,
    Blocking.new_Date_time, Blocking.get, Blocking.modify, Blocking.bind,
    Blocking.ret, Blocking.request.

(** [blockUser] when every call to the client goes through. *)
Lemma blockUser_reliable (blockerId blockedUserId reason : string) (s : Blocking.State) :
  Blocking.failures s = [] ->
  let r := Blocking.blockUser blockerId blockedUserId reason s in
  match single (filter (Blocking.blocks_from_to blockerId blockedUserId)
                  (Blocking.blocks s)) with
  | Some _ => r = (false, s)
  | None =>
      let reverse :=
        single (filter (Blocking.blocks_from_to blockedUserId blockerId)
                  (Blocking.blocks s)) in
      let row :=
        Blocking.mkBlockData (Blocking.next_id s) blockerId blockedUserId reason
          (JS.getTime (JS.new_Date (Blocking.clock s)))
          (match reverse with Some _ => true | None => false end) in
      fst r = true
      /\ Blocking.blocks (snd r)
         = match reverse with
           | Some reverseBlock =>
               Blocking.mark (Blocking.id reverseBlock) true
                 (Blocking.blocks s ++ [row])
           | None => (Blocking.blocks s ++ [row])%list
           end
      /\ Blocking.matches (snd r)
         = Blocking.deactivate blockerId blockedUserId (Blocking.matches s)
      /\ Blocking.next_id (snd r) = S (Blocking.next_id s)
      /\ Blocking.failures (snd r) = []
  end.
Proof.
  intros Hok. destruct s as [bs ms cr nid fs clk]. cbn in Hok. subst fs.
  unfold Blocking.blockUser. unfold_blocking. cbn.
  destruct (single (filter (Blocking.blocks_from_to blockerId blockedUserId) bs));
    [reflexivity|].
  cbn.
  destruct (single (filter (Blocking.blocks_from_to blockedUserId blockerId) bs));
    cbn;
    match goal with
    | |- context [filter ?p cr] => destruct (filter p cr); cbn; auto
    end.
Qed.

(** [unblockUser] when every call to the client goes through. *)
Lemma unblockUser_reliable (blockerId blockedUserId : string) (s : Blocking.State) :
  Blocking.failures s = [] ->
  let r := Blocking.unblockUser blockerId blockedUserId s in
  let kept :=
    filter (fun x => negb (Blocking.blocks_from_to blockerId blockedUserId x))
      (Blocking.blocks s) in
  fst r = true
  /\ Blocking.blocks (snd r)
     = match single (filter (Blocking.blocks_from_to blockedUserId blockerId) kept) with
       | Some reverseBlock => Blocking.mark (Blocking.id reverseBlock) false kept
       | None => kept
       end
  /\ Blocking.matches (snd r) = Blocking.matches s
  /\ Blocking.chat_rooms (snd r) = Blocking.chat_rooms s
  /\ Blocking.next_id (snd r) = Blocking.next_id s
  /\ Blocking.failures (snd r) = []
  /\ Blocking.clock (snd r) = Blocking.clock s.
Proof.
  intros Hok. destruct s as [bs ms cr nid fs clk]. cbn in Hok. subst fs.
  unfold Blocking.unblockUser. unfold_blocking. cbn.
  destruct (single _); cbn; auto 10.
Qed.

(** *** The table of blocks as a list *)

Lemma from_to_with_is_mutual (a b : string) (v : bool) (x : Blocking.BlockData) :
  Blocking.blocks_from_to a b (Blocking.with_is_mutual v x)
  = Blocking.blocks_from_to a b x.
Proof. reflexivity. Qed.

Lemma has_block_app (a b : string) (l l' : list Blocking.BlockData) :
  Blocking.has_block a b (l ++ l')
  = Blocking.has_block a b l || Blocking.has_block a b l'.
Proof. apply existsb_app. Qed.

Lemma has_block_mark (a b : string) (i : nat) (v : bool) (bs : list Blocking.BlockData) :
  Blocking.has_block a b (Blocking.mark i v bs) = Blocking.has_block a b bs.
Proof.
  unfold Blocking.has_block, Blocking.mark.
  induction bs as [|x bs IH]; [reflexivity|]. cbn [map existsb]. rewrite IH.
  destruct (Nat.eqb (Blocking.id x) i); reflexivity.
Qed.

Lemma has_block_In (a b : string) (bs : list Blocking.BlockData) :
  Blocking.has_block a b bs = true
  <-> exists x, In x bs /\ Blocking.blocker_id x = a /\ Blocking.blocked_user_id x = b.
Proof.
  unfold Blocking.has_block. rewrite existsb_exists. unfold Blocking.blocks_from_to.
  split; intros [x [Hin H]]; exists x; split; auto.
  - apply andb_true_iff in H. destruct H as [H1 H2].
    apply String.eqb_eq in H1, H2. auto.
  - destruct H as [-> ->]. rewrite !String.eqb_refl. reflexivity.
Qed.

Lemma has_block_filter (a b : string) (bs : list Blocking.BlockData) :
  Blocking.has_block a b bs = false
  <-> filter (Blocking.blocks_from_to a b) bs = [].
Proof.
  unfold Blocking.has_block. induction bs as [|x bs IH]; cbn; [tauto|].
  destruct (Blocking.blocks_from_to a b x); cbn; [split; discriminate|exact IH].
Qed.

Lemma has_block_kept (a b p q : string) (bs : list Blocking.BlockData) :
  Blocking.has_block p q
    (filter (fun x => negb (Blocking.blocks_from_to a b x)) bs)
  = Blocking.has_block p q bs && negb (String.eqb p a && String.eqb q b).
Proof.
  unfold Blocking.has_block. induction bs as [|x bs IH]; [reflexivity|].
  cbn [filter existsb].
  destruct (Blocking.blocks_from_to a b x) eqn:Eab; cbn [negb existsb]; rewrite IH.
  - unfold Blocking.blocks_from_to in *.
    apply andb_true_iff in Eab. destruct Eab as [E1 E2].
    apply String.eqb_eq in E1, E2. rewrite E1, E2.
    rewrite (String.eqb_sym a p), (String.eqb_sym b q).
    destruct (String.eqb p a && String.eqb q b); cbn;
      rewrite ?andb_false_r, ?andb_true_r; reflexivity.
  - destruct (Blocking.blocks_from_to p q x) eqn:Epq; cbn [orb]; [|reflexivity].
    unfold Blocking.blocks_from_to in *.
    apply andb_true_iff in Epq. destruct Epq as [E1 E2].
    apply String.eqb_eq in E1, E2. subst p q. rewrite Eab. reflexivity.
Qed.

(** With one row at most for a pair, [.single()] finds the block exactly
    when there is one. *)
Lemma single_block (a b : string) (bs : list Blocking.BlockData) :
  NoDup (map (fun x => (Blocking.blocker_id x, Blocking.blocked_user_id x)) bs) ->
  (single (filter (Blocking.blocks_from_to a b) bs) = None
   /\ Blocking.has_block a b bs = false)
  \/ exists r,
       single (filter (Blocking.blocks_from_to a b) bs) = Some r
       /\ filter (Blocking.blocks_from_to a b) bs = [r]
       /\ In r bs /\ Blocking.blocker_id r = a /\ Blocking.blocked_user_id r = b
       /\ Blocking.has_block a b bs = true.
Proof.
  intros Hnd. induction bs as [|x bs IH]; [left; split; reflexivity|].
  inversion Hnd as [|? ? Hx Hnd']; subst. specialize (IH Hnd').
  cbn [filter]. unfold Blocking.has_block in *. cbn [existsb].
  destruct (Blocking.blocks_from_to a b x) eqn:E.
  - right. exists x.
    unfold Blocking.blocks_from_to in E. apply andb_true_iff in E.
    destruct E as [E1 E2]. apply String.eqb_eq in E1, E2.
    destruct IH as [[_ Hno]|(r & _ & _ & Hin & Hr1 & Hr2 & _)].
    + apply has_block_filter in Hno. rewrite Hno. cbn. auto 10.
    + exfalso. apply Hx. apply in_map_iff. exists r. split; [congruence|exact Hin].
  - cbn [orb]. destruct IH as [[H1 H2]|(r & H1 & H2 & Hin & Hr)].
    + left. auto.
    + right. exists r. cbn. tauto.
Qed.

Lemma mark_other (i : nat) (v : bool) (bs : list Blocking.BlockData) :
  Forall (fun x => Blocking.id x <> i) bs -> Blocking.mark i v bs = bs.
Proof.
  unfold Blocking.mark. induction 1 as [|x bs Hx Hbs IH]; cbn; [reflexivity|].
  apply Nat.eqb_neq in Hx. rewrite Hx, IH. reflexivity.
Qed.

Lemma mark_keeps (i : nat) (v : bool) (bs : list Blocking.BlockData) :
  map Blocking.id (Blocking.mark i v bs) = map Blocking.id bs
  /\ map (fun x => (Blocking.blocker_id x, Blocking.blocked_user_id x))
         (Blocking.mark i v bs)
     = map (fun x => (Blocking.blocker_id x, Blocking.blocked_user_id x)) bs.
Proof.
  unfold Blocking.mark. rewrite !map_map.
  split; apply map_ext; intros x; destruct (Nat.eqb (Blocking.id x) i); reflexivity.
Qed.

Lemma Forall_mark (P : Blocking.BlockData -> Prop) (i : nat) (v : bool)
    (bs : list Blocking.BlockData) :
  Forall (fun x => P (if Nat.eqb (Blocking.id x) i
                      then Blocking.with_is_mutual v x else x)) bs ->
  Forall P (Blocking.mark i v bs).
Proof. intros H. unfold Blocking.mark. apply Forall_map. exact H. Qed.

Lemma row_not_reverse (a b : string) (x : Blocking.BlockData)
    (bs : list Blocking.BlockData) (i : nat) (reason : string) (now : Z) (v : bool) :
  In x bs ->
  Blocking.has_block
    (Blocking.blocked_user_id x) (Blocking.blocker_id x)
    [Blocking.mkBlockData i a b reason now v] = true ->
  Blocking.blocker_id x = b /\ Blocking.blocked_user_id x = a.
Proof.
  intros Hin H. unfold Blocking.has_block, Blocking.blocks_from_to in H.
  cbn in H. rewrite orb_false_r in H. apply andb_true_iff in H.
  destruct H as [H1 H2]. apply String.eqb_eq in H1, H2. auto.
Qed.

(** The table after a block of [b] by [a] that was not there. *)
Lemma block_well_formed (a b reason : string) (now : Z) (n : nat)
    (bs : list Blocking.BlockData) :
  a <> b ->
  Blocking.well_formed bs n ->
  Blocking.has_block a b bs = false ->
  let reverse := single (filter (Blocking.blocks_from_to b a) bs) in
  let row :=
    Blocking.mkBlockData n a b reason now
      (match reverse with Some _ => true | None => false end) in
  Blocking.well_formed
    (match reverse with
     | Some r => Blocking.mark (Blocking.id r) true (bs ++ [row])
     | None => (bs ++ [row])%list
     end)
    (S n).
Proof.
  intros Hne (Hids & Hlt & Hpairs & Hself & Hcons) Hnew. cbv zeta.
  unfold Blocking.consistent in Hcons.
  assert (Hids' : forall row, Blocking.id row = n ->
                    NoDup (map Blocking.id (bs ++ [row]))).
  { intros row Hrow. rewrite map_app. cbn.
    apply NoDup_app; [exact Hids|constructor; [cbn; tauto|constructor]|].
    intros k Hk [<-|[]]. apply in_map_iff in Hk. destruct Hk as [x [Hx Hin]].
    rewrite Forall_forall in Hlt. specialize (Hlt x Hin). lia. }
  assert (Hlt' : forall row, Blocking.id row = n ->
                   Forall (fun x => (Blocking.id x < S n)%nat) (bs ++ [row])).
  { intros row Hrow. apply Forall_app. split.
    - eapply Forall_impl; [|exact Hlt]. cbn. intros x Hx. lia.
    - constructor; [lia|constructor]. }
  assert (Hpairs' : forall row,
             Blocking.blocker_id row = a -> Blocking.blocked_user_id row = b ->
             NoDup (map (fun x => (Blocking.blocker_id x, Blocking.blocked_user_id x))
                        (bs ++ [row]))).
  { intros row Hra Hrb. rewrite map_app. cbn.
    apply NoDup_app; [exact Hpairs|constructor; [cbn; tauto|constructor]|].
    intros k Hk [<-|[]]. apply in_map_iff in Hk. destruct Hk as [x [Hx Hin]].
    inversion Hx.
    assert (Blocking.has_block a b bs = true); [|congruence].
    apply has_block_In. exists x. rewrite Hra, Hrb in *. auto. }
  assert (Hself' : forall row,
             Blocking.blocker_id row = a -> Blocking.blocked_user_id row = b ->
             Forall (fun x => Blocking.blocker_id x <> Blocking.blocked_user_id x)
                    (bs ++ [row])).
  { intros row Hra Hrb. apply Forall_app. split; [exact Hself|].
    constructor; [congruence|constructor]. }
  assert (Hrow_flag : forall i v,
             Blocking.has_block b a [Blocking.mkBlockData i a b reason now v] = false).
  { intros i v. unfold Blocking.has_block, Blocking.blocks_from_to. cbn.
    replace (String.eqb a b) with false by (symmetry; now apply String.eqb_neq).
    reflexivity. }
  destruct (single_block b a bs Hpairs)
    as [[Hnone Hno]|(r & Hsome & Hfil & Hin & Hr1 & Hr2 & Hyes)].
  - rewrite Hnone.
    repeat split; auto.
    unfold Blocking.consistent. apply Forall_app. split.
    + rewrite Forall_forall in *. intros x Hx. rewrite has_block_app.
      rewrite (Hcons x Hx).
      destruct (Blocking.has_block _ _ [_]) eqn:E; [|now rewrite orb_false_r].
      apply (row_not_reverse a b x bs) in E; [|exact Hx].
      assert (Blocking.has_block b a bs = true); [|congruence].
      apply has_block_In. exists x. tauto.
    + constructor; [|constructor]. cbn [Blocking.is_mutual Blocking.blocked_user_id
                                        Blocking.blocker_id].
      rewrite has_block_app, Hno, Hrow_flag. reflexivity.
  - rewrite Hsome.
    destruct (mark_keeps (Blocking.id r) true
                (bs ++ [Blocking.mkBlockData n a b reason now true])) as [Hk1 Hk2].
    split; [rewrite Hk1; auto|].
    split; [apply Forall_mark; eapply Forall_impl; [|apply Hlt'; reflexivity];
            intros x Hx; destruct (Nat.eqb _ _); exact Hx|].
    split; [rewrite Hk2; auto|].
    split; [apply Forall_mark; eapply Forall_impl; [|apply Hself'; reflexivity];
            intros x Hx; destruct (Nat.eqb _ _); exact Hx|].
    unfold Blocking.consistent. apply Forall_mark. apply Forall_app. split.
    + rewrite Forall_forall in *. intros x Hx.
      destruct (Nat.eqb (Blocking.id x) (Blocking.id r)) eqn:E.
      * apply Nat.eqb_eq in E.
        assert (x = r) as -> by (apply (NoDup_map_eq Blocking.id bs); auto).
        cbn [Blocking.with_is_mutual Blocking.is_mutual Blocking.blocked_user_id
             Blocking.blocker_id].
        rewrite has_block_mark, has_block_app, Hr1, Hr2.
        unfold Blocking.has_block at 2, Blocking.blocks_from_to. cbn.
        rewrite !String.eqb_refl. cbn. rewrite orb_true_r. reflexivity.
      * rewrite has_block_mark, has_block_app, (Hcons x Hx).
        destruct (Blocking.has_block _ _ [_]) eqn:E'; [|now rewrite orb_false_r].
        apply (row_not_reverse a b x bs) in E'; [|exact Hx].
        assert (x = r).
        { apply (NoDup_map_eq
                   (fun x => (Blocking.blocker_id x, Blocking.blocked_user_id x)) bs);
            auto.
          destruct E' as [-> ->]. rewrite Hr1, Hr2. reflexivity. }
        subst x. rewrite Nat.eqb_refl in E. discriminate.
    + constructor; [|constructor].
      cbn [Blocking.id].
      replace (Nat.eqb n (Blocking.id r)) with false.
      * cbn [Blocking.is_mutual Blocking.blocked_user_id Blocking.blocker_id].
        rewrite has_block_mark, has_block_app, Hyes. reflexivity.
      * symmetry. apply Nat.eqb_neq.
        rewrite Forall_forall in Hlt. specialize (Hlt r Hin). lia.
Qed.

Lemma filter_keeps_unique_column {Row Key} (column : Row -> Key) (kept : Row -> bool)
      (rows : list Row) (Hunique : NoDup (map column rows)) :
  NoDup (map column (filter kept rows)).
Proof.
  induction rows as [|row rows IH]; cbn in *; [constructor|].
  apply NoDup_cons_iff in Hunique. destruct Hunique as [Hrow Hrows].
  destruct (kept row); cbn; [|now apply IH].
  constructor; [|now apply IH].
  rewrite in_map_iff in *. intros [other [Hkey Hin]].
  apply Hrow. exists other. rewrite filter_In in Hin. tauto.
Qed.

Lemma Forall_filter_keep {A} (P : A -> Prop) (p : A -> bool) (l : list A) :
  Forall P l -> Forall P (filter p l).
Proof.
  rewrite !Forall_forall. intros H x Hx. apply filter_In in Hx. apply H, Hx.
Qed.

(** The table after the block of [b] by [a] is lifted. *)
Lemma unblock_well_formed (a b : string) (n : nat) (bs : list Blocking.BlockData) :
  Blocking.well_formed bs n ->
  let kept := filter (fun x => negb (Blocking.blocks_from_to a b x)) bs in
  Blocking.well_formed
    (match single (filter (Blocking.blocks_from_to b a) kept) with
     | Some r => Blocking.mark (Blocking.id r) false kept
     | None => kept
     end)
    n.
Proof.
  intros (Hids & Hlt & Hpairs & Hself & Hcons) kept.
  unfold Blocking.consistent in Hcons.
  assert (Hids' : NoDup (map Blocking.id kept)) by (apply filter_keeps_unique_column, Hids).
  assert (Hlt' : Forall (fun x => (Blocking.id x < n)%nat) kept)
    by (apply Forall_filter_keep, Hlt).
  assert (Hpairs' : NoDup (map (fun x => (Blocking.blocker_id x,
                                          Blocking.blocked_user_id x)) kept))
    by (apply filter_keeps_unique_column, Hpairs).
  assert (Hself' : Forall (fun x => Blocking.blocker_id x <> Blocking.blocked_user_id x)
                          kept)
    by (apply Forall_filter_keep, Hself).
  assert (Hold : forall x, In x kept ->
                   Blocking.is_mutual x
                   = Blocking.has_block (Blocking.blocked_user_id x)
                       (Blocking.blocker_id x) bs).
  { intros x Hx. apply filter_In in Hx. rewrite Forall_forall in Hcons.
    apply Hcons, Hx. }
  assert (Hkept : forall p q,
             Blocking.has_block p q kept
             = Blocking.has_block p q bs
               && negb (String.eqb p a && String.eqb q b))
    by (intros; apply has_block_kept).
  assert (Hreverse : forall x,
             String.eqb (Blocking.blocked_user_id x) a
             && String.eqb (Blocking.blocker_id x) b = true ->
             Blocking.blocker_id x = b /\ Blocking.blocked_user_id x = a).
  { intros x H. apply andb_true_iff in H. destruct H as [H1 H2].
    apply String.eqb_eq in H1, H2. auto. }
  destruct (single_block b a kept Hpairs')
    as [[Hnone Hno]|(r & Hsome & Hfil & Hin & Hr1 & Hr2 & Hyes)].
  - rewrite Hnone. repeat split; auto.
    unfold Blocking.consistent. apply Forall_forall. intros x Hx.
    rewrite Hkept, (Hold x Hx).
    destruct (String.eqb (Blocking.blocked_user_id x) a
              && String.eqb (Blocking.blocker_id x) b) eqn:E;
      [|now rewrite andb_true_r].
    apply Hreverse in E.
    assert (Blocking.has_block b a kept = true); [|congruence].
    apply has_block_In. exists x. tauto.
  - rewrite Hsome.
    destruct (mark_keeps (Blocking.id r) false kept) as [Hk1 Hk2].
    split; [rewrite Hk1; auto|].
    split; [apply Forall_mark; eapply Forall_impl; [|exact Hlt'];
            intros x Hx; destruct (Nat.eqb _ _); exact Hx|].
    split; [rewrite Hk2; auto|].
    split; [apply Forall_mark; eapply Forall_impl; [|exact Hself'];
            intros x Hx; destruct (Nat.eqb _ _); exact Hx|].
    unfold Blocking.consistent. apply Forall_mark. apply Forall_forall.
    intros x Hx.
    destruct (Nat.eqb (Blocking.id x) (Blocking.id r)) eqn:E.
    + apply Nat.eqb_eq in E.
      assert (x = r) as -> by (apply (NoDup_map_eq Blocking.id kept); auto).
      cbn [Blocking.with_is_mutual Blocking.is_mutual Blocking.blocked_user_id
           Blocking.blocker_id].
      rewrite has_block_mark, Hkept, Hr1, Hr2, !String.eqb_refl.
      cbn. rewrite andb_false_r. reflexivity.
    + rewrite has_block_mark, Hkept, (Hold x Hx).
      destruct (String.eqb (Blocking.blocked_user_id x) a
                && String.eqb (Blocking.blocker_id x) b) eqn:E';
        [|now rewrite andb_true_r].
      apply Hreverse in E'.
      assert (x = r).
      { apply (NoDup_map_eq
                 (fun x => (Blocking.blocker_id x, Blocking.blocked_user_id x)) kept);
          auto.
        destruct E' as [-> ->]. rewrite Hr1, Hr2. reflexivity. }
      subst x. rewrite Nat.eqb_refl in E. discriminate.
Qed.

(** The invariant of the table of blocks.  When the calls go through,
    [blockUser] between two different users and [unblockUser] keep the
    table well formed: one row at most for a pair in each direction, and
    every row marked mutual exactly when the reverse block is there. *)
Theorem blockUser_unblockUser_well_formed :
  forall (blockerId blockedUserId reason : string) (s : Blocking.State),
    Blocking.failures s = [] ->
    Blocking.well_formed (Blocking.blocks s) (Blocking.next_id s) ->
    let blocked := snd (Blocking.blockUser blockerId blockedUserId reason s) in
    let unblocked := snd (Blocking.unblockUser blockerId blockedUserId s) in
    (blockerId <> blockedUserId ->
     Blocking.well_formed (Blocking.blocks blocked) (Blocking.next_id blocked))
    /\ Blocking.well_formed (Blocking.blocks unblocked) (Blocking.next_id unblocked).
Proof.
  intros blockerId blockedUserId reason s Hok Hwf. cbv zeta. split.
  - intros Hne.
    pose proof (blockUser_reliable blockerId blockedUserId reason s Hok) as Hrun.
    cbv zeta in Hrun.
    destruct Hwf as (Hids & Hlt & Hpairs & Hself & Hcons).
    destruct (single_block blockerId blockedUserId (Blocking.blocks s) Hpairs)
      as [[Hnone Hno]|(r & Hsome & _)].
    + rewrite Hnone in Hrun. destruct Hrun as (_ & Hblocks & _ & Hnext & _).
      rewrite Hblocks, Hnext.
      apply (block_well_formed blockerId blockedUserId reason); auto.
      repeat split; auto.
    + rewrite Hsome in Hrun. rewrite Hrun. cbn. repeat split; auto.
  - destruct (unblockUser_reliable blockerId blockedUserId s Hok)
      as (_ & Hblocks & _ & _ & Hnext & _).
    cbv zeta in Hblocks. rewrite Hblocks, Hnext.
    apply unblock_well_formed, Hwf.
Qed.

Lemma blockUser_unblockUser_well_formed_witness :
  Blocking.well_formed
    (Blocking.blocks
       (snd (Blocking.blockUser "u-alice" "u-bob" "rude" Scenario.bob_blocks_alice)))
    (Blocking.next_id
       (snd (Blocking.blockUser "u-alice" "u-bob" "rude" Scenario.bob_blocks_alice))).
Proof.
  assert (Hok : Blocking.failures Scenario.bob_blocks_alice = []) by reflexivity.
  assert (Hwf : Blocking.well_formed (Blocking.blocks Scenario.bob_blocks_alice)
                  (Blocking.next_id Scenario.bob_blocks_alice)).
  { cbn. repeat split.
    - constructor; [cbn; tauto|constructor].
    - constructor; [cbn; lia|constructor].
    - constructor; [cbn; tauto|constructor].
    - constructor; [cbn; discriminate|constructor].
    - constructor; [reflexivity|constructor]. }
  apply (blockUser_unblockUser_well_formed "u-alice" "u-bob" "rude"
           Scenario.bob_blocks_alice Hok Hwf).
  discriminate.
Defined.

Lemma blocking_request_frame (s s' : Blocking.State) (ok : bool) :
  Blocking.request s = (ok, s') ->
  Blocking.blocks s' = Blocking.blocks s
  /\ Blocking.matches s' = Blocking.matches s
  /\ Blocking.chat_rooms s' = Blocking.chat_rooms s
  /\ Blocking.next_id s' = Blocking.next_id s
  /\ Blocking.clock s' = Blocking.clock s.
Proof.
  unfold Blocking.request. destruct (Blocking.failures s);
    intros H; inversion H; subst; cbn; auto.
Qed.

Ltac step_blocking :=
  match goal with
  | |- context [Blocking.request ?s] =>
      let ok := fresh "ok" in
      let s' := fresh "s" in
      let H := fresh "Hreq" in
      destruct (Blocking.request s) as [ok s'] eqn:H;
      apply blocking_request_frame in H;
      destruct H as (?Hb & ?Hm & ?Hc & ?Hi & ?Hk);
      destruct ok; cbn in *
  end.

Ltac unfold_blocking_calls :=
  unfold Blocking.select_single, Blocking.select, Blocking.insert_block,
    Blocking.update_is_mutual, Blocking.delete_blocks,
    Blocking.deactivateUserInteractions, Blocking.fresh_id,
    Blocking.new_Date_time, Blocking.get, Blocking.modify, Blocking.bind,
    Blocking.ret.

(** When [blockUser] answers [false], because the block is there already
    or because it could not be stored, the three tables are as they
    were. *)
Lemma blockUser_refused :
  forall (blockerId blockedUserId reason : string) (s : Blocking.State),
    let '(success, s') := Blocking.blockUser blockerId blockedUserId reason s in
    success = false ->
    Blocking.blocks s' = Blocking.blocks s
    /\ Blocking.matches s' = Blocking.matches s
    /\ Blocking.chat_rooms s' = Blocking.chat_rooms s.
Proof.
  intros blockerId blockedUserId reason s.
  unfold Blocking.blockUser.
  unfold Blocking.select_single, Blocking.select, Blocking.insert_block,
    Blocking.fresh_id, Blocking.new_Date_time, Blocking.get, Blocking.modify,
    Blocking.bind, Blocking.ret.
  (* the read of the block *)
  step_blocking;
    [rewrite Hb;
     destruct (single (filter (Blocking.blocks_from_to blockerId blockedUserId)
                         (Blocking.blocks s))); cbn; [auto|]|];
    (* the read of the reverse block, and the insert *)
    step_blocking; rewrite ?Hb0, ?Hb;
    try destruct (single (filter (Blocking.blocks_from_to blockedUserId blockerId)
                            (Blocking.blocks s))); cbn;
    step_blocking;
    try (intros _; rewrite ?Hb1, ?Hb0, ?Hb, ?Hm1, ?Hm0, ?Hm, ?Hc1, ?Hc0, ?Hc;
         solve [auto]);
    (* stored: the answer is [true] *)
    repeat match goal with
           | |- context [Blocking.update_is_mutual ?i ?v ?x] =>
               destruct (Blocking.update_is_mutual i v x)
           | |- context [Blocking.deactivateUserInteractions ?a ?b ?x] =>
               destruct (Blocking.deactivateUserInteractions a b x)
           end;
    cbn; discriminate.
Qed.

(** A block that is refused changes nothing.  [POST /api/blocks] answers
    200, 400, 409 or 500; unless it answers 200 the three tables are as
    they were.  A request to block oneself, like one without blocker or
    without blocked user, is answered 400, and a request whose body cannot
    be read is answered 500, both before any call to the client. *)
Theorem POST_block_refused_changes_nothing :
  forall (request : Blocking.Request) (s : Blocking.State),
    let '(answer, s') := Blocking.POST request s in
    (Blocking.status answer = 200
     \/ ((Blocking.status answer = 400 \/ Blocking.status answer = 409
          \/ Blocking.status answer = 500)
         /\ Blocking.blocks s' = Blocking.blocks s
         /\ Blocking.matches s' = Blocking.matches s
         /\ Blocking.chat_rooms s' = Blocking.chat_rooms s))
    /\ match request with
       | Blocking.thrown _ => Blocking.status answer = 500 /\ s' = s
       | Blocking.fields blockerId blockedUserId _ =>
           Blocking.status answer <> 500
           /\ (blockerId = blockedUserId
               \/ JS.truthy blockerId = false \/ JS.truthy blockedUserId = false ->
               Blocking.status answer = 400 /\ s' = s)
       end.
Proof.
  intros [error_message|blockerId blockedUserId reason] s; unfold Blocking.POST.
  { cbn. auto 10. }
  assert (H500 : 400 <> 500 /\ 409 <> 500 /\ 200 <> 500) by (repeat split; discriminate).
  destruct H500 as (H400 & H409 & H200).
  destruct blockerId as [blockerId|]; [|cbn; auto 10].
  destruct blockedUserId as [blockedUserId|]; [|cbn; auto 10].
  cbn [JS.truthy].
  destruct (String.eqb blockerId "") eqn:E1; [cbn; auto 10|].
  destruct (String.eqb blockedUserId "") eqn:E2; [cbn; auto 10|].
  cbn [orb negb].
  destruct (String.eqb_spec blockerId blockedUserId) as [Heq|Hne]; [cbn; auto 10|].
  unfold Blocking.bind.
  match goal with
  | |- context [Blocking.blockUser ?a ?b ?r s] =>
      pose proof (blockUser_refused a b r s) as Hrefused;
      destruct (Blocking.blockUser a b r s) as [success s']
  end.
  destruct success; cbn.
  - split; [auto|]. split; [exact H200|].
    intros [H|[H|H]]; [congruence|discriminate|discriminate].
  - split; [right; split; [auto|apply Hrefused; reflexivity]|].
    split; [exact H409|].
    intros [H|[H|H]]; [congruence|discriminate|discriminate].
Qed.

Lemma POST_block_refused_changes_nothing_witness :
  Blocking.status
    (fst (Blocking.POST (Blocking.fields (Some "u-bob") (Some "u-bob") None)
            Scenario.bob_blocks_alice))
  = 400
  /\ snd (Blocking.POST (Blocking.fields (Some "u-bob") (Some "u-bob") None)
            Scenario.bob_blocks_alice)
     = Scenario.bob_blocks_alice.
Proof.
  pose proof (POST_block_refused_changes_nothing
                (Blocking.fields (Some "u-bob") (Some "u-bob") None)
                Scenario.bob_blocks_alice) as H.
  destruct (Blocking.POST (Blocking.fields (Some "u-bob") (Some "u-bob") None)
              Scenario.bob_blocks_alice)
    as [answer s'].
  apply H. left. reflexivity.
Defined.

Lemma filter_mark (p : Blocking.BlockData -> bool) (i : nat) (v : bool)
    (bs : list Blocking.BlockData) :
  (forall x, p (Blocking.with_is_mutual v x) = p x) ->
  filter p (Blocking.mark i v bs) = Blocking.mark i v (filter p bs).
Proof.
  intros Hp. unfold Blocking.mark. induction bs as [|x bs IH]; [reflexivity|].
  cbn [map filter].
  destruct (Nat.eqb (Blocking.id x) i) eqn:E.
  - rewrite Hp. destruct (p x); cbn [map]; rewrite ?E, IH; reflexivity.
  - destruct (p x); cbn [map]; rewrite ?E, IH; reflexivity.
Qed.

Lemma filter_none {A} (p : A -> bool) (l : list A) :
  existsb p l = false -> filter (fun x => negb (p x)) l = l.
Proof.
  induction l as [|x l IH]; cbn; [reflexivity|].
  destruct (p x); cbn; [discriminate|intros H; rewrite IH; auto].
Qed.

Lemma mark_back (r : Blocking.BlockData) (bs : list Blocking.BlockData) :
  NoDup (map Blocking.id bs) -> In r bs -> Blocking.is_mutual r = false ->
  Blocking.mark (Blocking.id r) false (Blocking.mark (Blocking.id r) true bs) = bs.
Proof.
  intros Hnd Hin Hflag. unfold Blocking.mark. rewrite map_map.
  rewrite <- (map_id bs) at 2. apply map_ext_in. intros x Hx.
  destruct (Nat.eqb (Blocking.id x) (Blocking.id r)) eqn:E.
  - cbn. rewrite E.
    apply Nat.eqb_eq in E.
    assert (x = r) as -> by (apply (NoDup_map_eq Blocking.id bs); auto).
    destruct r; cbn in *; subst; reflexivity.
  - rewrite E. reflexivity.
Qed.

(** Block and unblock.  Between two different users, on a well-formed
    table in which the block is not there, when the calls go through:
    [blockUser] and then [unblockUser] leave the table of blocks as it
    was; the matches of the pair, deactivated by the block, stay
    deactivated. *)
Theorem block_then_unblock :
  forall (blockerId blockedUserId reason : string) (s : Blocking.State),
    Blocking.failures s = [] ->
    Blocking.well_formed (Blocking.blocks s) (Blocking.next_id s) ->
    blockerId <> blockedUserId ->
    Blocking.has_block blockerId blockedUserId (Blocking.blocks s) = false ->
    let s1 := snd (Blocking.blockUser blockerId blockedUserId reason s) in
    let s2 := snd (Blocking.unblockUser blockerId blockedUserId s1) in
    Blocking.blocks s2 = Blocking.blocks s
    /\ Blocking.matches s2
       = Blocking.deactivate blockerId blockedUserId (Blocking.matches s)
    /\ Forall (fun m => Blocking.match_is_active m = false)
              (Blocking.matches_of blockerId blockedUserId s2).
Proof.
  intros a b reason s Hok Hwf Hne Hnew s1 s2.
  pose proof (blockUser_reliable a b reason s Hok) as Hrun. cbv zeta in Hrun.
  destruct Hwf as (Hids & Hlt & Hpairs & Hself & Hcons).
  destruct (single_block a b (Blocking.blocks s) Hpairs)
    as [[Hnone _]|(r & _ & _ & _ & _ & _ & Hyes)]; [|congruence].
  rewrite Hnone in Hrun. fold s1 in Hrun.
  destruct Hrun as (_ & Hblocks & Hmatches & _ & Hok1).
  destruct (unblockUser_reliable a b s1 Hok1) as (_ & Hblocks2 & Hmatches2 & _).
  cbv zeta in Hblocks2. fold s2 in Hblocks2, Hmatches2.
  assert (Hkeep : forall row,
             Blocking.blocks_from_to a b row = true ->
             filter (fun x => negb (Blocking.blocks_from_to a b x))
                    (Blocking.blocks s ++ [row])
             = Blocking.blocks s).
  { intros row Hrow. rewrite filter_app. cbn. rewrite Hrow. cbn.
    rewrite app_nil_r. apply filter_none. exact Hnew. }
  assert (Hrow : forall i now v,
             Blocking.blocks_from_to a b (Blocking.mkBlockData i a b reason now v)
             = true).
  { intros. unfold Blocking.blocks_from_to. cbn. rewrite !String.eqb_refl.
    reflexivity. }
  split; [|split].
  - rewrite Hblocks2, Hblocks.
    destruct (single_block b a (Blocking.blocks s) Hpairs)
      as [[Hnone' Hno]|(r & Hsome & Hfil & Hin & Hr1 & Hr2 & Hyes)].
    + rewrite Hnone'. rewrite (Hkeep _ (Hrow _ _ _)). rewrite Hnone'. reflexivity.
    + rewrite Hsome.
      rewrite (filter_mark (fun x => negb (Blocking.blocks_from_to a b x)));
        [|reflexivity].
      rewrite (Hkeep _ (Hrow _ _ _)).
      rewrite (filter_mark (Blocking.blocks_from_to b a)); [|reflexivity].
      rewrite Hfil. cbn [Blocking.mark map]. rewrite Nat.eqb_refl. cbn [single].
      cbn [Blocking.with_is_mutual Blocking.id].
      apply mark_back; auto.
      unfold Blocking.consistent in Hcons. rewrite Forall_forall in Hcons.
      rewrite (Hcons r Hin), Hr1, Hr2. exact Hnew.
  - rewrite Hmatches2, Hmatches. reflexivity.
  - unfold Blocking.matches_of. rewrite Hmatches2, Hmatches.
    apply Forall_forall. intros m Hm. apply filter_In in Hm.
    destruct Hm as [Hm Hpair]. unfold Blocking.deactivate in Hm.
    apply in_map_iff in Hm. destruct Hm as [m0 [<- Hm0]].
    destruct (pair_filter a b (Blocking.match_row m0)) eqn:E; [reflexivity|].
    rewrite E in Hpair. discriminate.
Qed.

Lemma block_then_unblock_witness :
  Blocking.blocks
    (snd (Blocking.unblockUser "u-alice" "u-bob"
            (snd (Blocking.blockUser "u-alice" "u-bob" "rude"
                    Scenario.bob_blocks_alice))))
  = Blocking.blocks Scenario.bob_blocks_alice.
Proof.
  assert (Hok : Blocking.failures Scenario.bob_blocks_alice = []) by reflexivity.
  assert (Hwf : Blocking.well_formed (Blocking.blocks Scenario.bob_blocks_alice)
                  (Blocking.next_id Scenario.bob_blocks_alice)).
  { cbn. repeat split.
    - constructor; [cbn; tauto|constructor].
    - constructor; [cbn; lia|constructor].
    - constructor; [cbn; tauto|constructor].
    - constructor; [cbn; discriminate|constructor].
    - constructor; [reflexivity|constructor]. }
  assert (Hne : "u-alice" <> "u-bob") by discriminate.
  assert (Hnew : Blocking.has_block "u-alice" "u-bob"
                   (Blocking.blocks Scenario.bob_blocks_alice) = false)
    by reflexivity.
  apply (block_then_unblock "u-alice" "u-bob" "rude" Scenario.bob_blocks_alice
           Hok Hwf Hne Hnew).
Defined.

Lemma first_row_exists {A} (p : A -> bool) (l : list A) :
  (0 <? JS.length (firstn 1 (filter p l))) = existsb p l.
Proof.
  induction l as [|x l IH]; [reflexivity|]. cbn [filter existsb].
  destruct (p x); [reflexivity|exact IH].
Qed.

Lemma existsb_either {A} (p q : A -> bool) (l : list A) :
  existsb (fun x => p x || q x) l = existsb p l || existsb q l.
Proof.
  induction l as [|x l IH]; [reflexivity|]. cbn. rewrite IH.
  destruct (p x), (q x), (existsb p l), (existsb q l); reflexivity.
Qed.

(** [isUserBlocked] when its call goes through: a block in one direction
    or the other. *)
Lemma isUserBlocked_reliable (userId1 userId2 : string) (s : Blocking.State) :
  Blocking.failures s = [] ->
  Blocking.isUserBlocked userId1 userId2 s
  = (Blocking.has_block userId1 userId2 (Blocking.blocks s)
     || Blocking.has_block userId2 userId1 (Blocking.blocks s), s).
Proof.
  intros Hok. destruct s as [bs ms cr nid fs clk]. cbn in Hok. subst fs.
  unfold Blocking.isUserBlocked, Blocking.select, Blocking.bind, Blocking.get,
    Blocking.ret, Blocking.request. cbn -[firstn JS.length Z.ltb filter].
  rewrite first_row_exists, existsb_either. reflexivity.
Qed.

(** What [isUserBlocked] says after a block and after an unblock, when the
    calls go through.  After a block that succeeded each of the two users
    is blocked for the other, whichever is asked first.  After the block
    of [blockedUserId] by [blockerId] is lifted, the two are still blocked
    for each other exactly if the reverse block is in the table. *)
Theorem isUserBlocked_after_block_and_unblock :
  forall (blockerId blockedUserId reason : string) (s : Blocking.State),
    Blocking.failures s = [] ->
    blockerId <> blockedUserId ->
    let '(success, s1) := Blocking.blockUser blockerId blockedUserId reason s in
    let s2 := snd (Blocking.unblockUser blockerId blockedUserId s) in
    (success = true ->
     fst (Blocking.isUserBlocked blockerId blockedUserId s1) = true
     /\ fst (Blocking.isUserBlocked blockedUserId blockerId s1) = true)
    /\ fst (Blocking.isUserBlocked blockerId blockedUserId s2)
       = Blocking.has_block blockedUserId blockerId (Blocking.blocks s)
    /\ fst (Blocking.isUserBlocked blockedUserId blockerId s2)
       = Blocking.has_block blockedUserId blockerId (Blocking.blocks s).
Proof.
  intros a b reason s Hok Hne.
  pose proof (blockUser_reliable a b reason s Hok) as Hrun. cbv zeta in Hrun.
  destruct (Blocking.blockUser a b reason s) as [success s1].
  cbv zeta. split.
  - intros ->.
    destruct (single (filter (Blocking.blocks_from_to a b) (Blocking.blocks s)));
      [inversion Hrun|].
    cbn [fst snd] in Hrun. destruct Hrun as (_ & Hblocks & _ & _ & Hok1).
    assert (Hhas : Blocking.has_block a b (Blocking.blocks s1) = true).
    { rewrite Hblocks.
      destruct (single (filter (Blocking.blocks_from_to b a) (Blocking.blocks s)));
        rewrite ?has_block_mark, has_block_app;
        unfold Blocking.has_block at 2, Blocking.blocks_from_to; cbn;
        rewrite !String.eqb_refl; cbn; apply orb_true_r. }
    rewrite !(isUserBlocked_reliable _ _ s1 Hok1). cbn [fst].
    rewrite Hhas. split; [reflexivity|apply orb_true_r].
  - destruct (unblockUser_reliable a b s Hok) as (_ & Hblocks & _ & _ & _ & Hok2 & _).
    cbv zeta in Hblocks.
    set (s2 := snd (Blocking.unblockUser a b s)) in *.
    rewrite !(isUserBlocked_reliable _ _ s2 Hok2). cbn [fst].
    assert (Hab : Blocking.has_block a b (Blocking.blocks s2) = false
                  /\ Blocking.has_block b a (Blocking.blocks s2)
                     = Blocking.has_block b a (Blocking.blocks s)).
    { rewrite Hblocks.
      destruct (single (filter (Blocking.blocks_from_to b a) (filter _ _)));
        repeat rewrite has_block_mark;
        repeat rewrite has_block_kept;
        rewrite !String.eqb_refl;
        replace (String.eqb b a) with false
          by (symmetry; apply String.eqb_neq; congruence);
        cbn; rewrite andb_false_r, andb_true_r; auto. }
    destruct Hab as [-> ->]. rewrite orb_false_r. cbn. auto.
Qed.

Lemma isUserBlocked_after_block_and_unblock_witness :
  fst (Blocking.isUserBlocked "u-alice" "u-bob"
         (snd (Blocking.unblockUser "u-alice" "u-bob" Scenario.bob_blocks_alice)))
  = Blocking.has_block "u-bob" "u-alice" (Blocking.blocks Scenario.bob_blocks_alice).
Proof.
  assert (Hok : Blocking.failures Scenario.bob_blocks_alice = []) by reflexivity.
  assert (Hne : "u-alice" <> "u-bob") by discriminate.
  pose proof (isUserBlocked_after_block_and_unblock "u-alice" "u-bob" "rude"
                Scenario.bob_blocks_alice Hok Hne) as H.
  destruct (Blocking.blockUser "u-alice" "u-bob" "rude" Scenario.bob_blocks_alice)
    as [success s1].
  apply H.
Defined.

(** [DELETE /api/blocks/[id]] when the calls go through.  With a blocker
    id it answers 200 whether or not the block was there, and afterwards
    the blocker does not block the user of the path; who blocks whom is
    otherwise as before, and the matches and the chat rooms are not
    touched, so what the block deactivated stays deactivated.  Without a
    blocker id it answers 400 and the state is as it was. *)
Theorem DELETE_unblocks :
  forall (blockerId : option string) (params_id : string) (s : Blocking.State),
    Blocking.failures s = [] ->
    let '(answer, s') := Blocking.DELETE blockerId params_id s in
    if JS.truthy blockerId then
      Blocking.status answer = 200
      /\ (forall b, blockerId = Some b ->
            Blocking.has_block b params_id (Blocking.blocks s') = false
            /\ forall p q, (p, q) <> (b, params_id) ->
                 Blocking.has_block p q (Blocking.blocks s')
                 = Blocking.has_block p q (Blocking.blocks s))
      /\ Blocking.matches s' = Blocking.matches s
      /\ Blocking.chat_rooms s' = Blocking.chat_rooms s
    else Blocking.status answer = 400 /\ s' = s.
Proof.
  intros blockerId id s Hok. unfold Blocking.DELETE.
  destruct (JS.truthy blockerId) eqn:Htruthy; cbn [negb]; [|split; reflexivity].
  destruct blockerId as [b|]; [|discriminate].
  pose proof (unblockUser_reliable b id s Hok) as Hrun. cbv zeta in Hrun.
  unfold Blocking.bind at 1.
  destruct (Blocking.unblockUser b id s) as [success s1].
  cbn [fst snd] in Hrun. destruct Hrun as (-> & Hblocks & Hmatches & Hrooms & _).
  cbn [negb]. unfold Blocking.ret.
  split; [reflexivity|]. split; [|split; assumption].
  intros b' Hb. injection Hb as <-.
  assert (Hafter : forall p q,
             Blocking.has_block p q (Blocking.blocks s1)
             = Blocking.has_block p q (Blocking.blocks s)
               && negb (String.eqb p b && String.eqb q id)).
  { intros p q. rewrite Hblocks.
    destruct (single _); rewrite ?has_block_mark; apply has_block_kept. }
  split.
  - rewrite Hafter, !String.eqb_refl. apply andb_false_r.
  - intros p q Hpq. rewrite Hafter.
    destruct (String.eqb_spec p b) as [->|]; [|apply andb_true_r].
    destruct (String.eqb_spec q id) as [->|]; [|apply andb_true_r].
    congruence.
Qed.

Lemma DELETE_unblocks_witness :
  Blocking.status
    (fst (Blocking.DELETE (Some "u-bob") "u-alice" Scenario.bob_blocks_alice))
  = 200.
Proof.
  assert (Hok : Blocking.failures Scenario.bob_blocks_alice = []) by reflexivity.
  pose proof (DELETE_unblocks (Some "u-bob") "u-alice" Scenario.bob_blocks_alice Hok)
    as H.
  destruct (Blocking.DELETE (Some "u-bob") "u-alice" Scenario.bob_blocks_alice)
    as [answer s'].
  apply H.
Defined.

(* ================================================================== *)
(** ** Report statistics *)
(* ================================================================== *)

Lemma get_property_set (k g : string) (c : Count) (groups : Groups) :
  get_property k (set_property g c groups)
  = if String.eqb g k then Some c else get_property k groups.
Proof.
  induction groups as [|[g' m] rest IH]; cbn.
  - destruct (String.eqb g k); reflexivity.
  - destruct (String.eqb_spec g' g) as [->|Hne]; cbn.
    + destruct (String.eqb g k); reflexivity.
    + destruct (String.eqb_spec g' k) as [->|Hne'].
      * replace (String.eqb g k) with false
          by (symmetry; apply String.eqb_neq; congruence).
        reflexivity.
      * exact IH.
Qed.

Lemma count_of_set (k g : string) (n : Z) (groups : Groups) :
  count_of k (set_property g (number n) groups)
  = if String.eqb g k then n else count_of k groups.
Proof.
  unfold count_of. rewrite get_property_set.
  destruct (String.eqb g k); reflexivity.
Qed.

Lemma total_set (g : string) (n : Z) (groups : Groups) :
  total (set_property g (number n) groups)
  = total groups - count_of g groups + n.
Proof.
  unfold count_of, total.
  induction groups as [|[g' m] rest IH]; cbn [set_property get_property].
  - cbn. lia.
  - destruct (String.eqb g' g); cbn [fold_right snd].
    + destruct m; lia.
    + rewrite IH. destruct m; lia.
Qed.

Lemma keys_set (g : string) (c : Count) (groups : Groups) :
  NoDup (map fst groups) ->
  NoDup (map fst (set_property g c groups))
  /\ (forall k, In k (map fst (set_property g c groups))
                <-> k = g \/ In k (map fst groups)).
Proof.
  induction groups as [|[g' m] rest IH]; cbn; intros Hnd.
  - split; [constructor; [tauto|constructor]|]. intros k. intuition.
  - inversion Hnd as [|? ? Hg' Hrest]; subst. specialize (IH Hrest).
    destruct IH as [IH1 IH2].
    destruct (String.eqb_spec g' g) as [->|Hne]; cbn.
    + split; [exact Hnd|]. intros k. intuition.
    + split.
      * constructor; [|exact IH1]. rewrite IH2. intros [H|H]; auto.
      * intros k. rewrite IH2. intuition.
Qed.

Lemma all_numbers_set (g : string) (n : Z) (groups : Groups) :
  all_numbers groups -> all_numbers (set_property g (number n) groups).
Proof.
  unfold all_numbers.
  induction groups as [|[g' m] rest IH]; cbn; intros H.
  - constructor; [exists n; reflexivity|constructor].
  - inversion H as [|? ? Hm Hrest]; subst.
    destruct (String.eqb g' g); constructor; auto. exists n. reflexivity.
Qed.

Lemma get_property_key (k : string) (groups : Groups) :
  get_property k groups = None <-> ~ In k (map fst groups).
Proof.
  induction groups as [|[g m] rest IH]; cbn; [tauto|].
  destruct (String.eqb_spec g k) as [->|Hne].
  - split; [discriminate|]. intros H. exfalso. apply H. now left.
  - rewrite IH. intuition.
Qed.

Lemma get_property_number (k : string) (groups : Groups) :
  all_numbers groups ->
  get_property k groups = None
  \/ get_property k groups = Some (number (count_of k groups)).
Proof.
  unfold all_numbers, count_of.
  induction groups as [|[g m] rest IH]; cbn; intros H; [now left|].
  inversion H as [|? ? [n Hn] Hrest]; subst. cbn in Hn. subst m.
  destruct (String.eqb g k); [now right|]. apply IH, Hrest.
Qed.

(** One turn of the [reduce] of [groupBy] on an object of numbers and a
    group that [Object.prototype] does not name. *)
Lemma groupBy_step (item : option string) (groups : Groups) :
  JS.includes Object_prototype (group_of item) = false ->
  all_numbers groups ->
  (if String.eqb (group_of item) "__proto__" then groups
   else set_property (group_of item) (incremented (group_of item) groups) groups)
  = set_property (group_of item)
      (number (count_of (group_of item) groups + 1)) groups.
Proof.
  intros Hplain Hnum.
  destruct (String.eqb_spec (group_of item) "__proto__") as [E|_].
  - rewrite E in Hplain. discriminate.
  - f_equal. unfold incremented.
    destruct (get_property_number (group_of item) groups Hnum) as [H|H];
      rewrite H.
    + rewrite Hplain. unfold count_of. rewrite H. reflexivity.
    + destruct (Z.eqb_spec (count_of (group_of item) groups) 0) as [->|];
        reflexivity.
Qed.

(** What the fold of [groupBy] keeps true of the object it builds. *)
Lemma groupBy_fold (values : list (option string)) :
  plain_groups values ->
  (forall k, count_of k (groupBy values)
             = JS.length (filter (fun v => String.eqb (group_of v) k) values))
  /\ NoDup (map fst (groupBy values))
  /\ total (groupBy values) = JS.length values
  /\ (forall k, In k (map fst (groupBy values))
                <-> exists v, In v values /\ group_of v = k)
  /\ all_numbers (groupBy values).
Proof.
  set (step := fun (groups : Groups) (item : option string) =>
                 let group := group_of item in
                 if String.eqb group "__proto__" then groups
                 else set_property group (incremented group groups) groups).
  assert (Hfold : forall l groups,
             plain_groups l ->
             NoDup (map fst groups) ->
             all_numbers groups ->
             let result := fold_left step l groups in
             (forall k, count_of k result
                        = count_of k groups
                          + JS.length (filter (fun v => String.eqb (group_of v) k) l))
             /\ NoDup (map fst result)
             /\ total result = total groups + JS.length l
             /\ (forall k, In k (map fst result)
                           <-> In k (map fst groups)
                               \/ exists v, In v l /\ group_of v = k)
             /\ all_numbers result).
  { induction l as [|item l IH]; intros groups Hplain Hnd Hnum; cbv zeta.
    - cbn [fold_left filter]. unfold JS.length. cbn [List.length].
      split; [intros k; lia|]. split; [exact Hnd|]. split; [lia|].
      split; [|exact Hnum].
      intros k. split; [auto|]. intros [H|[v [[] _]]]. exact H.
    - cbn [fold_left]. inversion Hplain as [|? ? Hitem Hrest]; subst.
      assert (Hs : step groups item
                   = set_property (group_of item)
                       (number (count_of (group_of item) groups + 1)) groups)
        by (apply groupBy_step; assumption).
      rewrite Hs.
      destruct (keys_set (group_of item)
                  (number (count_of (group_of item) groups + 1))
                  groups Hnd) as [Hnd' Hkeys].
      destruct (IH _ Hrest Hnd' (all_numbers_set _ _ _ Hnum))
        as (IHc & IHn & IHt & IHk & IHa).
      split; [|split; [exact IHn|split; [|split; [|exact IHa]]]].
      + intros k. rewrite IHc, count_of_set. cbn [filter].
        unfold JS.length.
        destruct (String.eqb (group_of item) k) eqn:E; cbn [List.length].
        * apply String.eqb_eq in E. subst k. lia.
        * lia.
      + rewrite IHt, total_set. unfold JS.length. cbn [List.length]. lia.
      + intros k. rewrite IHk, Hkeys. split.
        * intros [[->|H]|[v [Hv Hg]]]; auto.
          -- right. exists item. split; [now left|reflexivity].
          -- right. exists v. split; [now right|exact Hg].
        * intros [H|[v [[<-|Hv] Hg]]]; auto.
          right. exists v. auto. }
  intros Hplain.
  destruct (Hfold values [] Hplain (NoDup_nil _) (Forall_nil _))
    as (Hc & Hn & Ht & Hk & Ha).
  cbv zeta in Hc, Hn, Ht, Hk, Ha.
  change (fold_left step values []) with (groupBy values) in Hc, Hn, Ht, Hk, Ha.
  split; [intros k; rewrite Hc; reflexivity|].
  split; [exact Hn|]. split; [rewrite Ht; reflexivity|].
  split; [|exact Ha].
  intros k. rewrite Hk. cbn. split; [intros [[]|H]; exact H|auto].
Qed.

(** [groupBy] counts, when no value of the array names a property of
    [Object.prototype]: a group is a property of the result exactly if
    some value belongs to it, and then its count is the number of those
    values; no group appears twice; the counts add up to the length of
    the array; a missing value and an empty one go to the group
    'unknown'. *)
Theorem groupBy_counts :
  forall (values : list (option string)),
    plain_groups values ->
    let occurrences := fun group =>
      JS.length (filter (fun v => String.eqb (group_of v) group) values) in
    (forall group,
        get_property group (groupBy values)
        = if occurrences group =? 0 then None
          else Some (number (occurrences group)))
    /\ NoDup (map fst (groupBy values))
    /\ total (groupBy values) = JS.length values
    /\ group_of None = "unknown" /\ group_of (Some "") = "unknown".
Proof.
  intros values Hplain occurrences.
  destruct (groupBy_fold values Hplain) as (Hc & Hn & Ht & Hk & Ha).
  split; [|split; [|split; [|split]]]; try reflexivity; try assumption.
  intros group.
  assert (Hnone : get_property group (groupBy values) = None
                  <-> occurrences group = 0).
  { rewrite get_property_key, Hk. subst occurrences. cbv beta.
    unfold JS.length. split.
    - intros Hnone.
      destruct (filter _ values) as [|v l] eqn:E; [reflexivity|].
      exfalso. apply Hnone. exists v.
      assert (Hin : In v (filter (fun v => String.eqb (group_of v) group) values))
        by (rewrite E; now left).
      apply filter_In in Hin. destruct Hin as [Hin Hg].
      apply String.eqb_eq in Hg. auto.
    - intros Hzero [v [Hv Hg]].
      assert (Hin : In v (filter (fun v => String.eqb (group_of v) group) values)).
      { apply filter_In. split; [exact Hv|]. apply String.eqb_eq, Hg. }
      destruct (filter _ values); [contradiction|]. cbn in Hzero. lia. }
  destruct (Z.eqb_spec (occurrences group) 0) as [Hz|Hz].
  - apply Hnone, Hz.
  - destruct (get_property_number group (groupBy values) Ha) as [H|H].
    + exfalso. apply Hz, Hnone, H.
    + rewrite H, Hc. reflexivity.
Qed.

Lemma groupBy_counts_witness :
  get_property "spam"
    (groupBy [Some "spam"; None; Some "abuse"; Some "spam"; Some ""])
  = Some (number 2).
Proof.
  assert (Hplain : plain_groups [Some "spam"; None; Some "abuse"; Some "spam"; Some ""])
    by (repeat constructor).
  exact (proj1 (groupBy_counts _ Hplain) "spam").
Defined.

Example groupBy_types :
  groupBy [Some "spam"; None; Some "abuse"; Some "spam"; Some ""]
  = [("spam", number 2); ("unknown", number 2); ("abuse", number 1)].
Proof. reflexivity. Qed.

(** A group that [Object.prototype] names is not counted: the first read
    of [groups[group]] finds the inherited value, [+ 1] makes a string of
    it, and the property holds a string from then on, however many values
    belong to the group; for [__proto__] no property is made at all.  The
    other groups are counted as if those values were not in the array. *)
Theorem groupBy_inherited_names :
  forall (values : list (option string)) (group : string),
    JS.includes Object_prototype group = true ->
    get_property group (groupBy values)
    = if String.eqb group "__proto__" then None
      else if existsb (fun v => String.eqb (group_of v) group) values
           then Some text
           else None.
Proof.
  intros values group Hin.
  set (step := fun (groups : Groups) (item : option string) =>
                 let group := group_of item in
                 if String.eqb group "__proto__" then groups
                 else set_property group (incremented group groups) groups).
  assert (Hfold : forall l groups,
             get_property group groups = None
             \/ get_property group groups = Some text ->
             get_property group (fold_left step l groups)
             = if String.eqb group "__proto__" then get_property group groups
               else if existsb (fun v => String.eqb (group_of v) group) l
                    then Some text
                    else get_property group groups).
  { induction l as [|item l IH]; intros groups Hg; cbn [fold_left existsb].
    - destruct (String.eqb group "__proto__"); reflexivity.
    - assert (Hnext : get_property group (step groups item)
                      = if String.eqb group "__proto__"
                        then get_property group groups
                        else if String.eqb (group_of item) group then Some text
                             else get_property group groups).
      { unfold step. cbv zeta.
        destruct (String.eqb_spec (group_of item) "__proto__") as [Ep|Ep].
        - destruct (String.eqb_spec group "__proto__") as [Eg|Eg]; [reflexivity|].
          replace (String.eqb (group_of item) group) with false
            by (symmetry; apply String.eqb_neq; congruence).
          reflexivity.
        - rewrite get_property_set.
          destruct (String.eqb_spec (group_of item) group) as [E|E].
          + replace (String.eqb group "__proto__") with false
              by (symmetry; apply String.eqb_neq; congruence).
            unfold incremented. rewrite E.
            destruct Hg as [Hg|Hg]; rewrite Hg; [rewrite Hin|]; reflexivity.
          + destruct (String.eqb group "__proto__"); reflexivity. }
      rewrite IH.
      + rewrite Hnext. destruct (String.eqb group "__proto__"); [reflexivity|].
        destruct (String.eqb (group_of item) group); cbn [orb];
          [destruct (existsb _ l)|]; reflexivity.
      + rewrite Hnext. destruct (String.eqb group "__proto__"); [exact Hg|].
        destruct (String.eqb (group_of item) group); auto. }
  specialize (Hfold values [] (or_introl eq_refl)).
  change (fold_left step values []) with (groupBy values) in Hfold.
  rewrite Hfold. cbn [get_property].
  destruct (String.eqb group "__proto__"); [reflexivity|].
  destruct (existsb _ values); reflexivity.
Qed.

Lemma groupBy_inherited_names_witness :
  get_property "constructor"
    (groupBy [Some "spam"; Some "constructor"; Some "constructor"])
  = Some text.
Proof.
  assert (Hin : JS.includes Object_prototype "constructor" = true) by reflexivity.
  exact (groupBy_inherited_names
           [Some "spam"; Some "constructor"; Some "constructor"] "constructor" Hin).
Defined.

Example groupBy_constructor :
  groupBy [Some "spam"; Some "constructor"; Some "__proto__"; Some "constructor"]
  = [("spam", number 1); ("constructor", text)].
Proof. reflexivity. Qed.

Lemma group_count_of_column (f : ReportData -> string) (k : string)
    (l : list ReportData) :
  (forall r, In r l -> f r = "" -> k <> "unknown" /\ k <> "") ->
  JS.length (filter (fun v => String.eqb (group_of v) k)
               (map (fun r => Some (f r)) l))
  = JS.length (filter (fun r => String.eqb (f r) k) l).
Proof.
  intros Hf. unfold JS.length. f_equal.
  induction l as [|r l IH]; [reflexivity|]. cbn [map filter group_of].
  assert (IH' : List.length
                  (filter (fun v => String.eqb (group_of v) k)
                     (map (fun r => Some (f r)) l))
                = List.length (filter (fun r => String.eqb (f r) k) l))
    by (apply IH; intros r' Hr'; apply Hf; now right).
  destruct (String.eqb_spec (f r) "") as [E|E].
  - destruct (Hf r (or_introl eq_refl) E) as [Hu He]. rewrite E.
    replace (String.eqb "unknown" k) with false
      by (symmetry; apply String.eqb_neq; congruence).
    replace (String.eqb "" k) with false
      by (symmetry; apply String.eqb_neq; congruence).
    exact IH'.
  - destruct (String.eqb (f r) k); cbn [List.length]; rewrite IH'; reflexivity.
Qed.

Lemma plain_groups_column (f : ReportData -> string) (l : list ReportData) :
  (forall r, In r l -> JS.includes Object_prototype (group_of (Some (f r))) = false) ->
  plain_groups (map (fun r => Some (f r)) l).
Proof.
  intros H. unfold plain_groups. apply Forall_map, Forall_forall. exact H.
Qed.

(** [getReportStatistics] when the calls go through and [since] is a time
    value: no table is changed; the groupings by status and by priority
    count every report created in the last [days] days once, so their
    totals are the number of those reports, and the count of a status or
    of a priority is the number of those reports that have it; the same
    holds of the grouping by type when no such report has a type that
    [Object.prototype] names. *)
Theorem getReportStatistics_totals :
  forall (days : Z) (w : World),
    failures w = [] ->
    time_value (JS.Date_now (clock w) - days * 24 * 60 * 60 * 1000) = true ->
    let '(stats, w') := getReportStatistics days w in
    let recent := reports_since days w in
    w' = w
    /\ total (byStatus stats) = JS.length recent
    /\ total (byPriority stats) = JS.length recent
    /\ (forall s, count_of (ReportStatus_name s) (byStatus stats)
                  = JS.length (filter (fun r => String.eqb (ReportStatus_name (status r))
                                                  (ReportStatus_name s)) recent))
    /\ (forall p, count_of (Priority_name p) (byPriority stats)
                  = JS.length (filter (fun r => String.eqb (Priority_name (priority r))
                                                  (Priority_name p)) recent))
    /\ (Forall (fun r => JS.includes Object_prototype (report_type r) = false) recent ->
        total (byType stats) = JS.length recent
        /\ forall t, t <> "" -> t <> "unknown" ->
                     count_of t (byType stats)
                     = JS.length (filter (fun r => String.eqb (report_type r) t) recent)).
Proof.
  intros days w Hok Hsince. reliable w Hok.
  unfold getReportStatistics, reports_since. unfold_client. unfold request.
  cbn -[filter groupBy total count_of JS.length time_value Object_prototype] in *.
  rewrite Hsince. cbn -[filter groupBy total count_of JS.length Object_prototype].
  set (recent := filter _ rs).
  assert (Hlen : forall (f : ReportData -> option string),
             JS.length (map f recent) = JS.length recent).
  { intros f. unfold JS.length. rewrite length_map. reflexivity. }
  assert (Hstatus : plain_groups
                      (map (fun r => Some (ReportStatus_name (status r))) recent)).
  { apply (plain_groups_column (fun r => ReportStatus_name (status r))).
    intros r _. destruct (status r); reflexivity. }
  assert (Hpriority : plain_groups
                        (map (fun r => Some (Priority_name (priority r))) recent)).
  { apply (plain_groups_column (fun r => Priority_name (priority r))).
    intros r _. destruct (priority r); reflexivity. }
  split; [reflexivity|].
  split; [rewrite (proj1 (proj2 (proj2 (groupBy_fold _ Hstatus)))); apply Hlen|].
  split; [rewrite (proj1 (proj2 (proj2 (groupBy_fold _ Hpriority)))); apply Hlen|].
  split; [|split].
  - intros s. rewrite (proj1 (groupBy_fold _ Hstatus)).
    apply (group_count_of_column (fun r => ReportStatus_name (status r))).
    intros r _ H. destruct (status r); discriminate.
  - intros p. rewrite (proj1 (groupBy_fold _ Hpriority)).
    apply (group_count_of_column (fun r => Priority_name (priority r))).
    intros r _ H. destruct (priority r); discriminate.
  - intros Htypes.
    assert (Htype : plain_groups (map (fun r => Some (report_type r)) recent)).
    { apply (plain_groups_column report_type). intros r Hr.
      rewrite Forall_forall in Htypes. specialize (Htypes r Hr).
      cbn [group_of]. destruct (String.eqb (report_type r) ""); [reflexivity|].
      exact Htypes. }
    split; [rewrite (proj1 (proj2 (proj2 (groupBy_fold _ Htype)))); apply Hlen|].
    intros t Ht Hu. rewrite (proj1 (groupBy_fold _ Htype)).
    apply (group_count_of_column report_type). auto.
Qed.

Lemma getReportStatistics_totals_witness :
  total (byStatus (fst (getReportStatistics 30 Sample.bob_reported_nine_times)))
  = JS.length (reports_since 30 Sample.bob_reported_nine_times).
Proof.
  assert (Hok : failures Sample.bob_reported_nine_times = []) by reflexivity.
  assert (Hsince : time_value
                     (JS.Date_now (clock Sample.bob_reported_nine_times)
                      - 30 * 24 * 60 * 60 * 1000) = true) by reflexivity.
  pose proof (getReportStatistics_totals 30 Sample.bob_reported_nine_times Hok Hsince)
    as H.
  destruct (getReportStatistics 30 Sample.bob_reported_nine_times) as [stats w'].
  apply H.
Defined.
